(** * youtube-transcript-backend: a shallow embedding of [app.py]

    The development follows the three pure functions of the service
    ([extract_video_id], [format_transcript], [format_time]) and the
    status mapping of the [/api/transcript] handler.

    Conventions of the embedding:
    - a Python [str] is a Rocq [string]; each [ascii] stands for the Unicode
      code point of the same number (code points 0..255);
    - a Python [float] is an IEEE-754 binary64 value, [pyfloat], with its
      arithmetic written out over [Z] (exact result, then rounding to
      nearest, ties to even);
    - a Python [int] is a [Z];
    - a call that may raise returns a [pyresult]. *)

From Stdlib Require Import ZArith List Bool Ascii String Lia.
From Stdlib Require Import Floats.SpecFloat.
Import ListNotations.

Open Scope string_scope.
Open Scope Z_scope.

(** ** Exceptions *)

Inductive pyexn : Type :=
| OverflowError
| ValueError
| ZeroDivisionError.

Inductive pyresult (A : Type) : Type :=
| Ok (a : A)
| Raise (e : pyexn).

Arguments Ok {A} a.
Arguments Raise {A} e.

Definition bind {A B : Type} (r : pyresult A) (k : A -> pyresult B) : pyresult B :=
  match r with
  | Ok a => k a
  | Raise e => Raise e
  end.

Notation "x <- r ;; k" := (bind r (fun x => k))
  (at level 61, r at next level, right associativity).

(** ** Strings *)

Fixpoint repeat_string (c : ascii) (n : nat) : string :=
  match n with
  | O => EmptyString
  | S n' => String c (repeat_string c n')
  end.

(** [s.replace(a, b)] for one-character [a] and [b]. *)
Fixpoint replace_char (a b : ascii) (s : string) : string :=
  match s with
  | EmptyString => EmptyString
  | String c s' => String (if Ascii.eqb c a then b else c) (replace_char a b s')
  end.

(** [sep.join(l)] *)
Fixpoint join (sep : string) (l : list string) : string :=
  match l with
  | [] => EmptyString
  | [x] => x
  | x :: l' => x ++ sep ++ join sep l'
  end.

Definition is_digit (c : ascii) : bool :=
  let n := Z.of_nat (nat_of_ascii c) in (48 <=? n) && (n <=? 57).

Fixpoint all_digits (s : string) : bool :=
  match s with
  | EmptyString => true
  | String c s' => is_digit c && all_digits s'
  end.

(** ** Integers as decimal text *)

Definition digit_char (d : Z) : ascii := ascii_of_nat (48 + Z.to_nat d).

Arguments digit_char : simpl never.

(** Decimal digits of a non-negative integer, most significant first.
    The fuel bounds the number of divisions by ten. *)
Fixpoint dec_digits (fuel : nat) (n : Z) : string :=
  match fuel with
  | O => String (digit_char (n mod 10)) EmptyString
  | S f =>
      if n <? 10 then String (digit_char n) EmptyString
      else dec_digits f (n / 10) ++ String (digit_char (n mod 10)) EmptyString
  end.

(** [str(n)] for [n >= 0]. *)
Definition str_nonneg (n : Z) : string := dec_digits (Z.to_nat (Z.log2 n)) n.

(** Sign-aware zero padding to a minimal width: the [0w] part of a format
    spec such as [02d] or [06.3f]. [body] is the text without its sign. *)
Definition zero_pad (width : nat) (neg : bool) (body : string) : string :=
  if neg
  then String "-" (repeat_string "0" (width - 1 - String.length body) ++ body)
  else repeat_string "0" (width - String.length body) ++ body.

(** [f"{n:02d}"] *)
Definition fmt_02d (n : Z) : string :=
  zero_pad 2 (n <? 0) (str_nonneg (Z.abs n)).

(** ** Floats: IEEE-754 binary64 *)

(** [FFin neg m e] is the number [(-1)^neg * m * 2^e]. *)
Inductive pyfloat : Type :=
| FNan
| FInf (neg : bool)
| FFin (neg : bool) (m e : Z).

(** The values a binary64 float can take. *)
Definition valid_float (x : pyfloat) : Prop :=
  match x with
  | FFin _ m e => 0 <= m < 2 ^ 53 /\ -1074 <= e <= 971
  | _ => True
  end.

Definition is_finite (x : pyfloat) : bool :=
  match x with
  | FFin _ _ _ => true
  | _ => false
  end.

Definition is_zero (x : pyfloat) : bool :=
  match x with
  | FFin _ m _ => m =? 0
  | _ => false
  end.

(** The sign bit is clear, or the value is a zero: Python's [x >= 0]. *)
Definition nonneg_float (x : pyfloat) : bool :=
  match x with
  | FNan => false
  | FInf neg => negb neg
  | FFin neg m _ => negb neg || (m =? 0)
  end.

(** Quotient of two non-negative integers rounded to the nearest integer,
    ties to even. *)
Definition rne (num den : Z) : Z :=
  let q := num / den in
  let r := num mod den in
  if 2 * r <? den then q
  else if den <? 2 * r then q + 1
  else if Z.even q then q else q + 1.

(** Every finite binary64 value is a whole number of units of [2^-1074],
    the smallest positive float: [m * 2^e] is [units m e] of them. *)
Definition units (m e : Z) : Z := m * 2 ^ (e + 1074).

Definition unit_den : Z := 2 ^ 1074.

(** The binary64 float nearest to the rational [n / d] ([0 <= n], [0 < d]),
    with sign [neg]: 53 bits of mantissa, exponent of the last bit between
    -1074 and 971, ties to even, overflow to infinity. [E] is the exponent
    of the last kept bit, counted from -1074. *)
Definition round_b64 (neg : bool) (n d : Z) : pyfloat :=
  let N := n * unit_den in
  let E := Z.max (Z.log2 (N / d) - 52) 0 in
  let m := rne N (d * 2 ^ E) in
  let m' := if m =? 2 ^ 53 then 2 ^ 52 else m in
  let E' := if m =? 2 ^ 53 then E + 1 else E in
  if 971 + 1074 <? E' then FInf neg else FFin neg m' (E' - 1074).

(** [float(z)] for an integer that fits. *)
Definition float_of_Z (z : Z) : pyfloat := round_b64 (z <? 0) (Z.abs z) 1.

(** A decimal literal [n / d] of the source text, [0 <= n], [0 < d]. *)
Definition float_of_decimal (n d : Z) : pyfloat := round_b64 false n d.

(** [x + y] *)
Definition float_add (x y : pyfloat) : pyfloat :=
  match x, y with
  | FNan, _ | _, FNan => FNan
  | FInf a, FInf b => if Bool.eqb a b then FInf a else FNan
  | FInf a, FFin _ _ _ => FInf a
  | FFin _ _ _, FInf b => FInf b
  | FFin s1 m1 e1, FFin s2 m2 e2 =>
      let a := if s1 then - units m1 e1 else units m1 e1 in
      let b := if s2 then - units m2 e2 else units m2 e2 in
      let s := a + b in
      if s =? 0 then FFin (s1 && s2) 0 (-1074)
      else round_b64 (s <? 0) (Z.abs s) unit_den
  end.

(** [x / y]; Python raises on a zero divisor. *)
Definition float_div (x y : pyfloat) : pyresult pyfloat :=
  match x, y with
  | FNan, _ => if is_zero y then Raise ZeroDivisionError else Ok FNan
  | _, FNan => Ok FNan
  | FInf _, FInf _ => Ok FNan
  | FInf a, FFin b m _ =>
      if m =? 0 then Raise ZeroDivisionError else Ok (FInf (xorb a b))
  | FFin a _ _, FInf b => Ok (FFin (xorb a b) 0 (-1074))
  | FFin s1 m1 e1, FFin s2 m2 e2 =>
      if m2 =? 0 then Raise ZeroDivisionError
      else Ok (round_b64 (xorb s1 s2) (units m1 e1) (units m2 e2))
  end.

(** C's [fmod(x, y)] for a non-zero [y]: exact, with the sign of [x]. *)
Definition c_fmod (x y : pyfloat) : pyfloat :=
  match x, y with
  | FNan, _ | _, FNan => FNan
  | FInf _, _ => FNan
  | FFin s m e, FInf _ => FFin s m e
  | FFin s1 m1 e1, FFin _ m2 e2 =>
      round_b64 s1 (units m1 e1 mod units m2 e2) unit_den
  end.

Definition sign_bit (x : pyfloat) : bool :=
  match x with
  | FNan => false
  | FInf neg => neg
  | FFin neg _ _ => neg
  end.

(** The value is below zero: Python's [x < 0]. *)
Definition float_ltz (x : pyfloat) : bool :=
  match x with
  | FNan => false
  | FInf neg => neg
  | FFin neg m _ => neg && negb (m =? 0)
  end.

(** [x % y] on floats (CPython's [float_rem]): [fmod], then the result is
    moved to the sign of the divisor. *)
Definition float_mod (x y : pyfloat) : pyresult pyfloat :=
  if is_zero y then Raise ZeroDivisionError
  else
    let md := c_fmod x y in
    match md with
    | FFin _ 0 _ => Ok (FFin (sign_bit y) 0 (-1074))
    | _ =>
        if negb (Bool.eqb (float_ltz y) (float_ltz md))
        then Ok (float_add md y)
        else Ok md
    end.

(** [int(x)]: truncation toward zero. *)
Definition py_int (x : pyfloat) : pyresult Z :=
  match x with
  | FNan => Raise ValueError
  | FInf _ => Raise OverflowError
  | FFin neg m e =>
      let t := units m e / unit_den in
      Ok (if neg then - t else t)
  end.

(** [f"{x:06.3f}"]: three decimals, correctly rounded (ties to even on the
    exact binary value), zero-padded to six characters. *)
Definition fmt_06_3f (x : pyfloat) : string :=
  match x with
  | FNan => zero_pad 6 false "nan"
  | FInf neg => zero_pad 6 neg "inf"
  | FFin neg m e =>
      let ms := rne (units m e * 1000) unit_den in
      zero_pad 6 neg
        (str_nonneg (ms / 1000) ++ "." ++
         zero_pad 3 false (str_nonneg (ms mod 1000)))
  end.

(** ** [format_time] *)

Definition format_time (seconds : pyfloat) : pyresult string :=
  q <- float_div seconds (float_of_Z 3600) ;;
  hours <- py_int q ;;
  r <- float_mod seconds (float_of_Z 3600) ;;
  q' <- float_div r (float_of_Z 60) ;;
  minutes <- py_int q' ;;
  seconds' <- float_mod seconds (float_of_Z 60) ;;
  Ok (replace_char "." ","
        (fmt_02d hours ++ ":" ++ fmt_02d minutes ++ ":" ++ fmt_06_3f seconds')).


(** [str(n)] for any integer. *)
Definition str_int (n : Z) : string :=
  if n <? 0 then String "-" (str_nonneg (- n)) else str_nonneg n.

(** ** JSON text ([json.dumps]) *)

(** *** [float.__repr__]: the shortest decimal that reads back as the float *)

(** The least [k] (searched upward from [k0]) with [v < 10^k * d], for
    [v / d > 0]: the position of the decimal point. *)
Fixpoint dec_point (fuel : nat) (k0 v d : Z) : Z :=
  match fuel with
  | O => k0
  | S f =>
      if v * 10 ^ Z.max 0 (- k0) <? 10 ^ Z.max 0 k0 * d then k0
      else dec_point f (k0 + 1) v d
  end.

(** Digits without trailing zeros. *)
Fixpoint strip_zeros (fuel : nat) (n : Z) : Z :=
  match fuel with
  | O => n
  | S f => if (n mod 10 =? 0) && negb (n =? 0) then strip_zeros f (n / 10) else n
  end.

(** Search for the least number of digits [n] (from [n0] up) such that an
    [n]-digit decimal lies in the rounding interval [lo, hi] of the float
    (half units; closed when the mantissa is even); the nearer of the two
    decimals around the value is taken. Returns the digits as an integer and
    the position of the decimal point. *)
Fixpoint shortest_digits (fuel : nat) (n0 k v lo hi : Z) (closed : bool) : Z * Z :=
  let f := 10 ^ Z.max 0 (n0 - k) in
  let den := 2 ^ 1075 * 10 ^ Z.max 0 (k - n0) in
  let d1 := (v * f) / den in
  let d2 := d1 + 1 in
  let inside (d : Z) :=
    if closed then (lo * f <=? d * den) && (d * den <=? hi * f)
    else (lo * f <? d * den) && (d * den <? hi * f) in
  let pick (d : Z) := if d =? 10 ^ n0 then (1, k + 1) else (d, k) in
  match fuel with
  | O => pick d1
  | S fl =>
      match inside d1, inside d2 with
      | true, true =>
          if v * f - d1 * den <=? d2 * den - v * f then pick d1 else pick d2
      | true, false => pick d1
      | false, true => pick d2
      | false, false => shortest_digits fl (n0 + 1) k v lo hi closed
      end
  end.

(** [repr(x)] of a positive finite float of [u] units. *)
Definition repr_units (u : Z) : string :=
  let E := Z.max (Z.log2 u - 52) 0 in
  let m := u / 2 ^ E in
  let v := 2 * u in
  let lo := if (m =? 2 ^ 52) && (0 <? E) then v - 2 ^ (E - 1) else v - 2 ^ E in
  let hi := v + 2 ^ E in
  let k := dec_point 700 (-330) v (2 ^ 1075) in
  let '(d, decpt) := shortest_digits 17 1 k v lo hi (Z.even m) in
  let ds := str_nonneg (strip_zeros 17 d) in
  let len := Z.of_nat (String.length ds) in
  if (-4 <? decpt) && (decpt <=? 16) then
    if decpt <=? 0 then
      "0." ++ repeat_string "0" (Z.to_nat (- decpt)) ++ ds
    else if len <=? decpt then
      ds ++ repeat_string "0" (Z.to_nat (decpt - len)) ++ ".0"
    else
      substring 0 (Z.to_nat decpt) ds ++ "." ++
      substring (Z.to_nat decpt) (Z.to_nat (len - decpt)) ds
  else
    let ex := decpt - 1 in
    substring 0 1 ds ++
    (if 1 <? len then "." ++ substring 1 (Z.to_nat (len - 1)) ds else "") ++
    "e" ++ (if ex <? 0 then "-" else "+") ++ zero_pad 2 false (str_nonneg (Z.abs ex)).

(** How [json.dumps] writes a float ([allow_nan] is on by default). *)
Definition float_repr (x : pyfloat) : string :=
  match x with
  | FNan => "NaN"
  | FInf neg => if neg then "-Infinity" else "Infinity"
  | FFin neg m e =>
      (if neg then "-" else "") ++
      (if units m e =? 0 then "0.0" else repr_units (units m e))
  end.

(** *** Strings: [ensure_ascii] escaping *)

(** The double quote and the line feed. *)
Definition dquote : ascii := ascii_of_nat 34.
Definition nl : string := String (ascii_of_nat 10) EmptyString.

Definition hex_digit (d : Z) : ascii :=
  if d <? 10 then ascii_of_nat (48 + Z.to_nat d) else ascii_of_nat (87 + Z.to_nat d).

Definition json_escape_char (c : ascii) : string :=
  let n := Z.of_nat (nat_of_ascii c) in
  if n =? 34 then String "\" (String dquote EmptyString)
  else if n =? 92 then "\\"
  else if n =? 10 then "\n"
  else if n =? 13 then "\r"
  else if n =? 9 then "\t"
  else if n =? 8 then "\b"
  else if n =? 12 then "\f"
  else if (32 <=? n) && (n <=? 126) then String c EmptyString
  else "\u00" ++ String (hex_digit (n / 16)) (String (hex_digit (n mod 16)) EmptyString).

Fixpoint json_escape (s : string) : string :=
  match s with
  | EmptyString => EmptyString
  | String c s' => json_escape_char c ++ json_escape s'
  end.

Definition json_string (s : string) : string :=
  String dquote (json_escape s ++ String dquote EmptyString).

(** *** Values *)

#[local] Unset Elimination Schemes.
Inductive json : Type :=
| JStr (s : string)
| JFloat (x : pyfloat)
| JList (items : list json)
| JDict (fields : list (string * json)).
#[local] Set Elimination Schemes.

(** A line break followed by the indentation of a nesting level, when
    [indent] is given; nothing otherwise. *)
Definition newline_indent (indent : option nat) (level : nat) : string :=
  match indent with
  | Some w => nl ++ repeat_string " " (w * level)
  | None => EmptyString
  end.

(** The separators [json.dumps] uses when none are given: [", "] between
    items on one line, [","] when [indent] is given (a line break follows);
    [": "] after a key in both cases. *)
Definition default_separators (indent : option nat) : string * string :=
  match indent with
  | Some _ => (",", ": ")
  | None => (", ", ": ")
  end.

(** The encoder, with its item and key separators [seps]. *)
Fixpoint json_encode (indent : option nat) (seps : string * string)
  (level : nat) (v : json) : string :=
  match v with
  | JStr s => json_string s
  | JFloat x => float_repr x
  | JList items =>
      match items with
      | [] => "[]"
      | _ =>
          "[" ++ newline_indent indent (S level) ++
          join (fst seps ++ newline_indent indent (S level))
            (map (json_encode indent seps (S level)) items) ++
          newline_indent indent level ++ "]"
      end
  | JDict fields =>
      match fields with
      | [] => "{}"
      | _ =>
          "{" ++ newline_indent indent (S level) ++
          join (fst seps ++ newline_indent indent (S level))
            (map (fun kv => json_string (fst kv) ++ snd seps ++
                            json_encode indent seps (S level) (snd kv)) fields) ++
          newline_indent indent level ++ "}"
      end
  end.

(** ** Transcripts *)

(** One caption entry: the dict with keys [text], [start], [duration] the
    retrieval library returns. *)
Record CaptionEntry : Type := {
  text : string;
  start : pyfloat;
  duration : pyfloat
}.

Definition Transcript : Type := list CaptionEntry.

Definition json_of_entry (item : CaptionEntry) : json :=
  JDict [("text", JStr (text item));
         ("start", JFloat (start item));
         ("duration", JFloat (duration item))].

(** [json.dumps(transcript, indent=indent, separators=separators)] *)
Definition json_dumps (indent : option nat) (separators : option (string * string))
  (transcript : Transcript) : string :=
  let seps := match separators with
              | Some p => p
              | None => default_separators indent
              end in
  json_encode indent seps 0 (JList (map json_of_entry transcript)).

(** ** [format_transcript] *)

(** The [for i, item in enumerate(transcript, 1)] loop of the [srt] branch:
    [i] is the running index, [srt] the text built so far. *)
Fixpoint srt_loop (items : Transcript) (i : Z) (srt : string) : pyresult string :=
  match items with
  | [] => Ok srt
  | item :: rest =>
      start_s <- format_time (start item) ;;
      end_s <- format_time (float_add (start item) (duration item)) ;;
      srt_loop rest (i + 1)
        (srt ++ str_int i ++ nl ++ start_s ++ " --> " ++ end_s ++ nl ++
         text item ++ nl ++ nl)
  end.

(** [format_type] is [None] when the caller leaves the argument out: the
    parameter then takes its default, ['txt']. *)
Definition format_transcript (transcript : Transcript) (format_type : option string)
  : pyresult string :=
  let format_type := match format_type with Some f => f | None => "txt" end in
  if (format_type =? "txt")%string then
    Ok (join nl (map text transcript))
  else if (format_type =? "srt")%string then
    srt_loop transcript 1 EmptyString
  else if (format_type =? "json")%string then
    Ok (json_dumps (Some 2%nat) None transcript)
  else
    Ok (json_dumps None None transcript).

(** ** Regular expressions, as [re] searches them *)

Inductive regex : Type :=
| Chr (c : ascii)              (* one literal character *)
| NotSpace                     (* \S *)
| Cat (r1 r2 : regex)
| Alt (r1 r2 : regex)          (* r1|r2 *)
| Opt (r : regex)              (* r? (greedy) *)
| Rep (n : nat) (r : regex)    (* r{n} *)
| Group (r : regex)            (* (r), the capturing group *)
| Eps.

(** What [\s] matches in a [str] pattern, among the code points 0..255. *)
Definition is_space (c : ascii) : bool :=
  let n := Z.of_nat (nat_of_ascii c) in
  ((9 <=? n) && (n <=? 13)) || ((28 <=? n) && (n <=? 32)) ||
  (n =? 133) || (n =? 160).

Fixpoint take (n : nat) (s : string) : string :=
  match n, s with
  | S n', String c s' => String c (take n' s')
  | _, _ => EmptyString
  end.

(** Backtracking matcher. [match_re r s cap k] matches [r] at the start of
    [s], trying the alternatives in the order of [re] (the left branch of
    [|] first, a [?] first with its operand and then without), and hands
    the rest of the input and the captured group to [k]; when [k] fails the
    next alternative is tried. *)
Fixpoint match_re {A : Type} (r : regex) (s : string) (cap : option string)
  (k : string -> option string -> option A) : option A :=
  match r with
  | Chr c =>
      match s with
      | String c' s' => if Ascii.eqb c' c then k s' cap else None
      | EmptyString => None
      end
  | NotSpace =>
      match s with
      | String c' s' => if is_space c' then None else k s' cap
      | EmptyString => None
      end
  | Cat r1 r2 => match_re r1 s cap (fun s' cap' => match_re r2 s' cap' k)
  | Alt r1 r2 =>
      match match_re r1 s cap k with
      | Some a => Some a
      | None => match_re r2 s cap k
      end
  | Opt r1 =>
      match match_re r1 s cap k with
      | Some a => Some a
      | None => k s cap
      end
  | Rep n r1 =>
      (fix rep (n : nat) (s : string) (cap : option string) : option A :=
         match n with
         | O => k s cap
         | S n' => match_re r1 s cap (fun s' cap' => rep n' s' cap')
         end) n s cap
  | Group r1 =>
      match_re r1 s cap
        (fun s' _ => k s' (Some (take (String.length s - String.length s') s)))
  | Eps => k s cap
  end.

(** [re.match]: the captured group of a match at the start of [s]. *)
Definition re_match (r : regex) (s : string) : option (option string) :=
  match_re r s None (fun _ cap => Some cap).

(** [re.search]: the leftmost position where the pattern matches. *)
Fixpoint re_search (r : regex) (s : string) : option (option string) :=
  match re_match r s with
  | Some m => Some m
  | None =>
      match s with
      | EmptyString => None
      | String _ s' => re_search r s'
      end
  end.

(** A run of literal characters. *)
Fixpoint lit (s : string) : regex :=
  match s with
  | EmptyString => Eps
  | String c s' => Cat (Chr c) (lit s')
  end.

Fixpoint seq (rs : list regex) : regex :=
  match rs with
  | [] => Eps
  | r :: rs' => Cat r (seq rs')
  end.

(** ** [extract_video_id] *)

(** The pattern of the source, piece by piece. *)
Definition pattern : regex :=
  seq [ Opt (seq [lit "http"; Opt (Chr "s"); lit "://"]);   (* (?:https?:\/\/)? *)
        Opt (lit "www.");                                    (* (?:www\.)? *)
        Alt (lit "youtube.com") (lit "youtu.be");            (* (?:youtube\.com|youtu\.be) *)
        Chr "/";                                             (* \/ *)
        Opt (lit "watch?v=");                                (* (?:watch\?v=)? *)
        Opt (lit "embed/");                                  (* (?:embed\/)? *)
        Opt (lit "v/");                                      (* (?:v\/)? *)
        Opt (lit "shorts/");                                 (* (?:shorts\/)? *)
        Opt (lit "live/");                                   (* (?:live\/)? *)
        Opt (lit "embed/");                                  (* (?:embed\/)? *)
        Opt (lit "shorts/");                                 (* (?:shorts\/)? *)
        Opt (lit "v=");                                      (* (?:v=)? *)
        Group (Rep 11 NotSpace) ].                           (* (\S{11}) *)

(** [match.group(1) if match else None] *)
Definition extract_video_id (url : string) : option string :=
  match re_search pattern url with
  | Some m => m
  | None => None
  end.

(** ** The [/api/transcript] handler *)

(** What [YouTubeTranscriptApi.get_transcript] does for a video id. *)
Inductive fetch_outcome : Type :=
| Fetched (transcript : Transcript)
| NoTranscriptFound
| TranscriptsDisabled
| VideoUnavailable
| OtherException (message : string).

Inductive response_body : Type :=
| Text (s : string)
| Json (fields : list (string * string)).   (* [jsonify] of a flat dict *)

Record response : Type := {
  status : Z;
  mimetype : string;
  body : response_body
}.

(** [str(e)] of the exceptions the formatter can raise. *)
Definition exn_message (e : pyexn) : string :=
  match e with
  | OverflowError => "cannot convert float infinity to integer"
  | ValueError => "cannot convert float NaN to integer"
  | ZeroDivisionError => "float division by zero"
  end.

Definition json_error (fields : list (string * string)) (code : Z) : response :=
  {| status := code; mimetype := "application/json"; body := Json fields |}.

(** [video_url] and [format] are the query parameters ([None] when absent);
    [api] stands for the retrieval library. *)
Definition get_transcript (api : string -> fetch_outcome)
  (video_url format : option string) : response :=
  let format_type := match format with Some f => f | None => "json" end in
  match video_url with
  | None | Some EmptyString =>
      json_error [("error", "No video URL provided")] 400
  | Some url =>
      match extract_video_id url with
      | None | Some EmptyString =>
          json_error [("error", "Invalid YouTube URL")] 400
      | Some video_id =>
          match api video_id with
          | Fetched transcript =>
              match format_transcript transcript (Some format_type) with
              | Ok formatted_transcript =>
                  if (format_type =? "txt")%string then
                    {| status := 200; mimetype := "text/plain";
                       body := Text formatted_transcript |}
                  else if (format_type =? "srt")%string then
                    {| status := 200; mimetype := "text/plain";
                       body := Text formatted_transcript |}
                  else
                    {| status := 200; mimetype := "application/json";
                       body := Text formatted_transcript |}
              | Raise e =>
                  json_error [("error", "An unexpected error occurred");
                              ("details", exn_message e)] 500
              end
          | NoTranscriptFound =>
              json_error
                [("error", "No transcript found for this video");
                 ("details", "The video does not have any available transcripts.")]
                404
          | TranscriptsDisabled =>
              json_error
                [("error", "Transcripts are disabled for this video");
                 ("details", "The video owner has disabled transcripts for this content.")]
                403
          | VideoUnavailable =>
              json_error
                [("error", "The video is unavailable");
                 ("details", "The requested video could not be accessed. It might be private or deleted.")]
                404
          | OtherException message =>
              json_error [("error", "An unexpected error occurred");
                          ("details", message)] 500
          end
      end
  end.

(** ** Reading the output back (specification side) *)

(** The number a string of decimal digits denotes. *)
Fixpoint dec_value_acc (acc : Z) (s : string) : Z :=
  match s with
  | EmptyString => acc
  | String c s' => dec_value_acc (10 * acc + (Z.of_nat (nat_of_ascii c) - 48)) s'
  end.

Definition dec_value (s : string) : Z := dec_value_acc 0 s.

(** [floor x] of a finite float. *)
Definition float_floor (x : pyfloat) : option Z :=
  match x with
  | FFin neg m e =>
      Some (if neg then - ((units m e + unit_den - 1) / unit_den)
            else units m e / unit_den)
  | _ => None
  end.

(** The value of a finite non-negative float in thousandths, rounded to the
    nearest integer, ties to even. *)
Definition float_millis (x : pyfloat) : option Z :=
  match x with
  | FFin false m e => Some (rne (units m e * 1000) unit_den)
  | _ => None
  end.

(** The float a finite value is, in units of [2^-1074]. *)
Definition float_units (x : pyfloat) : Z :=
  match x with
  | FFin _ m e => units m e
  | _ => 0
  end.

(** [s] is the decimal text of [n] in exactly [w] digits. *)
Definition fixed_width (w : nat) (s : string) (n : Z) : Prop :=
  all_digits s = true /\ dec_value s = n /\ String.length s = w.

(** [s] is the decimal text of [n], zero-padded to at least [w] digits
    (wider only when [n] needs more). *)
Definition zero_padded (w : nat) (s : string) (n : Z) : Prop :=
  all_digits s = true /\ dec_value s = n /\
  String.length s = Nat.max w (String.length (str_nonneg n)).

(** What the specification calls a seconds value: a finite float that is
    not below zero. *)
Definition seconds_value (x : pyfloat) : Prop :=
  valid_float x /\ is_finite x = true /\ nonneg_float x = true.

(** An entry whose start, duration and end time are seconds values. *)
Definition timed (item : CaptionEntry) : Prop :=
  seconds_value (start item) /\ seconds_value (duration item) /\
  is_finite (float_add (start item) (duration item)) = true.

(** [s] is the decimal numeral of [n >= 1]: digits only, of value [n], with
    no leading zero. *)
Definition numeral (s : string) (n : Z) : Prop :=
  all_digits s = true /\ dec_value s = n /\ String.get 0 s <> Some "0"%char.

(** The subtitle block of the entry at 1-based index [i]: the index line,
    the two timestamps joined by [ --> ], the text, a blank line. *)
Definition srt_block (i : Z) (item : CaptionEntry) : pyresult string :=
  start_s <- format_time (start item) ;;
  end_s <- format_time (float_add (start item) (duration item)) ;;
  Ok (str_int i ++ nl ++ start_s ++ " --> " ++ end_s ++ nl ++
      text item ++ nl ++ nl).

(** The blocks of the entries in sequence order, numbered from [i]. *)
Fixpoint srt_blocks (i : Z) (items : Transcript) : pyresult (list string) :=
  match items with
  | [] => Ok []
  | item :: rest =>
      b <- srt_block i item ;;
      bs <- srt_blocks (i + 1) rest ;;
      Ok (b :: bs)
  end.

Fixpoint concat_all (l : list string) : string :=
  match l with
  | [] => EmptyString
  | x :: l' => x ++ concat_all l'
  end.

(** [s.split(c)]: the pieces of [s] between the occurrences of [c]. *)
Fixpoint split_on (c : ascii) (s : string) : list string :=
  match s with
  | EmptyString => [EmptyString]
  | String a s' =>
      if Ascii.eqb a c then EmptyString :: split_on c s'
      else match split_on c s' with
           | [] => [String a EmptyString]
           | piece :: pieces => String a piece :: pieces
           end
  end.

Fixpoint has_char (c : ascii) (s : string) : bool :=
  match s with
  | EmptyString => false
  | String a s' => Ascii.eqb a c || has_char c s'
  end.

(** The format types [format_transcript] recognizes. *)
Definition recognized (format_type : string) : Prop :=
  format_type = "txt" \/ format_type = "srt" \/ format_type = "json".

(** One entry as [json.dumps] writes it on one line. *)
Definition entry_line (item : CaptionEntry) : string :=
  "{" ++ json_string "text" ++ ": " ++ json_string (text item) ++ ", " ++
  json_string "start" ++ ": " ++ float_repr (start item) ++ ", " ++
  json_string "duration" ++ ": " ++ float_repr (duration item) ++ "}".

(** Two captions, from 0 s to 1.5 s and from 1.5 s to 3.75 s. *)
Definition sample_transcript : Transcript :=
  [ {| text := "Hello"; start := float_of_Z 0; duration := float_of_decimal 15 10 |};
    {| text := "world"; start := float_of_decimal 15 10;
       duration := float_of_decimal 225 100 |} ].

(** One caption whose start and duration are both the float [1e308]. *)
Definition late_transcript : Transcript :=
  [ {| text := "a"; start := float_of_Z (10 ^ 308);
       duration := float_of_Z (10 ^ 308) |} ].

(** ** Regular expressions, specification side *)

(** [w] begins [s]. *)
Fixpoint starts_with (w s : string) : bool :=
  match w with
  | EmptyString => true
  | String c w' =>
      match s with
      | String c' s' => Ascii.eqb c' c && starts_with w' s'
      | EmptyString => false
      end
  end.

(** [w] occurs somewhere in [s]. *)
Fixpoint occursb (w s : string) : bool :=
  starts_with w s ||
  match s with
  | EmptyString => false
  | String _ s' => occursb w s'
  end.

Fixpoint drop (n : nat) (s : string) : string :=
  match n, s with
  | S n', String _ s' => drop n' s'
  | _, _ => s
  end.

(** No character of [s] is whitespace. *)
Fixpoint no_space (s : string) : bool :=
  match s with
  | EmptyString => true
  | String c s' => negb (is_space c) && no_space s'
  end.

(** The markers the specification lists. *)
Definition markers : list string :=
  ["youtube.com"; "youtu.be"; "watch?v="; "embed/"; "v/"; "shorts/"; "live/"].

(** The words a regular expression matches, with the captured group before
    and after: [matches r w cap cap']. *)
Inductive matches : regex -> string -> option string -> option string -> Prop :=
| M_chr c cap : matches (Chr c) (String c EmptyString) cap cap
| M_notspace c cap :
    is_space c = false -> matches NotSpace (String c EmptyString) cap cap
| M_cat r1 r2 w1 w2 c0 c1 c2 :
    matches r1 w1 c0 c1 -> matches r2 w2 c1 c2 ->
    matches (Cat r1 r2) (w1 ++ w2) c0 c2
| M_alt_l r1 r2 w c c' : matches r1 w c c' -> matches (Alt r1 r2) w c c'
| M_alt_r r1 r2 w c c' : matches r2 w c c' -> matches (Alt r1 r2) w c c'
| M_opt_some r w c c' : matches r w c c' -> matches (Opt r) w c c'
| M_opt_none r c : matches (Opt r) EmptyString c c
| M_rep_0 r c : matches (Rep 0 r) EmptyString c c
| M_rep_S r n w1 w2 c0 c1 c2 :
    matches r w1 c0 c1 -> matches (Rep n r) w2 c1 c2 ->
    matches (Rep (S n) r) (w1 ++ w2) c0 c2
| M_group r w c c' : matches r w c c' -> matches (Group r) w c (Some w)
| M_eps c : matches Eps EmptyString c c.

(** The parts of the pattern before the host, and between the slash and
    the captured group. *)
Definition before_host : list regex :=
  [ Opt (seq [lit "http"; Opt (Chr "s"); lit "://"]); Opt (lit "www.") ].

Definition path_markers : list regex :=
  [ Opt (lit "watch?v="); Opt (lit "embed/"); Opt (lit "v/"); Opt (lit "shorts/");
    Opt (lit "live/"); Opt (lit "embed/"); Opt (lit "shorts/"); Opt (lit "v=") ].

(** ** The Standard Library's binary64, for comparison *)

Definition to_spec (x : pyfloat) : spec_float :=
  match x with
  | FNan => S754_nan
  | FInf neg => S754_infinity neg
  | FFin neg m e =>
      match m with
      | Z.pos p => S754_finite neg p e
      | _ => S754_zero neg
      end
  end.

Definition to_spec_result (r : pyresult pyfloat) : option spec_float :=
  match r with
  | Ok x => Some (to_spec x)
  | Raise _ => None
  end.

(** ** The other handlers *)

(** What [YouTubeTranscriptApi.list_transcripts] does for a video id; the
    handler does not look at the listing itself. *)
Inductive list_outcome : Type :=
| Listed
| ListNoTranscriptFound
| ListTranscriptsDisabled
| ListVideoUnavailable
| ListOtherException (message : string).

(** The values these handlers hand to [jsonify]. *)
Inductive json_field : Type :=
| FText (s : string)
| FBool (b : bool)
| FEntries (entries : Transcript).

Record json_reply : Type := {
  reply_status : Z;
  reply_body : list (string * json_field)
}.

(** [/api/check-transcript]; [lister] stands for the retrieval library. *)
Definition check_transcript (lister : string -> list_outcome)
  (video_url : option string) : json_reply :=
  match video_url with
  | None | Some EmptyString =>
      {| reply_status := 400;
         reply_body := [("error", FText "No video URL provided")] |}
  | Some url =>
      match extract_video_id url with
      | None | Some EmptyString =>
          {| reply_status := 400;
             reply_body := [("error", FText "Invalid YouTube URL")] |}
      | Some video_id =>
          match lister video_id with
          | Listed =>
              {| reply_status := 200;
                 reply_body := [("available", FBool true);
                                ("message", FText "Transcript is available")] |}
          | ListNoTranscriptFound | ListTranscriptsDisabled | ListVideoUnavailable =>
              {| reply_status := 200;
                 reply_body :=
                   [("available", FBool false);
                    ("message", FText "Transcript is not available for this video")] |}
          | ListOtherException message =>
              {| reply_status := 500;
                 reply_body := [("error", FText "An unexpected error occurred");
                                ("details", FText message)] |}
          end
      end
  end.

(** The [<video_id>] part of the route [/api/test-transcript/<video_id>]:
    the default converter of the router passes a text of at least one
    character, none of them a slash. *)
Fixpoint no_slash (s : string) : bool :=
  match s with
  | EmptyString => true
  | String c s' => negb (Ascii.eqb c "/") && no_slash s'
  end.

Definition route_video_id (video_id : string) : bool :=
  negb (video_id =? EmptyString)%string && no_slash video_id.

(** [/api/test-transcript/<video_id>]; [video_id] is what follows the
    prefix in the request path, and [str_e] gives [str(e)] of the exception
    a failed retrieval raises. [None]: the route does not match, the
    function is not called and the answer is the router's. When the
    function is called the status is the default 200 of [jsonify] on both
    paths. *)
Definition test_transcript (api : string -> fetch_outcome)
  (str_e : fetch_outcome -> string) (video_id : string) : option json_reply :=
  if route_video_id video_id then
    match api video_id with
    | Fetched transcript =>
        Some {| reply_status := 200;
                reply_body := [("success", FBool true);
                               ("transcript", FEntries (firstn 5 transcript))] |}
    | failure =>
        Some {| reply_status := 200;
                reply_body := [("success", FBool false);
                               ("error", FText (str_e failure))] |}
    end
  else None.

(** ** Character counts (specification side) *)

(** Every character is printable ASCII (code points 32 to 126). *)
Fixpoint printable (s : string) : bool :=
  match s with
  | EmptyString => true
  | String c s' =>
      let n := Z.of_nat (nat_of_ascii c) in
      (32 <=? n) && (n <=? 126) && printable s'
  end.

Fixpoint count_char (c : ascii) (s : string) : nat :=
  match s with
  | EmptyString => O
  | String a s' => (if Ascii.eqb a c then 1 else 0) + count_char c s'
  end.

(** One entry as [json.dumps(indent=2)] writes it, on five lines. *)
Definition entry_block (item : CaptionEntry) : string :=
  "{" ++ nl ++ "    " ++ json_string "text" ++ ": " ++ json_string (text item) ++
  "," ++ nl ++ "    " ++ json_string "start" ++ ": " ++ float_repr (start item) ++
  "," ++ nl ++ "    " ++ json_string "duration" ++ ": " ++
  float_repr (duration item) ++ nl ++ "  " ++ "}".

(** The [format] query parameter is the given format type. *)
Definition format_is (format : option string) (format_type : string) : bool :=
  match format with
  | Some f => (f =? format_type)%string
  | None => false
  end.


(** ** Entries with float times (specification side) *)

(** The entry's times are floats. *)
Definition float_times (item : CaptionEntry) : Prop :=
  valid_float (start item) /\ valid_float (duration item).

(** The entry's end time, [start + duration], is finite. *)
Definition finite_end (item : CaptionEntry) : Prop :=
  is_finite (float_add (start item) (duration item)) = true.


(** ** Strings with a video link (specification side) *)

(** Somewhere in [url], [youtube.com/] or [youtu.be/] is followed at once by
    eleven characters that are not whitespace. *)
Definition has_video_link (url : string) : Prop :=
  exists pre host tok rest,
    url = pre ++ host ++ "/" ++ tok ++ rest /\
    (host = "youtube.com" \/ host = "youtu.be") /\
    String.length tok = 11%nat /\ no_space tok = true.

(** * Proofs *)

(** ** Agreement with the Standard Library's binary64

    The float operations above, on the inputs used in this file, give the
    results of the Standard Library's IEEE-754 specification ([SpecFloat]);
    the literals are the floats [0x1.dfff2e48e8a72p+5] and
    [0x1.dffef9db22d0ep+5]. *)

Example literal_59_9996 :
  float_of_decimal 599996 10000 = FFin false 0x1dfff2e48e8a72 (5 - 52).
Proof. vm_compute. reflexivity. Qed.

Example literal_59_9995 :
  float_of_decimal 599995 10000 = FFin false 0x1dffef9db22d0e (5 - 52).
Proof. vm_compute. reflexivity. Qed.

Example div_3600_agrees :
  Some (SFdiv 53 1024 (to_spec (float_of_decimal 372525 100)) (to_spec (float_of_Z 3600)))
  = to_spec_result (float_div (float_of_decimal 372525 100) (float_of_Z 3600)).
Proof. vm_compute. reflexivity. Qed.

Example div_60_agrees :
  Some (SFdiv 53 1024 (to_spec (float_of_decimal 599996 10000)) (to_spec (float_of_Z 60)))
  = to_spec_result (float_div (float_of_decimal 599996 10000) (float_of_Z 60)).
Proof. vm_compute. reflexivity. Qed.

Example add_agrees :
  SFadd 53 1024 (to_spec (float_of_decimal 15 10)) (to_spec (float_of_decimal 225 100))
  = to_spec (float_add (float_of_decimal 15 10) (float_of_decimal 225 100)).
Proof. vm_compute. reflexivity. Qed.

Example add_overflow_agrees :
  SFadd 53 1024 (to_spec (float_of_Z (10 ^ 308))) (to_spec (float_of_Z (10 ^ 308)))
  = to_spec (float_add (float_of_Z (10 ^ 308)) (float_of_Z (10 ^ 308))).
Proof. vm_compute. reflexivity. Qed.

(** ** Strings and decimal text *)

Lemma length_app (s1 s2 : string) :
  String.length (s1 ++ s2) = (String.length s1 + String.length s2)%nat.
Proof.
  induction s1 as [|c s1 IH]; simpl; [reflexivity | now rewrite IH].
Qed.

Lemma app_assoc_s (s1 s2 s3 : string) : (s1 ++ s2) ++ s3 = s1 ++ (s2 ++ s3).
Proof.
  induction s1 as [|c s1 IH]; simpl; [reflexivity | now rewrite IH].
Qed.

Lemma app_nil_r_s (s : string) : s ++ "" = s.
Proof.
  induction s as [|c s IH]; simpl; [reflexivity | now rewrite IH].
Qed.

Lemma length_repeat_string c n : String.length (repeat_string c n) = n.
Proof.
  induction n as [|n IH]; simpl; [reflexivity | now rewrite IH].
Qed.

Lemma all_digits_app s1 s2 :
  all_digits (s1 ++ s2) = all_digits s1 && all_digits s2.
Proof.
  induction s1 as [|c s1 IH]; simpl; [reflexivity|].
  now rewrite IH, andb_assoc.
Qed.

Lemma all_digits_zeros n : all_digits (repeat_string "0" n) = true.
Proof.
  induction n as [|n IH]; simpl; [reflexivity | exact IH].
Qed.

Lemma replace_char_app a b s1 s2 :
  replace_char a b (s1 ++ s2) = replace_char a b s1 ++ replace_char a b s2.
Proof.
  induction s1 as [|c s1 IH]; simpl; [reflexivity | now rewrite IH].
Qed.

Lemma is_digit_not_dot c : is_digit c = true -> Ascii.eqb c "." = false.
Proof.
  intros H. destruct (Ascii.eqb_spec c ".") as [->|]; [discriminate H | reflexivity].
Qed.

Lemma replace_dot_digits s :
  all_digits s = true -> replace_char "." "," s = s.
Proof.
  induction s as [|c s IH]; simpl; [reflexivity|].
  intros H. apply andb_prop in H as [Hc Hs].
  now rewrite (is_digit_not_dot _ Hc), IH.
Qed.

Lemma digit_char_code d :
  0 <= d <= 9 -> Z.of_nat (nat_of_ascii (digit_char d)) = 48 + d.
Proof.
  intros H. unfold digit_char.
  rewrite nat_ascii_embedding by lia. lia.
Qed.

Lemma is_digit_digit_char d : 0 <= d <= 9 -> is_digit (digit_char d) = true.
Proof.
  intros H. unfold is_digit. rewrite digit_char_code by exact H.
  apply andb_true_intro; split; apply Z.leb_le; lia.
Qed.

Lemma dec_value_acc_app acc s1 s2 :
  dec_value_acc acc (s1 ++ s2) = dec_value_acc (dec_value_acc acc s1) s2.
Proof.
  revert acc. induction s1 as [|c s1 IH]; intros acc; simpl; [reflexivity | apply IH].
Qed.

Lemma dec_value_zeros n s :
  dec_value_acc 0 (repeat_string "0" n ++ s) = dec_value_acc 0 s.
Proof.
  induction n as [|n IH]; simpl; [reflexivity | exact IH].
Qed.

Lemma log2_div10 n : 10 <= n -> Z.log2 (n / 10) < Z.log2 n.
Proof.
  intros H.
  assert (H1 : 0 < n / 10) by (apply Z.div_str_pos; lia).
  assert (H2 : n / 10 <= n / 2) by (apply Z.div_le_compat_l; lia).
  assert (H3 : n < 2 ^ (Z.succ (Z.log2 n))) by (apply Z.log2_spec; lia).
  assert (H4 : 0 <= Z.log2 n) by apply Z.log2_nonneg.
  rewrite Z.pow_succ_r in H3 by exact H4.
  apply Z.log2_lt_pow2; [exact H1|].
  assert (n / 2 < 2 ^ Z.log2 n) by (apply Z.div_lt_upper_bound; lia).
  lia.
Qed.

Lemma dec_digits_spec fuel n :
  0 <= n -> Z.log2 n <= Z.of_nat fuel ->
  all_digits (dec_digits fuel n) = true /\ dec_value (dec_digits fuel n) = n.
Proof.
  revert n. induction fuel as [|f IH]; intros n Hn Hl.
  - assert (n < 2).
    { destruct (Z.eq_dec n 0) as [->|]; [lia|].
      assert (n < 2 ^ 1); [|lia].
      apply Z.log2_lt_pow2; lia. }
    cbn [dec_digits all_digits]. rewrite Z.mod_small by lia.
    rewrite is_digit_digit_char by lia.
    unfold dec_value; cbn [dec_value_acc]. rewrite digit_char_code by lia.
    split; [reflexivity | lia].
  - cbn [dec_digits]. destruct (Z.ltb_spec n 10) as [Hlt|Hge].
    + cbn [all_digits]. rewrite is_digit_digit_char by lia.
      unfold dec_value; cbn [dec_value_acc]. rewrite digit_char_code by lia.
      split; [reflexivity | lia].
    + assert (Hq : 0 <= n / 10) by (apply Z.div_pos; lia).
      assert (Hl' : Z.log2 (n / 10) <= Z.of_nat f).
      { pose proof (log2_div10 n Hge). lia. }
      destruct (IH (n / 10) Hq Hl') as [Hd Hv].
      assert (Hm : 0 <= n mod 10 <= 9) by (pose proof (Z.mod_pos_bound n 10); lia).
      split.
      * rewrite all_digits_app, Hd. cbn [all_digits]. now rewrite is_digit_digit_char.
      * unfold dec_value in *. rewrite dec_value_acc_app, Hv. cbn [dec_value_acc].
        rewrite digit_char_code by exact Hm.
        pose proof (Z.div_mod n 10). lia.
Qed.

Lemma dec_digits_length_lt10 fuel n :
  n < 10 -> String.length (dec_digits fuel n) = 1%nat.
Proof.
  intros H. destruct fuel as [|f]; simpl; [reflexivity|].
  destruct (Z.ltb_spec n 10); [reflexivity | lia].
Qed.

Lemma str_nonneg_spec n :
  0 <= n -> all_digits (str_nonneg n) = true /\ dec_value (str_nonneg n) = n.
Proof.
  intros H. apply dec_digits_spec; [exact H|].
  rewrite Z2Nat.id by apply Z.log2_nonneg. lia.
Qed.

Lemma str_nonneg_length_lt100 n :
  0 <= n < 100 -> (String.length (str_nonneg n) <= 2)%nat.
Proof.
  intros H. unfold str_nonneg.
  destruct (Z.to_nat (Z.log2 n)) as [|f]; simpl; [lia|].
  destruct (Z.ltb_spec n 10); simpl; [lia|].
  rewrite length_app, dec_digits_length_lt10; [simpl; lia|].
  apply Z.div_lt_upper_bound; lia.
Qed.

Lemma str_nonneg_length_lt1000 n :
  0 <= n < 1000 -> (String.length (str_nonneg n) <= 3)%nat.
Proof.
  intros H. unfold str_nonneg.
  destruct (Z.to_nat (Z.log2 n)) as [|f]; simpl; [lia|].
  destruct (Z.ltb_spec n 10); simpl; [lia|].
  rewrite length_app. simpl.
  destruct f as [|f]; simpl; [lia|].
  destruct (Z.ltb_spec (n / 10) 10); simpl; [lia|].
  rewrite length_app, dec_digits_length_lt10; [simpl; lia|].
  apply Z.div_lt_upper_bound; [lia|].
  assert (n / 10 < 100) by (apply Z.div_lt_upper_bound; lia). lia.
Qed.

(** Zero padding keeps the digits and their value, and reaches the width. *)
Lemma zero_pad_spec w body :
  all_digits body = true ->
  all_digits (zero_pad w false body) = true /\
  dec_value (zero_pad w false body) = dec_value body /\
  String.length (zero_pad w false body) = Nat.max w (String.length body).
Proof.
  intros H. unfold zero_pad. repeat split.
  - now rewrite all_digits_app, all_digits_zeros.
  - unfold dec_value. apply dec_value_zeros.
  - rewrite length_app, length_repeat_string. lia.
Qed.

(** ** Rounding to binary64 *)

Lemma rne_nonneg a d : 0 <= a -> 0 < d -> 0 <= rne a d.
Proof.
  intros Ha Hd. unfold rne.
  assert (0 <= a / d) by (apply Z.div_pos; lia).
  destruct (2 * (a mod d) <? d); [lia|].
  destruct (d <? 2 * (a mod d)); [lia|].
  destruct (Z.even (a / d)); lia.
Qed.

Lemma rne_le a d K : 0 < d -> a <= K * d -> rne a d <= K.
Proof.
  intros Hd Ha. unfold rne.
  pose proof (Z.div_mod a d) as Hdm.
  pose proof (Z.mod_pos_bound a d Hd) as Hm.
  assert (Hq : a / d <= K).
  { apply Z.div_le_upper_bound; lia. }
  destruct (Z.ltb_spec (2 * (a mod d)) d) as [H1|H1]; [lia|].
  assert (a / d < K); [|destruct (d <? 2 * (a mod d)); [|destruct (Z.even (a / d))]; lia].
  destruct (Z.eq_dec (a / d) K) as [E|]; [|lia].
  rewrite E in Hdm. nia.
Qed.

Lemma rne_zero d : 0 < d -> rne 0 d = 0.
Proof.
  intros Hd. unfold rne. rewrite Z.div_0_l, Z.mod_0_l by lia.
  destruct (Z.ltb_spec (2 * 0) d); [reflexivity | lia].
Qed.

Lemma unit_den_pos : 0 < unit_den.
Proof. unfold unit_den. apply Z.pow_pos_nonneg; lia. Qed.

Lemma units_nonneg m e : 0 <= m -> 0 <= units m e.
Proof.
  intros H. unfold units. apply Z.mul_nonneg_nonneg; [exact H|].
  apply Z.pow_nonneg; lia.
Qed.

Lemma units_lt m e :
  0 <= m < 2 ^ 53 -> -1074 <= e <= 971 -> units m e < 2 ^ 53 * 2 ^ 2045.
Proof.
  intros Hm He. unfold units.
  assert (0 < 2 ^ (e + 1074)) by (apply Z.pow_pos_nonneg; lia).
  assert (2 ^ (e + 1074) <= 2 ^ 2045) by (apply Z.pow_le_mono_r; lia).
  nia.
Qed.

(** The quotient lies below the power of two after its binary logarithm. *)
Lemma log2_quot_upper N d :
  0 <= N -> 0 < d -> N < d * 2 ^ (Z.log2 (N / d) + 1).
Proof.
  intros HN Hd.
  pose proof (Z.div_mod N d) as Hdm.
  pose proof (Z.mod_pos_bound N d Hd) as Hm.
  assert (Hq : 0 <= N / d) by (apply Z.div_pos; lia).
  assert (N / d < 2 ^ (Z.log2 (N / d) + 1)).
  { destruct (Z.eq_dec (N / d) 0) as [E|].
    - rewrite E. apply Z.pow_pos_nonneg; cbn; lia.
    - apply Z.log2_spec. lia. }
  nia.
Qed.

Lemma log2_quot_lt N d K :
  0 <= N -> 0 < d -> 1 <= K -> N < d * 2 ^ K -> Z.log2 (N / d) < K.
Proof.
  intros HN Hd HK H.
  assert (Hq : 0 <= N / d) by (apply Z.div_pos; lia).
  destruct (Z.eq_dec (N / d) 0) as [E|Hne].
  - rewrite E. cbn. lia.
  - apply Z.log2_lt_pow2; [lia|].
    apply Z.div_lt_upper_bound; lia.
Qed.

(** The rounded mantissa has at most 53 bits, or is [2^53] exactly. *)
Lemma round_mantissa_le N d :
  0 <= N -> 0 < d ->
  rne N (d * 2 ^ Z.max (Z.log2 (N / d) - 52) 0) <= 2 ^ 53.
Proof.
  intros HN Hd.
  set (L := Z.log2 (N / d)). set (E := Z.max (L - 52) 0).
  assert (HL : 0 <= L) by apply Z.log2_nonneg.
  assert (HE : 0 <= E) by lia.
  assert (HpE : 0 < 2 ^ E) by (apply Z.pow_pos_nonneg; lia).
  apply rne_le; [nia|].
  pose proof (log2_quot_upper N d HN Hd) as Hu. fold L in Hu.
  assert (HQ : 2 ^ (L + 1) <= 2 ^ (53 + E)) by (apply Z.pow_le_mono_r; lia).
  rewrite (Z.pow_add_r 2 53 E) in HQ by lia.
  assert (d * 2 ^ (L + 1) <= d * (2 ^ 53 * 2 ^ E)).
  { apply Z.mul_le_mono_nonneg_l; lia. }
  lia.
Qed.

Lemma round_b64_zero neg d : 0 < d -> round_b64 neg 0 d = FFin neg 0 (-1074).
Proof.
  intros Hd. unfold round_b64.
  rewrite Z.mul_0_l, Z.div_0_l by lia.
  change (Z.max (Z.log2 0 - 52) 0) with 0.
  rewrite rne_zero by (rewrite Z.pow_0_r; lia).
  reflexivity.
Qed.

(** No overflow below [2^K], [K <= 2097] counted in units. *)
Lemma round_b64_finite neg n d K :
  0 <= n -> 0 < d -> 53 <= K <= 2097 -> n * unit_den < d * 2 ^ K ->
  exists m e, round_b64 neg n d = FFin neg m e /\ 0 <= m /\ -1074 <= e.
Proof.
  intros Hn Hd HK Hlt. unfold round_b64.
  pose proof unit_den_pos as HU.
  set (N := n * unit_den) in *.
  assert (HN : 0 <= N) by (unfold N; nia).
  set (L := Z.log2 (N / d)). set (E := Z.max (L - 52) 0).
  assert (HL : L < K) by (apply log2_quot_lt; lia).
  assert (HL0 : 0 <= L) by apply Z.log2_nonneg.
  assert (HpE : 0 < 2 ^ E) by (apply Z.pow_pos_nonneg; lia).
  pose proof (round_mantissa_le N d HN Hd) as Hm. fold L E in Hm.
  assert (Hm0 : 0 <= rne N (d * 2 ^ E)) by (apply rne_nonneg; nia).
  destruct (Z.eqb_spec (rne N (d * 2 ^ E)) (2 ^ 53)) as [Heq|Hne].
  - destruct (Z.ltb_spec (971 + 1074) (E + 1)); [lia|].
    exists (2 ^ 52), (E + 1 - 1074). repeat split; [|lia].
    apply Z.pow_nonneg; lia.
  - destruct (Z.ltb_spec (971 + 1074) E); [lia|].
    exists (rne N (d * 2 ^ E)), (E - 1074). repeat split; lia.
Qed.

(** Rounding does not pass an integer bound [B] below [2^53]. *)
Lemma round_b64_le neg n d B :
  0 <= n -> 0 < d -> 0 <= B < 2 ^ 53 -> n <= B * d ->
  exists m e, round_b64 neg n d = FFin neg m e /\
              0 <= m /\ -1074 <= e /\ units m e <= B * unit_den.
Proof.
  intros Hn Hd HB Hle. unfold round_b64, units.
  pose proof unit_den_pos as HU.
  set (N := n * unit_den) in *.
  assert (HN : 0 <= N) by (unfold N; nia).
  set (L := Z.log2 (N / d)). set (E := Z.max (L - 52) 0).
  assert (HL0 : 0 <= L) by apply Z.log2_nonneg.
  assert (HL : L < 53 + 1074).
  { apply log2_quot_lt; [lia | lia | lia |].
    rewrite Z.pow_add_r by lia. fold unit_den. unfold N. nia. }
  assert (HE : 0 <= E <= 1074) by lia.
  assert (HpE : 0 < 2 ^ E) by (apply Z.pow_pos_nonneg; lia).
  assert (Hsplit : unit_den = 2 ^ (1074 - E) * 2 ^ E).
  { unfold unit_den. rewrite <- Z.pow_add_r by lia. f_equal. lia. }
  assert (Hm : rne N (d * 2 ^ E) <= B * 2 ^ (1074 - E)).
  { apply rne_le; [nia|]. unfold N. rewrite Hsplit. nia. }
  assert (Hm0 : 0 <= rne N (d * 2 ^ E)) by (apply rne_nonneg; nia).
  assert (Hval : rne N (d * 2 ^ E) * 2 ^ E <= B * unit_den).
  { rewrite Hsplit. nia. }
  destruct (Z.eqb_spec (rne N (d * 2 ^ E)) (2 ^ 53)) as [Heq|Hne].
  - destruct (Z.ltb_spec (971 + 1074) (E + 1)); [lia|].
    exists (2 ^ 52), (E + 1 - 1074). repeat split; [apply Z.pow_nonneg; lia | lia |].
    replace (E + 1 - 1074 + 1074) with (E + 1) by lia.
    rewrite Z.pow_add_r by lia. rewrite Heq in Hval.
    change (2 ^ 53) with (2 ^ 52 * 2 ^ 1) in Hval. lia.
  - destruct (Z.ltb_spec (971 + 1074) E); [lia|].
    exists (rne N (d * 2 ^ E)), (E - 1074). repeat split; [lia | lia |].
    replace (E - 1074 + 1074) with E by lia. exact Hval.
Qed.

Lemma rne_exact q d : 0 < d -> rne (q * d) d = q.
Proof.
  intros Hd. unfold rne. rewrite Z.div_mul, Z.mod_mul by lia.
  destruct (Z.ltb_spec (2 * 0) d); [reflexivity | lia].
Qed.

(** A whole number of units with at most 53 significant bits is a float:
    rounding returns it unchanged. *)
Lemma round_b64_exact neg k t :
  0 <= k < 2 ^ 53 -> 0 <= t <= 2045 ->
  exists m e, round_b64 neg (k * 2 ^ t) unit_den = FFin neg m e /\
              0 <= m /\ -1074 <= e /\ units m e = k * 2 ^ t.
Proof.
  intros Hk Ht.
  destruct (Z.eq_dec k 0) as [->|Hk0].
  { rewrite Z.mul_0_l, round_b64_zero by apply unit_den_pos.
    exists 0, (-1074). repeat split; lia. }
  pose proof unit_den_pos as HU.
  assert (Hpt : 0 < 2 ^ t) by (apply Z.pow_pos_nonneg; lia).
  unfold round_b64, units. rewrite Z.div_mul by lia.
  set (n := k * 2 ^ t).
  assert (HL : Z.log2 n = t + Z.log2 k).
  { unfold n. apply Z.log2_mul_pow2; lia. }
  assert (Hlk : 0 <= Z.log2 k < 53).
  { split; [apply Z.log2_nonneg|]. apply Z.log2_lt_pow2; lia. }
  set (E := Z.max (Z.log2 n - 52) 0).
  assert (HE : 0 <= E <= t) by lia.
  assert (HpE : 0 < 2 ^ E) by (apply Z.pow_pos_nonneg; lia).
  assert (Hn : n = (k * 2 ^ (t - E)) * 2 ^ E).
  { unfold n. rewrite <- Z.mul_assoc, <- Z.pow_add_r by lia. do 2 f_equal. lia. }
  assert (Hr : rne (n * unit_den) (unit_den * 2 ^ E) = k * 2 ^ (t - E)).
  { rewrite Hn at 1.
    replace (k * 2 ^ (t - E) * 2 ^ E * unit_den)
      with (k * 2 ^ (t - E) * (unit_den * 2 ^ E)) by ring.
    apply rne_exact. nia. }
  rewrite Hr.
  assert (Hlt : k * 2 ^ (t - E) < 2 ^ 53).
  { destruct (Z.eq_dec E 0) as [E0|E0].
    - assert (t + Z.log2 k <= 52) by lia.
      assert (n < 2 ^ 53).
      { destruct (Z.log2_spec n) as [_ Hs]; [unfold n; nia|].
        assert (2 ^ Z.succ (Z.log2 n) <= 2 ^ 53) by (apply Z.pow_le_mono_r; lia).
        lia. }
      rewrite E0, Z.sub_0_r. exact H0.
    - assert (HE' : E = t + Z.log2 k - 52) by lia.
      destruct (Z.log2_spec k) as [_ Hs]; [lia|].
      assert (Hp : 0 < 2 ^ (t - E)) by (apply Z.pow_pos_nonneg; lia).
      assert (2 ^ Z.succ (Z.log2 k) * 2 ^ (t - E) = 2 ^ 53).
      { rewrite <- Z.pow_add_r by lia. f_equal. lia. }
      nia. }
  assert (Hp : 0 < 2 ^ (t - E)) by (apply Z.pow_pos_nonneg; lia).
  destruct (Z.eqb_spec (k * 2 ^ (t - E)) (2 ^ 53)) as [Heq|_]; [lia|].
  destruct (Z.ltb_spec (971 + 1074) E); [lia|].
  exists (k * 2 ^ (t - E)), (E - 1074). repeat split; [nia | lia |].
  replace (E - 1074 + 1074) with E by lia. symmetry. exact Hn.
Qed.

(** ** The float operations of [format_time] on its constants *)

Section Constant.

(** A positive integer constant [B] of the source, as the float [c]. *)
Variables (mc ec B : Z).
Hypothesis Hc : units mc ec = B * unit_den.
Hypothesis HB : 0 < B < 2 ^ 53.

Let c : pyfloat := FFin false mc ec.

Lemma const_nonzero : (mc =? 0) = false.
Proof.
  apply Z.eqb_neq. intros ->. unfold units in Hc.
  pose proof unit_den_pos. nia.
Qed.

(** [x % B] of a finite non-negative float is exact and lies in [0, B). *)
Lemma float_mod_const neg m e :
  0 <= m < 2 ^ 53 -> -1074 <= e <= 971 -> neg = false \/ m = 0 ->
  exists m' e',
    float_mod (FFin neg m e) c = Ok (FFin false m' e') /\
    0 <= m' /\ -1074 <= e' /\
    units m' e' = units m e mod (B * unit_den).
Proof.
  intros Hm He Hs. pose proof unit_den_pos as HU.
  unfold float_mod, c, is_zero. rewrite const_nonzero.
  unfold c_fmod. rewrite Hc.
  set (a := e + 1074).
  assert (Hpa : 0 < 2 ^ a) by (apply Z.pow_pos_nonneg; lia).
  assert (Hrep : exists k t, 0 <= k < 2 ^ 53 /\ 0 <= t <= 2045 /\
                   units m e mod (B * unit_den) = k * 2 ^ t).
  { unfold units. fold a. destruct (Z.le_gt_cases a 1074) as [Hle|Hgt].
    - exists (m mod (B * 2 ^ (1074 - a))), a.
      assert (Hp : 0 < 2 ^ (1074 - a)) by (apply Z.pow_pos_nonneg; lia).
      assert (HU' : B * unit_den = (B * 2 ^ (1074 - a)) * 2 ^ a).
      { unfold unit_den. rewrite <- Z.mul_assoc, <- Z.pow_add_r by lia.
        do 2 f_equal. lia. }
      rewrite HU'. rewrite Z.mul_mod_distr_r by nia.
      pose proof (Z.mod_pos_bound m (B * 2 ^ (1074 - a))).
      assert (m mod (B * 2 ^ (1074 - a)) <= m) by (apply Z.mod_le; nia).
      repeat split; try lia; nia.
    - exists ((m * 2 ^ (a - 1074)) mod B), 1074.
      assert (Hp : 0 < 2 ^ (a - 1074)) by (apply Z.pow_pos_nonneg; lia).
      assert (Hu : m * 2 ^ a = (m * 2 ^ (a - 1074)) * 2 ^ 1074).
      { rewrite <- Z.mul_assoc, <- Z.pow_add_r by lia. do 2 f_equal. lia. }
      rewrite Hu. fold unit_den. rewrite Z.mul_mod_distr_r by lia.
      pose proof (Z.mod_pos_bound (m * 2 ^ (a - 1074)) B).
      repeat split; lia. }
  destruct Hrep as (k & t & Hk & Ht & Hr). rewrite Hr.
  destruct (round_b64_exact neg k t Hk Ht) as (m' & e' & Heq & Hm' & He' & Hu).
  rewrite Heq.
  destruct m' as [|p|p]; [| |lia].
  - exists 0, (-1074). repeat split; try lia.
    unfold units in *. lia.
  - assert (neg = false).
    { destruct Hs as [Hs|Hs]; [exact Hs|]. subst m.
      unfold units in Hr at 1. rewrite Z.mul_0_l, Z.mod_0_l in Hr by nia.
      unfold units in Hu. pose proof (Z.pow_pos_nonneg 2 (e' + 1074)). nia. }
    subst neg. cbn [float_ltz andb negb Bool.eqb].
    exists (Z.pos p), e'. repeat split; lia.
Qed.

(** [x / B] of a finite float bounded by [A * B] is a finite float bounded
    by [A]; [int] of it and its floor agree. *)
Lemma float_div_const_le neg m e A :
  0 <= m -> -1074 <= e -> neg = false \/ m = 0 ->
  0 <= A < 2 ^ 53 -> units m e <= A * (B * unit_den) ->
  exists q n,
    float_div (FFin neg m e) c = Ok q /\ py_int q = Ok n /\
    float_floor q = Some n /\ 0 <= n <= A.
Proof.
  intros Hm He Hs HA Hle. pose proof unit_den_pos as HU.
  unfold float_div, c. rewrite const_nonzero, Hc, xorb_false_r.
  destruct (round_b64_le neg (units m e) (B * unit_den) A)
    as (m' & e' & Heq & Hm' & He' & Hu);
    [apply units_nonneg; lia | nia | exact HA | exact Hle |].
  rewrite Heq.
  assert (Hq : 0 <= units m' e' / unit_den <= A).
  { split; [apply Z.div_pos; [apply units_nonneg|]; lia|].
    apply Z.div_le_upper_bound; lia. }
  destruct Hs as [Hs|Hs]; subst.
  - exists (FFin false m' e'), (units m' e' / unit_den).
    cbn [py_int float_floor]. repeat split; lia.
  - assert (Hz : units m' e' = 0).
    { unfold units in Hle at 1. rewrite Z.mul_0_l in Hle.
      destruct (round_b64_le neg 0 (B * unit_den) 0)
        as (m2 & e2 & Heq2 & Hm2 & He2 & Hu2); [lia | nia | lia | lia |].
      unfold units in Heq. rewrite Z.mul_0_l in Heq. rewrite Heq in Heq2.
      injection Heq2 as <- <-. pose proof (units_nonneg m' e' Hm'). lia. }
    exists (FFin neg m' e'), 0.
    cbn [py_int float_floor]. rewrite Hz.
    rewrite Z.div_0_l by lia. rewrite Z.add_0_l.
    rewrite Z.div_small by lia.
    destruct neg; repeat split; lia.
Qed.

(** [x / B] of any finite non-negative float does not overflow. *)
Lemma float_div_const_finite m e :
  2 <= B -> 0 <= m < 2 ^ 53 -> -1074 <= e <= 971 ->
  exists q n,
    float_div (FFin false m e) c = Ok q /\ py_int q = Ok n /\
    float_floor q = Some n /\ 0 <= n.
Proof.
  intros HB2 Hm He. pose proof unit_den_pos as HU.
  unfold float_div, c. rewrite const_nonzero, Hc, xorb_false_r.
  destruct (round_b64_finite false (units m e) (B * unit_den) 2097)
    as (m' & e' & Heq & Hm' & He');
    [apply units_nonneg; lia | nia | lia | |].
  { pose proof (units_lt m e Hm He) as Hlt.
    assert (Hn : 0 <= units m e) by (apply units_nonneg; lia).
    assert (Hpow : 2 ^ 53 * 2 ^ 2045 = 2 * 2 ^ 2097).
    { rewrite <- Z.pow_add_r by lia. rewrite <- Z.pow_succ_r by lia.
      f_equal. }
    assert (0 < 2 ^ 2097) by (apply Z.pow_pos_nonneg; lia).
    rewrite Hpow in Hlt. nia. }
  rewrite Heq.
  exists (FFin false m' e'), (units m' e' / unit_den).
  cbn [py_int float_floor]. repeat split.
  apply Z.div_pos; [apply units_nonneg|]; lia.
Qed.

End Constant.

(** ** [format_time] *)

Lemma float_3600 : float_of_Z 3600 = FFin false 7916483719987200 (-41).
Proof. vm_compute. reflexivity. Qed.

Lemma units_3600 : units 7916483719987200 (-41) = 3600 * unit_den.
Proof. vm_compute. reflexivity. Qed.

Lemma float_60 : float_of_Z 60 = FFin false 8444249301319680 (-47).
Proof. vm_compute. reflexivity. Qed.

Lemma units_60 : units 8444249301319680 (-47) = 60 * unit_den.
Proof. vm_compute. reflexivity. Qed.

Lemma fmt_02d_nonneg n : 0 <= n -> zero_padded 2 (fmt_02d n) n.
Proof.
  intros Hn. unfold fmt_02d, zero_padded.
  destruct (Z.ltb_spec n 0); [lia|]. rewrite Z.abs_eq by exact Hn.
  destruct (str_nonneg_spec n Hn) as [Hd Hv].
  destruct (zero_pad_spec 2 _ Hd) as (H1 & H2 & H3).
  repeat split; [exact H1 | now rewrite H2 | exact H3].
Qed.

Lemma fmt_02d_lt100 n : 0 <= n < 100 -> fixed_width 2 (fmt_02d n) n.
Proof.
  intros Hn. destruct (fmt_02d_nonneg n) as (H1 & H2 & H3); [lia|].
  repeat split; [exact H1 | exact H2 |].
  rewrite H3. pose proof (str_nonneg_length_lt100 n Hn). lia.
Qed.

(** The [06.3f] text of a float in [0, 60]: two digits of seconds, the
    point, three digits of thousandths. *)
Lemma fmt_06_3f_shape m e :
  0 <= m -> units m e <= 60 * unit_den ->
  exists ms SS mmm,
    float_millis (FFin false m e) = Some ms /\
    fmt_06_3f (FFin false m e) = SS ++ "." ++ mmm /\
    fixed_width 2 SS (ms / 1000) /\ fixed_width 3 mmm (ms mod 1000).
Proof.
  intros Hm Hle. pose proof unit_den_pos as HU.
  pose proof (units_nonneg m e Hm) as Hu.
  set (ms := rne (units m e * 1000) unit_den).
  assert (Hms : 0 <= ms <= 60000).
  { split; [apply rne_nonneg; lia | apply rne_le; lia]. }
  assert (Hs : 0 <= ms / 1000 < 100).
  { split; [apply Z.div_pos; lia | apply Z.div_lt_upper_bound; lia]. }
  assert (Hf : 0 <= ms mod 1000 < 1000) by (apply Z.mod_pos_bound; lia).
  destruct (str_nonneg_spec (ms / 1000)) as [Hd1 Hv1]; [lia|].
  destruct (str_nonneg_spec (ms mod 1000)) as [Hd2 Hv2]; [lia|].
  destruct (zero_pad_spec 2 _ Hd1) as (A1 & A2 & A3).
  destruct (zero_pad_spec 3 _ Hd2) as (B1 & B2 & B3).
  pose proof (str_nonneg_length_lt100 _ Hs) as Hl1.
  pose proof (str_nonneg_length_lt1000 _ Hf) as Hl2.
  exists ms, (zero_pad 2 false (str_nonneg (ms / 1000))),
    (zero_pad 3 false (str_nonneg (ms mod 1000))).
  split; [reflexivity|]. split.
  - cbn [fmt_06_3f]. fold ms.
    set (a := str_nonneg (ms / 1000)) in *.
    set (b := zero_pad 3 false (str_nonneg (ms mod 1000))) in *.
    unfold zero_pad at 1 2.
    rewrite length_app. cbn [String.length append]. rewrite B3.
    replace (6 - (String.length a + S (Nat.max 3 (String.length (str_nonneg (ms mod 1000))))))%nat
      with (2 - String.length a)%nat by lia.
    now rewrite app_assoc_s.
  - split.
    + repeat split; [exact A1 | now rewrite A2 | lia].
    + repeat split; [exact B1 | now rewrite B2 | lia].
Qed.

(** The fields of the text [format_time] returns, and the float operations
    they are computed by. *)
Lemma format_time_fields :
  forall x, valid_float x -> is_finite x = true -> nonneg_float x = true ->
     exists q r q' s hours minutes ms HH MM SS mmm,
       float_div x (float_of_Z 3600) = Ok q /\ float_floor q = Some hours /\
       float_mod x (float_of_Z 3600) = Ok r /\
       float_units r = float_units x mod (3600 * unit_den) /\
       float_div r (float_of_Z 60) = Ok q' /\ float_floor q' = Some minutes /\
       float_mod x (float_of_Z 60) = Ok s /\
       float_units s = float_units x mod (60 * unit_den) /\
       float_millis s = Some ms /\
       fmt_06_3f s = SS ++ "." ++ mmm /\
       format_time x = Ok (HH ++ ":" ++ MM ++ ":" ++ SS ++ "," ++ mmm) /\
       zero_padded 2 HH hours /\ fixed_width 2 MM minutes /\
       fixed_width 2 SS (ms / 1000) /\ fixed_width 3 mmm (ms mod 1000).
Proof.
  intros [| |neg m e] Hv Hf Hn; try discriminate.
  cbn [valid_float] in Hv. destruct Hv as [Hm He].
  assert (Hs : neg = false \/ m = 0).
  { cbn [nonneg_float] in Hn. apply orb_true_iff in Hn as [Hn|Hn].
    - left. now destruct neg.
    - right. now apply Z.eqb_eq. }
  pose proof unit_den_pos as HU.
  assert (H3600 : 0 < 3600 < 2 ^ 53) by (split; [lia | reflexivity]).
  assert (H60 : 0 < 60 < 2 ^ 53) by (split; [lia | reflexivity]).
  (* hours *)
  assert (Hh : exists q n, float_div (FFin neg m e) (float_of_Z 3600) = Ok q /\
                           py_int q = Ok n /\ float_floor q = Some n /\ 0 <= n).
  { rewrite float_3600. destruct Hs as [-> | ->].
    - apply (float_div_const_finite _ _ 3600 units_3600 H3600); lia.
    - destruct (float_div_const_le _ _ 3600 units_3600 H3600 neg 0 e 0)
        as (q & n & H1 & H2 & H3 & H4);
        [lia | lia | now right | lia | unfold units; lia |].
      exists q, n. repeat split; try assumption; lia. }
  destruct Hh as (q & hours & Hq & Hqi & Hqf & Hh0).
  (* seconds mod 3600, and minutes *)
  destruct (float_mod_const _ _ 3600 units_3600 H3600 neg m e Hm He Hs)
    as (m1 & e1 & Hr & Hm1 & He1 & Hu1).
  assert (Hr3600 : units m1 e1 < 3600 * unit_den).
  { pose proof (Z.mod_pos_bound (units m e) (3600 * unit_den)). lia. }
  destruct (float_div_const_le _ _ 60 units_60 H60 false m1 e1 60
              Hm1 He1 (or_introl eq_refl))
    as (q' & minutes & Hq' & Hqi' & Hqf' & Hmin); [split; [lia | reflexivity] | lia |].
  (* seconds mod 60 *)
  destruct (float_mod_const _ _ 60 units_60 H60 neg m e Hm He Hs)
    as (m2 & e2 & Hsec & Hm2 & He2 & Hu2).
  assert (Hr60 : units m2 e2 < 60 * unit_den).
  { pose proof (Z.mod_pos_bound (units m e) (60 * unit_den)). lia. }
  destruct (fmt_06_3f_shape m2 e2 Hm2) as (ms & SS & mmm & Hms & Hfmt & HSS & Hmmm);
    [lia|].
  exists q, (FFin false m1 e1), q', (FFin false m2 e2), hours, minutes, ms,
    (fmt_02d hours), (fmt_02d minutes), SS, mmm.
  pose proof (fmt_02d_nonneg hours Hh0) as HHH.
  assert (HMM : fixed_width 2 (fmt_02d minutes) minutes) by (apply fmt_02d_lt100; lia).
  rewrite <- float_60 in Hq', Hsec. rewrite <- float_3600 in Hr.
  repeat match goal with |- _ /\ _ => split end; try assumption.
  unfold format_time. rewrite Hq. cbn [bind]. rewrite Hqi. cbn [bind].
  rewrite Hr. cbn [bind]. rewrite Hq'. cbn [bind]. rewrite Hqi'. cbn [bind].
  rewrite Hsec. cbn [bind]. rewrite Hfmt. f_equal.
  destruct HHH as (D1 & _ & _). destruct HMM as (D2 & _ & _).
  destruct HSS as (D3 & _ & _). destruct Hmmm as (D4 & _ & _).
  rewrite !replace_char_app.
  rewrite (replace_dot_digits _ D1), (replace_dot_digits _ D2),
    (replace_dot_digits _ D3), (replace_dot_digits _ D4).
  reflexivity.
Qed.


(** C9. For every finite non-negative seconds value, [format_time] returns
    a string [HH:MM:SS,mmm]: [HH] is [floor(seconds/3600)] zero-padded to two
    digits (wider only for 100 hours and more), [MM] is
    [floor((seconds mod 3600)/60)] in two digits, and [SS.mmm] is the
    six-character fixed-point text of [seconds mod 60] (two digits, three
    decimals), its point replaced by a comma; [format_time(0)] is
    [00:00:00,000] and [format_time(3661.5)] is [01:01:01,500]. *)
Theorem format_time_form :
  (forall x, valid_float x -> is_finite x = true -> nonneg_float x = true ->
     exists q r q' s hours minutes ms HH MM SS mmm,
       float_div x (float_of_Z 3600) = Ok q /\ float_floor q = Some hours /\
       float_mod x (float_of_Z 3600) = Ok r /\
       float_units r = float_units x mod (3600 * unit_den) /\
       float_div r (float_of_Z 60) = Ok q' /\ float_floor q' = Some minutes /\
       float_mod x (float_of_Z 60) = Ok s /\
       float_units s = float_units x mod (60 * unit_den) /\
       float_millis s = Some ms /\
       fmt_06_3f s = SS ++ "." ++ mmm /\
       format_time x = Ok (HH ++ ":" ++ MM ++ ":" ++ SS ++ "," ++ mmm) /\
       zero_padded 2 HH hours /\ fixed_width 2 MM minutes /\
       fixed_width 2 SS (ms / 1000) /\ fixed_width 3 mmm (ms mod 1000)) /\
  format_time (float_of_Z 0) = Ok "00:00:00,000" /\
  format_time (float_of_decimal 36615 10) = Ok "01:01:01,500".
Proof.
  split; [exact format_time_fields | split; vm_compute; reflexivity].
Qed.

(** C9, at [seconds = 3725.25]. *)
Lemma format_time_form_witness :
  exists HH MM SS mmm,
    format_time (float_of_decimal 372525 100)
    = Ok (HH ++ ":" ++ MM ++ ":" ++ SS ++ "," ++ mmm) /\
    String.length MM = 2%nat /\ String.length SS = 2%nat /\
    String.length mmm = 3%nat.
Proof.
  destruct format_time_form as [H _].
  destruct (H (float_of_decimal 372525 100)) as
    (q & r & q' & s & hours & minutes & ms & HH & MM & SS & mmm & Hx).
  - vm_compute. repeat split; discriminate.
  - reflexivity.
  - reflexivity.
  - exists HH, MM, SS, mmm.
    destruct Hx as (_ & _ & _ & _ & _ & _ & _ & _ & _ & _ & Hx & _ & HM & HS & Hm).
    split; [exact Hx|]. split; [apply HM|]. split; [apply HS | apply Hm].
Defined.

(** C1. At [59.9996] the remaining seconds round up to [60.000] and the
    field is left as [60,000]: no carry into the minutes. The float nearest
    to [59.9995] lies below the tie and renders as [59,999]. *)
Theorem format_time_carry_missed :
  format_time (float_of_decimal 599996 10000) = Ok "00:00:60,000" /\
  format_time (float_of_decimal 599995 10000) = Ok "00:00:59,999".
Proof. split; vm_compute; reflexivity. Qed.

(** ** Transcripts *)

Lemma round_b64_valid neg n d :
  0 <= n -> 0 < d -> valid_float (round_b64 neg n d).
Proof.
  intros Hn Hd. unfold round_b64. pose proof unit_den_pos as HU.
  set (N := n * unit_den).
  assert (HN : 0 <= N) by (unfold N; nia).
  set (E := Z.max (Z.log2 (N / d) - 52) 0).
  assert (HE : 0 <= E) by lia.
  assert (HpE : 0 < 2 ^ E) by (apply Z.pow_pos_nonneg; lia).
  pose proof (round_mantissa_le N d HN Hd) as Hm. fold E in Hm.
  assert (Hm0 : 0 <= rne N (d * 2 ^ E)) by (apply rne_nonneg; nia).
  destruct (Z.eqb_spec (rne N (d * 2 ^ E)) (2 ^ 53)) as [Heq|Hne].
  - destruct (Z.ltb_spec (971 + 1074) (E + 1)); cbn [valid_float]; [exact I|].
    split; [split; [apply Z.pow_nonneg; lia | reflexivity] | lia].
  - destruct (Z.ltb_spec (971 + 1074) E); cbn [valid_float]; [exact I|].
    split; lia.
Qed.

Lemma round_b64_nonneg n d :
  is_finite (round_b64 false n d) = true -> nonneg_float (round_b64 false n d) = true.
Proof.
  unfold round_b64. destruct (_ <? _); [discriminate | reflexivity].
Qed.

(** The sum of two seconds values is a seconds value unless it overflows. *)
Lemma float_add_seconds a b :
  seconds_value a -> seconds_value b -> is_finite (float_add a b) = true ->
  seconds_value (float_add a b).
Proof.
  intros (Va & Fa & Na) (Vb & Fb & Nb).
  destruct a as [| |s1 m1 e1]; try discriminate.
  destruct b as [| |s2 m2 e2]; try discriminate.
  cbn [valid_float] in Va, Vb. destruct Va as [Hm1 He1]. destruct Vb as [Hm2 He2].
  cbn [float_add].
  set (x := if s1 then - units m1 e1 else units m1 e1).
  set (y := if s2 then - units m2 e2 else units m2 e2).
  assert (Hx : 0 <= x).
  { unfold x. cbn [nonneg_float] in Na. destruct s1.
    - cbn in Na. apply Z.eqb_eq in Na. subst m1. unfold units. lia.
    - apply units_nonneg. lia. }
  assert (Hy : 0 <= y).
  { unfold y. cbn [nonneg_float] in Nb. destruct s2.
    - cbn in Nb. apply Z.eqb_eq in Nb. subst m2. unfold units. lia.
    - apply units_nonneg. lia. }
  destruct (Z.eqb_spec (x + y) 0) as [H0|H0].
  - intros _. split; [cbn [valid_float]; split; [split; [lia | reflexivity] | lia]|].
    split; [reflexivity|]. cbn [nonneg_float]. apply orb_true_r.
  - destruct (Z.ltb_spec (x + y) 0) as [Hlt|_]; [lia|].
    intros Hfin. split; [|split].
    + apply round_b64_valid; [lia | apply unit_den_pos].
    + exact Hfin.
    + apply round_b64_nonneg. exact Hfin.
Qed.

Lemma format_time_ok x : seconds_value x -> exists s, format_time x = Ok s.
Proof.
  intros (Hv & Hf & Hn).
  destruct (format_time_fields x Hv Hf Hn)
    as (q & r & q' & s & hours & minutes & ms & HH & MM & SS & mmm & H).
  exists (HH ++ ":" ++ MM ++ ":" ++ SS ++ "," ++ mmm). apply H.
Qed.

Lemma srt_block_ok i item : timed item -> exists b, srt_block i item = Ok b.
Proof.
  intros (Hs & Hd & Hf). unfold srt_block.
  destruct (format_time_ok _ Hs) as [s1 H1].
  destruct (format_time_ok _ (float_add_seconds _ _ Hs Hd Hf)) as [s2 H2].
  rewrite H1, H2. cbn [bind]. eexists. reflexivity.
Qed.

Lemma srt_blocks_ok t :
  Forall timed t -> forall i, exists blocks, srt_blocks i t = Ok blocks.
Proof.
  induction 1 as [|item rest Hi _ IH]; intros i; cbn [srt_blocks].
  - exists []. reflexivity.
  - destruct (srt_block_ok i item Hi) as [b Hb]. destruct (IH (i + 1)) as [bs Hbs].
    rewrite Hb, Hbs. cbn [bind]. eexists. reflexivity.
Qed.

(** The loop appends the blocks, in order, to the text built so far. *)
Lemma srt_loop_blocks items : forall i acc,
  srt_loop items i acc =
  (blocks <- srt_blocks i items ;; Ok (acc ++ concat_all blocks)).
Proof.
  induction items as [|item rest IH]; intros i acc; cbn [srt_loop srt_blocks].
  - cbn [bind concat_all]. now rewrite app_nil_r_s.
  - unfold srt_block.
    destruct (format_time (start item)) as [s1|]; cbn [bind]; [|reflexivity].
    destruct (format_time (float_add (start item) (duration item))) as [s2|];
      cbn [bind]; [|reflexivity].
    rewrite IH. destruct (srt_blocks (i + 1) rest) as [bs|]; cbn [bind]; [|reflexivity].
    cbn [concat_all]. now rewrite !app_assoc_s.
Qed.

Lemma srt_blocks_nth t : forall i blocks,
  srt_blocks i t = Ok blocks ->
  List.length blocks = List.length t /\
  forall k item, nth_error t k = Some item ->
    exists s e,
      format_time (start item) = Ok s /\
      format_time (float_add (start item) (duration item)) = Ok e /\
      nth_error blocks k =
        Some (str_int (i + Z.of_nat k) ++ nl ++ s ++ " --> " ++ e ++ nl ++
              text item ++ nl ++ nl).
Proof.
  induction t as [|item rest IH]; intros i blocks; cbn [srt_blocks].
  - intros [= <-]. split; [reflexivity|]. intros [|k] it H; discriminate H.
  - unfold srt_block.
    destruct (format_time (start item)) as [s1|] eqn:H1; cbn [bind]; [|discriminate].
    destruct (format_time (float_add (start item) (duration item))) as [s2|] eqn:H2;
      cbn [bind]; [|discriminate].
    destruct (srt_blocks (i + 1) rest) as [bs|] eqn:Hbs; cbn [bind]; [|discriminate].
    intros [= <-]. destruct (IH (i + 1) bs Hbs) as [Hlen Hnth].
    split; [cbn [List.length]; now rewrite Hlen|].
    intros [|k] it Hk.
    + cbn [nth_error] in Hk. injection Hk as <-.
      exists s1, s2. rewrite H1, H2. repeat split.
      cbn [nth_error]. now rewrite Z.add_0_r.
    + cbn [nth_error] in Hk. destruct (Hnth k it Hk) as (s & e & Hs & He & Hb).
      exists s, e. repeat split; try assumption.
      cbn [nth_error]. rewrite Hb. do 2 f_equal. f_equal. lia.
Qed.

(** The first digit [str] writes for a positive integer is not a zero. *)
Lemma dec_digits_head fuel : forall n,
  1 <= n -> Z.log2 n <= Z.of_nat fuel ->
  exists d rest, dec_digits fuel n = String (digit_char d) rest /\ 1 <= d <= 9.
Proof.
  induction fuel as [|f IH]; intros n Hn Hl; cbn [dec_digits].
  - assert (Hlt : n < 2 ^ Z.succ (Z.log2 n)) by (apply Z.log2_spec; lia).
    pose proof (Z.log2_nonneg n) as H0.
    replace (Z.log2 n) with 0 in Hlt by lia.
    change (2 ^ Z.succ 0) with 2 in Hlt.
    assert (n = 1) by lia. subst n.
    exists 1, EmptyString. split; [reflexivity|lia].
  - destruct (Z.ltb_spec n 10) as [Hs|Hb].
    + exists n, EmptyString. split; [reflexivity|lia].
    + assert (H1 : 1 <= n / 10) by (apply Z.div_le_lower_bound; lia).
      pose proof (log2_div10 n Hb) as Hd.
      destruct (IH (n / 10) H1) as (d & rest & E & Hd9); [lia|].
      rewrite E. cbn [append]. eexists. eexists. split; [reflexivity|exact Hd9].
Qed.

(** [str(n)] is the numeral of [n], for [n >= 1]. *)
Lemma str_int_numeral n : 1 <= n -> numeral (str_int n) n.
Proof.
  intros Hn. unfold str_int.
  destruct (Z.ltb_spec n 0) as [Hneg|_]; [lia|].
  destruct (str_nonneg_spec n) as [Hd Hv]; [lia|].
  split; [exact Hd|]. split; [exact Hv|].
  unfold str_nonneg.
  destruct (dec_digits_head (Z.to_nat (Z.log2 n)) n Hn) as (d & rest & E & Hd9).
  { rewrite Z2Nat.id by apply Z.log2_nonneg. lia. }
  rewrite E. cbn [String.get]. intros [= Hc].
  pose proof (digit_char_code d) as Hcode. rewrite Hc in Hcode.
  change (Z.of_nat (nat_of_ascii "0")) with 48 in Hcode. lia.
Qed.

(** C5. The subtitle rendering is the concatenation, in sequence order, of
    exactly [len(transcript)] blocks; the block of the entry at 1-based
    index [i] is the index on its own line (the decimal numeral of [i]: its
    digits read back give [i], and there is no leading zero), the line
    [format_time(start) --> format_time(start+duration)], the text, and a
    blank line. The rendering exists whenever the times are seconds values
    with a finite sum. *)
Theorem srt_rendering :
  (forall t, format_transcript t (Some "srt") =
             (blocks <- srt_blocks 1 t ;; Ok (concat_all blocks))) /\
  (forall t blocks, srt_blocks 1 t = Ok blocks ->
     List.length blocks = List.length t /\
     forall k item, nth_error t k = Some item ->
       exists idx s e,
         numeral idx (1 + Z.of_nat k) /\
         format_time (start item) = Ok s /\
         format_time (float_add (start item) (duration item)) = Ok e /\
         nth_error blocks k =
           Some (idx ++ nl ++ s ++ " --> " ++ e ++ nl ++ text item ++ nl ++ nl)) /\
  (forall t, Forall timed t -> exists blocks, srt_blocks 1 t = Ok blocks).
Proof.
  split; [|split].
  - intros t. unfold format_transcript. cbn [String.eqb Ascii.eqb Bool.eqb].
    apply srt_loop_blocks.
  - intros t blocks Hb. destruct (srt_blocks_nth t 1 blocks Hb) as [Hlen Hnth].
    split; [exact Hlen|]. intros k item Hk.
    destruct (Hnth k item Hk) as (s & e & Hs & He & Hblk).
    exists (str_int (1 + Z.of_nat k)), s, e.
    split; [apply str_int_numeral; lia|]. repeat split; assumption.
  - intros t Ht. apply srt_blocks_ok. exact Ht.
Qed.

Lemma sample_transcript_timed : Forall timed sample_transcript.
Proof.
  apply Forall_cons; [|apply Forall_cons; [|apply Forall_nil]];
    vm_compute; repeat split; discriminate.
Qed.

(** C5, on a transcript of two captions: two blocks, the second with the
    numeral of 2 on its index line. *)
Lemma srt_rendering_witness :
  exists blocks idx rest,
    srt_blocks 1 sample_transcript = Ok blocks /\
    List.length blocks = 2%nat /\
    format_transcript sample_transcript (Some "srt") = Ok (concat_all blocks) /\
    nth_error blocks 1 = Some (idx ++ nl ++ rest) /\ numeral idx 2.
Proof.
  destruct srt_rendering as (H1 & H2 & H3).
  destruct (H3 sample_transcript sample_transcript_timed) as [blocks Hb].
  destruct (H2 _ _ Hb) as [Hlen Hnth].
  destruct (Hnth 1%nat _ eq_refl) as (idx & s & e & Hidx & _ & _ & Hblk).
  exists blocks, idx, (s ++ " --> " ++ e ++ nl ++ "world" ++ nl ++ nl).
  split; [exact Hb|]. split; [exact Hlen|]. split.
  - rewrite H1, Hb. reflexivity.
  - split; [exact Hblk|exact Hidx].
Defined.

Lemma split_on_app c x rest :
  has_char c x = false ->
  split_on c (x ++ String c rest) = x :: split_on c rest.
Proof.
  induction x as [|a x IH]; cbn [has_char append split_on]; intros H.
  - now rewrite Ascii.eqb_refl.
  - apply orb_false_elim in H as [Ha Hx]. rewrite Ha, IH by exact Hx. reflexivity.
Qed.

Lemma split_on_none c x : has_char c x = false -> split_on c x = [x].
Proof.
  induction x as [|a x IH]; cbn [has_char split_on]; intros H; [reflexivity|].
  apply orb_false_elim in H as [Ha Hx]. now rewrite Ha, IH.
Qed.

Lemma split_join c l :
  l <> [] -> Forall (fun x => has_char c x = false) l ->
  split_on c (join (String c EmptyString) l) = l.
Proof.
  intros Hne H. induction H as [|x l Hx Hl IH]; [congruence|].
  destruct l as [|y l]; cbn [join].
  - apply split_on_none. exact Hx.
  - cbn [append]. rewrite split_on_app by exact Hx. f_equal. apply IH. discriminate.
Qed.

(** C6. The plain-text rendering is the [text] fields joined with newline
    separators in sequence order: a single text stands alone, a further
    text follows the first after one newline, and splitting the rendering at
    its newlines gives the texts back (when no text contains a newline);
    the empty transcript renders as the empty string. *)
Theorem txt_rendering :
  (forall t, format_transcript t (Some "txt") = Ok (join nl (map text t))) /\
  format_transcript [] (Some "txt") = Ok EmptyString /\
  (forall item, format_transcript [item] (Some "txt") = Ok (text item)) /\
  (forall item item' t,
     join nl (map text (item :: item' :: t)) =
     text item ++ nl ++ join nl (map text (item' :: t))) /\
  (forall t, t <> [] ->
     Forall (fun item => has_char (ascii_of_nat 10) (text item) = false) t ->
     split_on (ascii_of_nat 10) (join nl (map text t)) = map text t).
Proof.
  repeat split; try reflexivity.
  intros t Hne Hall. apply split_join.
  - destruct t; [congruence | discriminate].
  - apply Forall_map. exact Hall.
Qed.

(** C6, on a transcript of two captions. *)
Lemma txt_rendering_witness :
  split_on (ascii_of_nat 10) (join nl (map text sample_transcript))
  = ["Hello"; "world"].
Proof.
  destruct txt_rendering as (_ & _ & _ & _ & H).
  apply (H sample_transcript); [discriminate|].
  repeat constructor.
Defined.

(** C7 (as amended). [format_transcript] returns a string, for every format
    type or none, on every transcript whose entries have seconds values for
    [start] and [duration] with a finite sum; for every format type other
    than [srt] it returns a string on every transcript. *)
Theorem format_transcript_total t format_type :
  Forall timed t \/ format_type <> Some "srt" ->
  exists s, format_transcript t format_type = Ok s.
Proof.
  intros H. unfold format_transcript.
  set (ft := match format_type with Some f => f | None => "txt" end).
  destruct (String.eqb_spec ft "txt"); [eexists; reflexivity|].
  destruct (String.eqb_spec ft "srt") as [Hsrt|].
  - rewrite srt_loop_blocks.
    destruct H as [H|H].
    + destruct (srt_blocks_ok t H 1) as [bs Hbs]. rewrite Hbs. cbn [bind].
      eexists. reflexivity.
    + exfalso. apply H. unfold ft in Hsrt. destruct format_type; [now subst|discriminate].
  - destruct (String.eqb_spec ft "json"); eexists; reflexivity.
Qed.

(** C7, on a transcript of two captions and the [srt] format. *)
Lemma format_transcript_total_witness :
  exists s, format_transcript sample_transcript (Some "srt") = Ok s.
Proof.
  apply format_transcript_total. left. exact sample_transcript_timed.
Defined.

(** C7 as stated fails: both times of the entry are finite and not below
    zero, their sum overflows to infinity, and [int] raises on it. *)
Lemma format_transcript_raises :
  Forall (fun item => seconds_value (start item) /\ seconds_value (duration item))
    late_transcript /\
  format_transcript late_transcript (Some "srt") = Raise OverflowError.
Proof.
  split.
  - apply Forall_cons; [|apply Forall_nil].
    vm_compute; repeat split; discriminate.
  - vm_compute. reflexivity.
Qed.

Lemma json_entry_line item :
  json_encode None (", ", ": ") 1 (json_of_entry item) = entry_line item.
Proof.
  unfold json_of_entry, entry_line.
  cbn [json_encode map join fst snd newline_indent].
  repeat (rewrite !app_assoc_s || cbn [append]). reflexivity.
Qed.

Lemma json_dumps_compact t :
  json_dumps None None t =
  match t with
  | [] => "[]"
  | _ => "[" ++ join ", " (map entry_line t) ++ "]"
  end.
Proof.
  unfold json_dumps. cbn [default_separators].
  destruct t as [|item t]; [reflexivity|].
  cbn [map json_encode fst snd newline_indent].
  rewrite map_map, json_entry_line.
  rewrite (map_ext _ _ json_entry_line).
  reflexivity.
Qed.

(** C4 (as amended). With a format type outside [txt], [srt] and [json],
    [format_transcript] returns [json.dumps(transcript)] rather than an
    error: the entries in order on one line, written with the default
    separators of [json.dumps], a comma and a space between items and a
    colon and a space after each key. With no format type the parameter
    takes its default [txt] and the result is the plain-text rendering. *)
Theorem format_fallback t :
  (forall format_type, ~ recognized format_type ->
     format_transcript t (Some format_type) = Ok (json_dumps None None t)) /\
  json_dumps None None t =
    match t with
    | [] => "[]"
    | _ => "[" ++ join ", " (map entry_line t) ++ "]"
    end /\
  format_transcript t None = format_transcript t (Some "txt") /\
  format_transcript t None = Ok (join nl (map text t)).
Proof.
  split; [|split; [apply json_dumps_compact | split; reflexivity]].
  intros ft Hft. unfold format_transcript, recognized in *.
  destruct (String.eqb_spec ft "txt"); [tauto|].
  destruct (String.eqb_spec ft "srt"); [tauto|].
  destruct (String.eqb_spec ft "json"); [tauto|].
  reflexivity.
Qed.

(** C4, with the format type [xml]. *)
Lemma format_fallback_witness :
  format_transcript sample_transcript (Some "xml")
  = Ok ("[" ++ join ", " (map entry_line sample_transcript) ++ "]").
Proof.
  destruct (format_fallback sample_transcript) as (H1 & H2 & _).
  rewrite H1.
  - rewrite H2. reflexivity.
  - unfold recognized. intros [H|[H|H]]; discriminate H.
Defined.

(** C4 as stated fails twice: with no format type the result is the plain
    text, not a serialization; and the fallback serialization has a space
    after each separator, which the serialization without extraneous
    whitespace ([separators=(',', ':')]) has not. *)
Lemma fallback_not_default_nor_tight :
  format_transcript sample_transcript None = Ok ("Hello" ++ nl ++ "world") /\
  format_transcript sample_transcript None
    <> Ok (json_dumps None (Some (",", ":")) sample_transcript) /\
  ~ recognized "xml" /\
  format_transcript sample_transcript (Some "xml")
    <> Ok (json_dumps None (Some (",", ":")) sample_transcript) /\
  (exists s, format_transcript sample_transcript (Some "xml") = Ok s /\
             has_char " " s = true) /\
  has_char " " (json_dumps None (Some (",", ":")) sample_transcript) = false.
Proof.
  split; [vm_compute; reflexivity|].
  split; [vm_compute; discriminate|].
  split; [intros [H|[H|H]]; discriminate H|].
  split; [vm_compute; discriminate|].
  split; [|vm_compute; reflexivity].
  eexists. split; [reflexivity|]. vm_compute. reflexivity.
Qed.
(** ** Regular expressions *)

Lemma take_app w s : take (String.length (w ++ s) - String.length s) (w ++ s) = w.
Proof.
  rewrite length_app.
  replace (String.length w + String.length s - String.length s)%nat
    with (String.length w) by lia.
  induction w as [|c w IH]; cbn [append String.length take].
  - destruct s; reflexivity.
  - now rewrite IH.
Qed.

(** The matcher only succeeds along a word the expression matches. *)
Lemma match_re_sound A r : forall s cap (k : string -> option string -> option A) a,
  match_re r s cap k = Some a ->
  exists w s' cap', s = w ++ s' /\ matches r w cap cap' /\ k s' cap' = Some a.
Proof.
  induction r as [c| |r1 IH1 r2 IH2|r1 IH1 r2 IH2|r1 IH1|n r1 IH1|r1 IH1|];
    intros s cap k a H; cbn [match_re] in H.
  - destruct s as [|c' s']; [discriminate|].
    destruct (Ascii.eqb_spec c' c) as [->|]; [|discriminate].
    exists (String c EmptyString), s', cap. repeat split; [constructor | exact H].
  - destruct s as [|c' s']; [discriminate|].
    destruct (is_space c') eqn:Hc; [discriminate|].
    exists (String c' EmptyString), s', cap. repeat split; [now constructor | exact H].
  - apply IH1 in H as (w1 & s1 & c1 & -> & M1 & H).
    apply IH2 in H as (w2 & s2 & c2 & -> & M2 & H).
    exists (w1 ++ w2), s2, c2. rewrite app_assoc_s.
    repeat split; [econstructor; eassumption | exact H].
  - destruct (match_re r1 s cap k) as [a'|] eqn:H1.
    + injection H as <-. apply IH1 in H1 as (w & s' & c' & -> & M & H).
      exists w, s', c'. repeat split; [now apply M_alt_l | exact H].
    + apply IH2 in H as (w & s' & c' & -> & M & H).
      exists w, s', c'. repeat split; [now apply M_alt_r | exact H].
  - destruct (match_re r1 s cap k) as [a'|] eqn:H1.
    + injection H as <-. apply IH1 in H1 as (w & s' & c' & -> & M & H).
      exists w, s', c'. repeat split; [now apply M_opt_some | exact H].
    + exists EmptyString, s, cap. repeat split; [apply M_opt_none | exact H].
  - revert s cap H. induction n as [|n IHn]; intros s cap H.
    + exists EmptyString, s, cap. repeat split; [apply M_rep_0 | exact H].
    + simpl in H. apply IH1 in H as (w1 & s1 & c1 & -> & M1 & H).
      apply IHn in H as (w2 & s2 & c2 & -> & M2 & H).
      exists (w1 ++ w2), s2, c2. rewrite app_assoc_s.
      repeat split; [econstructor; eassumption | exact H].
  - apply IH1 in H as (w & s' & c' & -> & M & H).
    rewrite take_app in H.
    exists w, s', (Some w). repeat split; [econstructor; eassumption | exact H].
  - exists EmptyString, s, cap. repeat split; [apply M_eps | exact H].
Qed.

Lemma re_search_sound r : forall s m,
  re_search r s = Some m ->
  exists pre w rest cap, s = pre ++ w ++ rest /\ matches r w None cap /\ m = cap.
Proof.
  induction s as [|c s IH]; intros m H; cbn [re_search] in H.
  - destruct (re_match r EmptyString) as [m'|] eqn:Hm; [|discriminate].
    injection H as <-. unfold re_match in Hm.
    apply match_re_sound in Hm as (w & s' & cap & Hs & M & [= <-]).
    exists EmptyString, w, s', cap. repeat split; assumption.
  - destruct (re_match r (String c s)) as [m'|] eqn:Hm.
    + injection H as <-. unfold re_match in Hm.
      apply match_re_sound in Hm as (w & s' & cap & Hs & M & [= <-]).
      exists EmptyString, w, s', cap. repeat split; assumption.
    + apply IH in H as (pre & w & rest & cap & -> & M & ->).
      exists (String c pre), w, rest, cap. repeat split. exact M.
Qed.

Lemma matches_lit w : forall u c c', matches (lit w) u c c' -> u = w.
Proof.
  induction w as [|a w IH]; intros u c c' H; cbn [lit] in H.
  - inversion H. reflexivity.
  - inversion H as [| |r1 r2 w1 w2 c0 c1 c2 M1 M2| | | | | | | |]; subst.
    inversion M1; subst. cbn [append]. f_equal. eapply IH. eassumption.
Qed.

Lemma matches_rep_notspace n : forall w c c',
  matches (Rep n NotSpace) w c c' ->
  String.length w = n /\ no_space w = true /\ c' = c.
Proof.
  induction n as [|n IH]; intros w c c' H.
  - inversion H; subst. repeat split.
  - inversion H as [| | | | | | | |r n' w1 w2 c0 c1 c2 M1 M2| |]; subst.
    inversion M1 as [|a cap Ha| | | | | | | | |]; subst.
    destruct (IH _ _ _ M2) as (Hl & Hn & ->).
    cbn [append String.length no_space]. rewrite Ha, Hn, Hl. repeat split.
Qed.

Lemma matches_seq_app l1 : forall l2 w c c',
  matches (seq (l1 ++ l2)) w c c' ->
  exists w1 w2 c1, w = w1 ++ w2 /\ matches (seq l1) w1 c c1 /\ matches (seq l2) w2 c1 c'.
Proof.
  induction l1 as [|r l1 IH]; intros l2 w c c' H; cbn [app seq] in *.
  - exists EmptyString, w, c. repeat split; [apply M_eps | exact H].
  - inversion H as [| |r1 r2 w1 w2 c0 c1 c2 M1 M2| | | | | | | |]; subst.
    apply IH in M2 as (u1 & u2 & c3 & -> & N1 & N2).
    exists (w1 ++ u1), u2, c3. rewrite app_assoc_s.
    repeat split; [econstructor; eassumption | exact N2].
Qed.

Lemma pattern_parts :
  pattern = seq (before_host ++
                 [Alt (lit "youtube.com") (lit "youtu.be"); Chr "/"] ++
                 path_markers ++ [Group (Rep 11 NotSpace)]).
Proof. reflexivity. Qed.

(** What the pattern matches: an optional scheme and [www.], a host, a
    slash, optional path markers, and eleven characters that are not
    whitespace, which are the captured group. *)
Lemma matches_pattern w cap :
  matches pattern w None cap ->
  exists a host b t,
    w = a ++ host ++ "/" ++ b ++ t /\
    (host = "youtube.com" \/ host = "youtu.be") /\
    String.length t = 11%nat /\ no_space t = true /\ cap = Some t.
Proof.
  rewrite pattern_parts. intros H.
  apply matches_seq_app in H as (a & w1 & c1 & -> & Ma & H).
  apply matches_seq_app in H as (wh & w2 & c2 & -> & Mh & H).
  apply matches_seq_app in H as (b & w3 & c3 & -> & Mb & H).
  cbn [seq] in Mh, H.
  inversion Mh as [| |r1 r2 h x c0 c4 c5 M1 M2| | | | | | | |]; subst.
  inversion M2 as [| |r1 r2 sl y c0 c6 c7 M3 M4| | | | | | | |]; subst.
  inversion M3; subst. inversion M4; subst.
  inversion H as [| |r1 r2 t z c0 c8 c9 M5 M6| | | | | | | |]; subst.
  inversion M6; subst.
  inversion M5; subst.
  match goal with
  | M : matches (Rep 11 NotSpace) _ _ _ |- _ =>
      destruct (matches_rep_notspace _ _ _ _ M) as (Hl & Hn & _)
  end.
  exists a, h, b, t. rewrite !app_nil_r_s. cbn [append].
  repeat split; try assumption.
  - now rewrite !app_assoc_s.
  - inversion M1; subst;
      match goal with
      | M : matches _ h _ _ |- _ =>
          first [ apply (matches_lit "youtube.com") in M
                | apply (matches_lit "youtu.be") in M ]; subst; auto
      end.
Qed.

Lemma extract_video_id_sound url id :
  extract_video_id url = Some id ->
  exists pre a host b rest,
    url = pre ++ a ++ host ++ "/" ++ b ++ id ++ rest /\
    (host = "youtube.com" \/ host = "youtu.be") /\
    String.length id = 11%nat /\ no_space id = true.
Proof.
  unfold extract_video_id. destruct (re_search pattern url) as [m|] eqn:H; [|discriminate].
  intros ->. apply re_search_sound in H as (pre & w & rest & cap & -> & M & E).
  apply matches_pattern in M as (a & host & b & t & -> & Hh & Hl & Hn & ->).
  injection E as <-.
  exists pre, a, host, b, rest. rewrite !app_assoc_s. cbn [append].
  repeat split; assumption.
Qed.

Lemma starts_with_app w s : starts_with w (w ++ s) = true.
Proof.
  induction w as [|c w IH]; cbn [append starts_with]; [reflexivity|].
  now rewrite Ascii.eqb_refl, IH.
Qed.

Lemma drop_app w s : drop (String.length w) (w ++ s) = s.
Proof.
  induction w as [|c w IH]; cbn [append String.length drop]; [|exact IH].
  destruct s; reflexivity.
Qed.

Lemma occursb_app w pre rest : occursb w (pre ++ w ++ rest) = true.
Proof.
  induction pre as [|c pre IH]; cbn [append].
  - destruct (w ++ rest) eqn:E; cbn [occursb]; rewrite <- E, starts_with_app; reflexivity.
  - cbn [occursb]. rewrite IH. apply orb_true_r.
Qed.

(** C10. Whenever [extract_video_id] succeeds the identifier has exactly
    eleven characters, none of them whitespace; nothing else is checked, so
    it can contain [?], [=], [&] or [/]. *)
Theorem extract_video_id_shape :
  (forall url id, extract_video_id url = Some id ->
     String.length id = 11%nat /\ no_space id = true) /\
  extract_video_id "https://www.youtube.com/playlist?list=PL1234567890"
    = Some "playlist?li" /\
  extract_video_id "youtu.be/a&b/c?d=efg" = Some "a&b/c?d=efg".
Proof.
  split; [|split; vm_compute; reflexivity].
  intros url id H.
  apply extract_video_id_sound in H as (pre & a & host & b & rest & _ & _ & Hl & Hn).
  split; assumption.
Qed.

(** C10, on a short link. *)
Lemma extract_video_id_shape_witness :
  String.length "dQw4w9WgXcQ" = 11%nat /\ no_space "dQw4w9WgXcQ" = true.
Proof.
  destruct extract_video_id_shape as [H _].
  apply (H "https://youtu.be/dQw4w9WgXcQ"). vm_compute. reflexivity.
Defined.

(** C8. A string in which none of the markers occurs is not matched; nor is
    a string of fewer than twenty characters (the shortest host, the slash
    and eleven characters), in particular a bare token of eleven
    characters. *)
Theorem extract_video_id_fails :
  (forall s, (forall m, In m markers -> occursb m s = false) ->
             extract_video_id s = None) /\
  (forall s, (String.length s < 20)%nat -> extract_video_id s = None) /\
  (forall token, String.length token = 11%nat -> extract_video_id token = None) /\
  extract_video_id "dQw4w9WgXcQ" = None.
Proof.
  assert (Hshort : forall s, (String.length s < 20)%nat -> extract_video_id s = None).
  { intros s Hlen. destruct (extract_video_id s) as [id|] eqn:H; [|reflexivity].
    apply extract_video_id_sound in H
      as (pre & a & host & b & rest & -> & Hh & Hl & _).
    rewrite !length_app in Hlen. cbn [String.length] in Hlen.
    destruct Hh as [-> | ->]; cbn [String.length] in Hlen; lia. }
  split; [|split; [exact Hshort | split]].
  - intros s Hm. destruct (extract_video_id s) as [id|] eqn:H; [|reflexivity].
    apply extract_video_id_sound in H
      as (pre & a & host & b & rest & -> & Hh & _).
    assert (Ho : occursb host (pre ++ a ++ host ++ "/" ++ b ++ id ++ rest) = true).
    { rewrite <- (app_assoc_s pre a). apply occursb_app. }
    rewrite Hm in Ho; [discriminate|].
    destruct Hh as [-> | ->]; cbn [markers In]; auto.
  - intros token Hl. apply Hshort. lia.
  - vm_compute. reflexivity.
Qed.

(** C8, on [not a url]. *)
Lemma extract_video_id_fails_witness : extract_video_id "not a url" = None.
Proof.
  destruct extract_video_id_fails as [H _]. apply H.
  intros m Hm. cbn [markers In] in Hm.
  repeat destruct Hm as [<- | Hm]; try reflexivity. destruct Hm.
Defined.

(** *** Evaluating the matcher *)

Lemma match_lit A w : forall s cap (k : string -> option string -> option A),
  match_re (lit w) s cap k =
  if starts_with w s then k (drop (String.length w) s) cap else None.
Proof.
  induction w as [|c w IH]; intros s cap k; cbn [lit match_re starts_with].
  - destruct s; reflexivity.
  - destruct s as [|c' s']; [reflexivity|].
    destruct (Ascii.eqb c' c); cbn [andb String.length drop]; [apply IH | reflexivity].
Qed.

(** An optional literal that does not begin the input is skipped. *)
Lemma opt_lit_skip A w r s cap (k : string -> option string -> option A) :
  starts_with w s = false ->
  match_re (Cat (Opt (lit w)) r) s cap k = match_re r s cap k.
Proof.
  intros H. cbn [match_re]. now rewrite match_lit, H.
Qed.

(** An optional literal that begins the input is taken first (greedy), and
    kept if the rest matches. *)
Lemma opt_lit_take A w r s cap (k : string -> option string -> option A) a :
  match_re r s cap k = Some a ->
  match_re (Cat (Opt (lit w)) r) (w ++ s) cap k = Some a.
Proof.
  intros H. cbn [match_re]. now rewrite match_lit, starts_with_app, drop_app, H.
Qed.

Lemma scheme_skip A r s cap (k : string -> option string -> option A) :
  starts_with "http" s = false ->
  match_re (Cat (Opt (seq [lit "http"; Opt (Chr "s"); lit "://"])) r) s cap k
  = match_re r s cap k.
Proof.
  intros H. cbn [match_re seq]. now rewrite match_lit, H.
Qed.

Lemma scheme_take_http A r s cap (k : string -> option string -> option A) a :
  match_re r s cap k = Some a ->
  match_re (Cat (Opt (seq [lit "http"; Opt (Chr "s"); lit "://"])) r)
    ("http://" ++ s) cap k = Some a.
Proof.
  intros H. cbn [match_re seq].
  rewrite match_lit. cbn [starts_with append Ascii.eqb Bool.eqb andb String.length drop].
  rewrite match_lit. cbn [starts_with append Ascii.eqb Bool.eqb andb String.length drop].
  now rewrite H.
Qed.

Lemma scheme_take_https A r s cap (k : string -> option string -> option A) a :
  match_re r s cap k = Some a ->
  match_re (Cat (Opt (seq [lit "http"; Opt (Chr "s"); lit "://"])) r)
    ("https://" ++ s) cap k = Some a.
Proof.
  intros H. cbn [match_re seq].
  rewrite match_lit. cbn [starts_with append Ascii.eqb Bool.eqb andb String.length drop].
  rewrite match_lit. cbn [starts_with append Ascii.eqb Bool.eqb andb String.length drop].
  now rewrite H.
Qed.

Lemma host_take_com A r s cap (k : string -> option string -> option A) a :
  match_re r s cap k = Some a ->
  match_re (Cat (Alt (lit "youtube.com") (lit "youtu.be")) (Cat (Chr "/") r))
    ("youtube.com" ++ "/" ++ s) cap k = Some a.
Proof.
  intros H. cbn [match_re].
  rewrite match_lit, starts_with_app, drop_app.
  cbn [append Ascii.eqb Bool.eqb]. now rewrite H.
Qed.

Lemma host_take_be A r s cap (k : string -> option string -> option A) a :
  match_re r s cap k = Some a ->
  match_re (Cat (Alt (lit "youtube.com") (lit "youtu.be")) (Cat (Chr "/") r))
    ("youtu.be" ++ "/" ++ s) cap k = Some a.
Proof.
  intros H. cbn [match_re].
  rewrite (match_lit _ "youtube.com").
  cbn [starts_with append Ascii.eqb Bool.eqb andb].
  change (String "y" (String "o" (String "u" (String "t" (String "u"
            (String "." (String "b" (String "e" (String "/" s)))))))))
    with ("youtu.be" ++ String "/" s).
  rewrite match_lit, starts_with_app, drop_app.
  cbn [Ascii.eqb Bool.eqb]. exact H.
Qed.

Lemma match_rep_notspace A t : forall rest cap (k : string -> option string -> option A),
  no_space t = true ->
  match_re (Rep (String.length t) NotSpace) (t ++ rest) cap k = k rest cap.
Proof.
  induction t as [|c t IH]; intros rest cap k H.
  - reflexivity.
  - cbn [no_space] in H. apply andb_prop in H as [Hc Ht].
    apply negb_true_iff in Hc.
    change (match_re (Rep (String.length (String c t)) NotSpace)
              (String c t ++ rest) cap k)
      with (match_re NotSpace (String c (t ++ rest)) cap
              (fun s' cap' => match_re (Rep (String.length t) NotSpace) s' cap' k)).
    cbn [match_re]. rewrite Hc. apply IH. exact Ht.
Qed.

(** The group takes eleven characters that are not whitespace. *)
Lemma group_token t rest cap :
  String.length t = 11%nat -> no_space t = true ->
  match_re (Cat (Group (Rep 11 NotSpace)) Eps) (t ++ rest) cap (fun _ c => Some c)
  = Some (Some t).
Proof.
  intros Hl Hn. rewrite <- Hl.
  change (match_re (Cat (Group (Rep (String.length t) NotSpace)) Eps) (t ++ rest) cap
            (fun _ c => Some c))
    with (match_re (Rep (String.length t) NotSpace) (t ++ rest) cap
            (fun s' _ => Some (Some (take (String.length (t ++ rest) - String.length s')
                                          (t ++ rest))))).
  rewrite match_rep_notspace by exact Hn. now rewrite take_app.
Qed.

Lemma starts_with_chars w : forall t rest c,
  starts_with w (t ++ rest) = true -> (String.length w <= String.length t)%nat ->
  has_char c w = true -> has_char c t = true.
Proof.
  induction w as [|a w IH]; intros t rest c H Hl Hc; [discriminate Hc|].
  destruct t as [|b t]; [cbn in Hl; lia|].
  cbn [append starts_with] in H. apply andb_prop in H as [Hab H].
  apply Ascii.eqb_eq in Hab. subst b.
  cbn [has_char] in *. apply orb_prop in Hc as [Hc|Hc].
  - now rewrite Hc.
  - rewrite (IH t rest c H); [apply orb_true_r | cbn in Hl; lia | exact Hc].
Qed.

(** A token without [/] and [=] does not begin with a path marker. *)
Lemma token_no_marker w t rest :
  String.length t = 11%nat -> has_char "/" t = false -> has_char "=" t = false ->
  (String.length w <= 11)%nat -> has_char "/" w || has_char "=" w = true ->
  starts_with w (t ++ rest) = false.
Proof.
  intros Hl Hs He Hw Hc. destruct (starts_with w (t ++ rest)) eqn:H; [|reflexivity].
  apply orb_prop in Hc as [Hc|Hc].
  - rewrite (starts_with_chars w t rest "/" H) in Hs; [discriminate | lia | exact Hc].
  - rewrite (starts_with_chars w t rest "=" H) in He; [discriminate | lia | exact Hc].
Qed.

(** The end of the pattern on a bare token: every optional marker is
    skipped and the token is captured. *)
Lemma tail_token t rest cap :
  String.length t = 11%nat -> no_space t = true ->
  has_char "/" t = false -> has_char "=" t = false ->
  match_re (seq (path_markers ++ [Group (Rep 11 NotSpace)])) (t ++ rest) cap
    (fun _ c => Some c) = Some (Some t).
Proof.
  intros Hl Hn Hs He. unfold path_markers. cbn [app seq].
  repeat (rewrite opt_lit_skip
            by (apply token_no_marker; [exact Hl | exact Hs | exact He
                                       | cbn; lia | reflexivity])).
  apply group_token; assumption.
Qed.

(** The same after at most one of the path markers the specification lists. *)
Lemma tail_marker seg t rest cap :
  In seg [EmptyString; "watch?v="; "embed/"; "v/"; "shorts/"; "live/"] ->
  String.length t = 11%nat -> no_space t = true ->
  has_char "/" t = false -> has_char "=" t = false ->
  match_re (seq (path_markers ++ [Group (Rep 11 NotSpace)])) (seg ++ t ++ rest) cap
    (fun _ c => Some c) = Some (Some t).
Proof.
  intros Hseg Hl Hn Hs He.
  pose proof (tail_token t rest cap Hl Hn Hs He) as Ht.
  unfold path_markers in *. cbn [app seq] in *.
  assert (Hskip : forall w, (String.length w <= 11)%nat ->
                            has_char "/" w || has_char "=" w = true ->
                            starts_with w (t ++ rest) = false).
  { intros w Hw Hc. now apply token_no_marker. }
  cbn [In] in Hseg.
  repeat destruct Hseg as [<- | Hseg]; try destruct Hseg.
  - exact Ht.
  - apply opt_lit_take.
    repeat (rewrite opt_lit_skip in * by (apply Hskip; [cbn; lia | reflexivity])).
    exact Ht.
  - rewrite opt_lit_skip by reflexivity. apply opt_lit_take.
    repeat (rewrite opt_lit_skip in * by (apply Hskip; [cbn; lia | reflexivity])).
    exact Ht.
  - do 2 (rewrite opt_lit_skip by reflexivity). apply opt_lit_take.
    repeat (rewrite opt_lit_skip in * by (apply Hskip; [cbn; lia | reflexivity])).
    exact Ht.
  - do 3 (rewrite opt_lit_skip by reflexivity). apply opt_lit_take.
    repeat (rewrite opt_lit_skip in * by (apply Hskip; [cbn; lia | reflexivity])).
    exact Ht.
  - do 4 (rewrite opt_lit_skip by reflexivity). apply opt_lit_take.
    repeat (rewrite opt_lit_skip in * by (apply Hskip; [cbn; lia | reflexivity])).
    exact Ht.
Qed.

(** The start of the pattern on a scheme, [www.], a host and the slash. *)
Lemma head_marker scheme www host s a :
  In scheme [EmptyString; "http://"; "https://"] ->
  In www [EmptyString; "www."] ->
  In host ["youtube.com"; "youtu.be"] ->
  match_re (seq (path_markers ++ [Group (Rep 11 NotSpace)])) s None
    (fun _ c => Some c) = Some a ->
  re_match pattern (scheme ++ www ++ host ++ "/" ++ s) = Some a.
Proof.
  intros Hsc Hw Hh H. unfold re_match. rewrite pattern_parts.
  unfold before_host. cbn [app seq] in *. cbn [In] in Hsc, Hw, Hh.
  assert (Hhost : match_re
            (Cat (Alt (lit "youtube.com") (lit "youtu.be"))
               (Cat (Chr "/")
                  (seq (path_markers ++ [Group (Rep 11 NotSpace)]))))
            (host ++ "/" ++ s) None (fun _ c => Some c) = Some a).
  { destruct Hh as [<- | [<- | []]]; [apply host_take_com | apply host_take_be];
      exact H. }
  unfold path_markers in Hhost. cbn [app seq] in Hhost.
  assert (Hwww : match_re
            (Cat (Opt (lit "www."))
               (Cat (Alt (lit "youtube.com") (lit "youtu.be"))
                  (Cat (Chr "/")
                     (seq (path_markers ++ [Group (Rep 11 NotSpace)])))))
            (www ++ host ++ "/" ++ s) None (fun _ c => Some c) = Some a).
  { unfold path_markers. cbn [app seq].
    destruct Hw as [<- | [<- | []]].
    - cbn [append]. rewrite opt_lit_skip; [exact Hhost|].
      destruct Hh as [<- | [<- | []]]; reflexivity.
    - apply opt_lit_take. exact Hhost. }
  unfold path_markers in Hwww. cbn [app seq] in Hwww.
  destruct Hsc as [<- | [<- | [<- | []]]].
  - cbn [append]. rewrite scheme_skip; [exact Hwww|].
    destruct Hw as [<- | [<- | []]]; [|reflexivity].
    destruct Hh as [<- | [<- | []]]; reflexivity.
  - apply scheme_take_http. exact Hwww.
  - apply scheme_take_https. exact Hwww.
Qed.

Lemma re_search_skip r pre : forall u,
  (forall i, (i < String.length pre)%nat -> re_match r (drop i (pre ++ u)) = None) ->
  re_search r (pre ++ u) = re_search r u.
Proof.
  induction pre as [|c pre IH]; intros u H; [reflexivity|].
  cbn [append re_search].
  assert (H0 : re_match r (String c (pre ++ u)) = None).
  { apply (H 0%nat). cbn [String.length]. lia. }
  rewrite H0. apply IH. intros i Hi.
  apply (H (S i)). cbn [String.length]. lia.
Qed.

(** C3 (as amended). When a string holds, at the first place where the
    pattern matches, a host marker ([youtube.com] or [youtu.be], after an
    optional scheme and [www.]) followed by a slash, then at most one of the
    path markers [watch?v=], [embed/], [v/], [shorts/], [live/], then a token
    of eleven characters that are not whitespace, [/] or [=],
    [extract_video_id] returns exactly that token; the two example URLs
    yield [dQw4w9WgXcQ]. *)
Theorem extract_video_id_token :
  (forall pre scheme www host seg token rest,
     In scheme [EmptyString; "http://"; "https://"] ->
     In www [EmptyString; "www."] ->
     In host ["youtube.com"; "youtu.be"] ->
     In seg [EmptyString; "watch?v="; "embed/"; "v/"; "shorts/"; "live/"] ->
     String.length token = 11%nat -> no_space token = true ->
     has_char "/" token = false -> has_char "=" token = false ->
     (forall i, (i < String.length pre)%nat ->
        re_match pattern
          (drop i (pre ++ scheme ++ www ++ host ++ "/" ++ seg ++ token ++ rest))
        = None) ->
     extract_video_id (pre ++ scheme ++ www ++ host ++ "/" ++ seg ++ token ++ rest)
     = Some token) /\
  extract_video_id "https://www.youtube.com/watch?v=dQw4w9WgXcQ" = Some "dQw4w9WgXcQ" /\
  extract_video_id "https://youtu.be/dQw4w9WgXcQ" = Some "dQw4w9WgXcQ".
Proof.
  split; [|split; vm_compute; reflexivity].
  intros pre scheme www host seg token rest Hsc Hw Hh Hseg Hl Hn Hs He Hfirst.
  unfold extract_video_id. rewrite re_search_skip by exact Hfirst.
  assert (Hm : re_match pattern (scheme ++ www ++ host ++ "/" ++ seg ++ token ++ rest)
               = Some (Some token)).
  { apply head_marker; try assumption. apply tail_marker; assumption. }
  destruct (scheme ++ www ++ host ++ "/" ++ seg ++ token ++ rest);
    cbn [re_search]; rewrite Hm; reflexivity.
Qed.

(** C3, on a link inside a sentence. *)
Lemma extract_video_id_token_witness :
  extract_video_id ("see " ++ "https://" ++ "www." ++ "youtube.com" ++ "/" ++
                    "embed/" ++ "dQw4w9WgXcQ" ++ "?start=3")
  = Some "dQw4w9WgXcQ".
Proof.
  destruct extract_video_id_token as [H _].
  apply H; try reflexivity; cbn [In]; auto.
  intros i Hi. cbn [String.length] in Hi.
  do 4 (destruct i as [|i]; [vm_compute; reflexivity|]). lia.
Defined.

(** C3 as stated fails: a path marker alone, followed by a token, is not
    matched (the host and its slash are required); and after a host marker
    the eleven characters that follow it directly are not what is
    returned. *)
Lemma marker_alone_not_matched :
  In "watch?v=" markers /\ In "youtu.be" markers /\
  String.length "dQw4w9WgXcQ" = 11%nat /\ no_space "dQw4w9WgXcQ" = true /\
  extract_video_id ("watch?v=" ++ "dQw4w9WgXcQ") = None /\
  String.length "/v/abcdefgh" = 11%nat /\ no_space "/v/abcdefgh" = true /\
  extract_video_id ("youtu.be" ++ "/v/abcdefgh" ++ "ijk") = Some "abcdefghijk".
Proof.
  cbn [markers In]. repeat split; auto 10; vm_compute; reflexivity.
Qed.

(** ** The handler *)

Lemma extract_video_id_nonempty url id :
  extract_video_id url = Some id -> id <> EmptyString /\ url <> EmptyString.
Proof.
  intros H. split.
  - apply extract_video_id_sound in H as (pre & a & host & b & rest & _ & _ & Hl & _).
    intros ->. discriminate Hl.
  - intros ->. discriminate H.
Qed.

(** C2 (as amended). The three retrieval failures are answered with a
    status code and a JSON body with an [error] message and a [details]
    field: [NoTranscriptFound] with 404, [TranscriptsDisabled] with 403 and
    [VideoUnavailable] with 404. Two kinds share the code 404; the three
    bodies differ. *)
Theorem retrieval_failure_response api url format id :
  extract_video_id url = Some id ->
  (api id = NoTranscriptFound ->
     get_transcript api (Some url) format =
     json_error [("error", "No transcript found for this video");
                 ("details", "The video does not have any available transcripts.")]
       404) /\
  (api id = TranscriptsDisabled ->
     get_transcript api (Some url) format =
     json_error [("error", "Transcripts are disabled for this video");
                 ("details", "The video owner has disabled transcripts for this content.")]
       403) /\
  (api id = VideoUnavailable ->
     get_transcript api (Some url) format =
     json_error [("error", "The video is unavailable");
                 ("details", "The requested video could not be accessed. It might be private or deleted.")]
       404).
Proof.
  intros H. destruct (extract_video_id_nonempty url id H) as [Hid Hurl].
  unfold get_transcript.
  destruct url as [|c url]; [congruence|]. rewrite H.
  destruct id as [|c' id]; [congruence|].
  repeat split; intros ->; reflexivity.
Qed.

(** C2, on a short link. *)
Lemma retrieval_failure_response_witness :
  status (get_transcript (fun _ => TranscriptsDisabled)
            (Some "https://youtu.be/dQw4w9WgXcQ") None) = 403.
Proof.
  destruct (retrieval_failure_response (fun _ => TranscriptsDisabled)
              "https://youtu.be/dQw4w9WgXcQ" None "dQw4w9WgXcQ") as (_ & H & _).
  - vm_compute. reflexivity.
  - rewrite H; reflexivity.
Defined.

(** C2 as stated fails: two different failure kinds get the same status
    code. *)
Lemma status_not_one_to_one :
  NoTranscriptFound <> VideoUnavailable /\
  status (get_transcript (fun _ => NoTranscriptFound)
            (Some "https://youtu.be/dQw4w9WgXcQ") None) =
  status (get_transcript (fun _ => VideoUnavailable)
            (Some "https://youtu.be/dQw4w9WgXcQ") None).
Proof.
  split; [discriminate | vm_compute; reflexivity].
Qed.


(** * Further properties *)

(** ** [format_time]: bounds on the fields *)

(** Rounding does not pass a float [k * 2^t] (in units) that bounds the
    exact value. *)
Lemma round_b64_le_units neg n d k t :
  0 <= n -> 0 < d -> 0 <= k < 2 ^ 53 -> 0 <= t <= 2045 ->
  n * unit_den <= k * 2 ^ t * d ->
  exists m e, round_b64 neg n d = FFin neg m e /\
              0 <= m /\ -1074 <= e /\ units m e <= k * 2 ^ t.
Proof.
  intros Hn Hd Hk Ht Hle. unfold round_b64, units.
  pose proof unit_den_pos as HU.
  set (N := n * unit_den) in *.
  assert (HN : 0 <= N) by (unfold N; nia).
  assert (Hpt : 0 < 2 ^ t) by (apply Z.pow_pos_nonneg; lia).
  set (L := Z.log2 (N / d)). set (E := Z.max (L - 52) 0).
  assert (HL0 : 0 <= L) by apply Z.log2_nonneg.
  assert (HE : 0 <= E <= t).
  { split; [lia|]. apply Z.max_lub; [|lia].
    destruct (Z.eq_dec k 0) as [->|Hk0].
    - assert (N / d = 0) by (apply Z.div_small; nia).
      unfold L. rewrite H. cbn. lia.
    - assert (Hq : N / d <= k * 2 ^ t) by (apply Z.div_le_upper_bound; lia).
      assert (Z.log2 (N / d) <= Z.log2 (k * 2 ^ t)) by (apply Z.log2_le_mono; exact Hq).
      rewrite Z.log2_mul_pow2 in H by lia.
      assert (Z.log2 k < 53) by (apply Z.log2_lt_pow2; lia).
      fold L in H. lia. }
  assert (HpE : 0 < 2 ^ E) by (apply Z.pow_pos_nonneg; lia).
  assert (Hsplit : 2 ^ t = 2 ^ (t - E) * 2 ^ E).
  { rewrite <- Z.pow_add_r by lia. f_equal. lia. }
  assert (HptE : 0 < 2 ^ (t - E)) by (apply Z.pow_pos_nonneg; lia).
  assert (Hm : rne N (d * 2 ^ E) <= k * 2 ^ (t - E)).
  { apply rne_le; [apply Z.mul_pos_pos; lia|]. rewrite Hsplit in Hle.
    replace (k * 2 ^ (t - E) * (d * 2 ^ E)) with (k * (2 ^ (t - E) * 2 ^ E) * d) by ring.
    exact Hle. }
  assert (Hm0 : 0 <= rne N (d * 2 ^ E)).
  { apply rne_nonneg; [lia | apply Z.mul_pos_pos; lia]. }
  assert (Hval : rne N (d * 2 ^ E) * 2 ^ E <= k * 2 ^ t).
  { rewrite Hsplit.
    replace (k * (2 ^ (t - E) * 2 ^ E)) with (k * 2 ^ (t - E) * 2 ^ E) by ring.
    apply Z.mul_le_mono_nonneg_r; lia. }
  destruct (Z.eqb_spec (rne N (d * 2 ^ E)) (2 ^ 53)) as [Heq|Hne].
  - assert (E < t).
    { destruct (Z.eq_dec E t) as [Et|]; [|lia].
      assert (H1 : 2 ^ (t - E) = 1) by (rewrite Et, Z.sub_diag; reflexivity).
      rewrite H1 in Hm. lia. }
    destruct (Z.ltb_spec (971 + 1074) (E + 1)); [lia|].
    exists (2 ^ 52), (E + 1 - 1074). repeat split; [apply Z.pow_nonneg; lia | lia |].
    replace (E + 1 - 1074 + 1074) with (E + 1) by lia.
    rewrite Z.pow_add_r by lia. rewrite Heq in Hval.
    change (2 ^ 53) with (2 ^ 52 * 2 ^ 1) in Hval. lia.
  - destruct (Z.ltb_spec (971 + 1074) E); [lia|].
    exists (rne N (d * 2 ^ E)), (E - 1074). repeat split; [lia | lia |].
    replace (E - 1074 + 1074) with E by lia. exact Hval.
Qed.

(** A float below [C * 2^g], with [C] of 53 bits, is at least one step
    [2^g] below it. *)
Lemma below_gap k t C g :
  0 <= k < 2 ^ 53 -> 0 <= t -> 0 <= g -> 2 ^ 52 < C ->
  k * 2 ^ t < C * 2 ^ g -> k * 2 ^ t <= (C - 1) * 2 ^ g.
Proof.
  intros Hk Ht Hg HC Hlt.
  assert (Hpg : 0 < 2 ^ g) by (apply Z.pow_pos_nonneg; lia).
  destruct (Z.le_gt_cases g t) as [Hgt|Hgt].
  - assert (Hs : 2 ^ t = 2 ^ (t - g) * 2 ^ g).
    { rewrite <- Z.pow_add_r by lia. f_equal. lia. }
    rewrite Hs in *.
    assert (0 < 2 ^ (t - g)) by (apply Z.pow_pos_nonneg; lia).
    assert (k * 2 ^ (t - g) < C) by nia. nia.
  - assert (Hs : 2 ^ g = 2 ^ (g - t) * 2 ^ t).
    { rewrite <- Z.pow_add_r by lia. f_equal. lia. }
    assert (Hpt : 0 < 2 ^ t) by (apply Z.pow_pos_nonneg; lia).
    assert (2 ^ 1 <= 2 ^ (g - t)) by (apply Z.pow_le_mono_r; lia).
    change (2 ^ 1) with 2 in H.
    change (2 ^ 53) with (2 * 2 ^ 52) in Hk.
    rewrite Hs. nia.
Qed.

(** The units of a remainder by an integer constant are a float. *)
Lemma units_mod_repr m e B :
  0 <= m < 2 ^ 53 -> -1074 <= e <= 971 -> 0 < B < 2 ^ 53 ->
  exists k t, 0 <= k < 2 ^ 53 /\ 0 <= t <= 2045 /\
              units m e mod (B * unit_den) = k * 2 ^ t.
Proof.
  intros Hm He HB. pose proof unit_den_pos as HU.
  unfold units. set (a := e + 1074).
  assert (Hpa : 0 < 2 ^ a) by (apply Z.pow_pos_nonneg; lia).
  destruct (Z.le_gt_cases a 1074) as [Hle|Hgt].
  - exists (m mod (B * 2 ^ (1074 - a))), a.
    assert (Hp : 0 < 2 ^ (1074 - a)) by (apply Z.pow_pos_nonneg; lia).
    assert (HU' : B * unit_den = (B * 2 ^ (1074 - a)) * 2 ^ a).
    { unfold unit_den. rewrite <- Z.mul_assoc, <- Z.pow_add_r by lia.
      do 2 f_equal. lia. }
    rewrite HU'. rewrite Z.mul_mod_distr_r by nia.
    pose proof (Z.mod_pos_bound m (B * 2 ^ (1074 - a))).
    assert (m mod (B * 2 ^ (1074 - a)) <= m) by (apply Z.mod_le; nia).
    repeat split; try lia; nia.
  - exists ((m * 2 ^ (a - 1074)) mod B), 1074.
    assert (Hp : 0 < 2 ^ (a - 1074)) by (apply Z.pow_pos_nonneg; lia).
    assert (Hu : m * 2 ^ a = (m * 2 ^ (a - 1074)) * 2 ^ 1074).
    { rewrite <- Z.mul_assoc, <- Z.pow_add_r by lia. do 2 f_equal. lia. }
    rewrite Hu. fold unit_den. rewrite Z.mul_mod_distr_r by lia.
    pose proof (Z.mod_pos_bound (m * 2 ^ (a - 1074)) B).
    repeat split; lia.
Qed.

(** Division by 60 of the remainder by 3600 stays below 60: its floor is at
    most 59. *)
Lemma minutes_le_59 neg m e :
  0 <= m < 2 ^ 53 -> -1074 <= e <= 971 -> neg = false \/ m = 0 ->
  exists r q minutes,
    float_mod (FFin neg m e) (float_of_Z 3600) = Ok r /\
    float_div r (float_of_Z 60) = Ok q /\
    float_floor q = Some minutes /\ 0 <= minutes <= 59.
Proof.
  intros Hm He Hs. pose proof unit_den_pos as HU.
  assert (H3600 : 0 < 3600 < 2 ^ 53) by (split; [lia | reflexivity]).
  destruct (float_mod_const _ _ 3600 units_3600 H3600 neg m e Hm He Hs)
    as (m1 & e1 & Hr & Hm1 & He1 & Hu1).
  destruct (units_mod_repr m e 3600 Hm He H3600) as (k & t & Hk & Ht & Hkt).
  assert (Hlt : units m1 e1 < 3600 * unit_den).
  { pose proof (Z.mod_pos_bound (units m e) (3600 * unit_den)). lia. }
  (* one step of 2^-41 below 3600 *)
  assert (Hgap : units m1 e1 <= (3600 * 2 ^ 41 - 1) * 2 ^ 1033).
  { rewrite Hu1, Hkt. apply below_gap; try lia.
    rewrite <- Hkt, <- Hu1.
    replace (3600 * 2 ^ 41 * 2 ^ 1033) with (3600 * unit_den); [exact Hlt|].
    unfold unit_den. change 1074 with (41 + 1033).
    rewrite Z.pow_add_r by lia. ring. }
  rewrite float_3600 in *. rewrite float_60.
  exists (FFin false m1 e1). unfold float_div.
  change (8444249301319680 =? 0) with false. cbn [xorb]. rewrite units_60.
  (* the float just below 60 *)
  destruct (round_b64_le_units false (units m1 e1) (60 * unit_den)
              (60 * 2 ^ 47 - 1) 1027)
    as (m2 & e2 & Heq & Hm2 & He2 & Hu2);
    [apply units_nonneg; lia | lia | split; [lia | reflexivity] | lia | |].
  { set (P := 2 ^ 1027) in *.
    assert (HP : 0 < P) by (apply Z.pow_pos_nonneg; lia).
    assert (H64 : 2 ^ 1033 = 64 * P).
    { unfold P. change 1033 with (6 + 1027). rewrite Z.pow_add_r by lia. reflexivity. }
    rewrite H64 in Hgap.
    assert (Hu : units m1 e1 <= 60 * ((60 * 2 ^ 47 - 1) * P)).
    { change (2 ^ 41) with 2199023255552 in Hgap.
      change (2 ^ 47) with 140737488355328. lia. }
    replace ((60 * 2 ^ 47 - 1) * P * (60 * unit_den))
      with (60 * ((60 * 2 ^ 47 - 1) * P) * unit_den) by ring.
    apply Z.mul_le_mono_nonneg_r; lia. }
  rewrite Heq. exists (FFin false m2 e2), (units m2 e2 / unit_den).
  split; [exact Hr|]. split; [reflexivity|]. split; [reflexivity|]. split.
  - apply Z.div_pos; [apply units_nonneg|]; lia.
  - assert (units m2 e2 < 60 * unit_den).
    { assert (HP : 0 < 2 ^ 1027) by (apply Z.pow_pos_nonneg; lia).
      assert (HUd : unit_den = 2 ^ 47 * 2 ^ 1027).
      { unfold unit_den. change 1074 with (47 + 1027).
        now rewrite Z.pow_add_r by lia. }
      rewrite HUd. change (2 ^ 47) with 140737488355328 in *. lia. }
    assert (units m2 e2 / unit_den < 60) by (apply Z.div_lt_upper_bound; lia).
    lia.
Qed.

(** Division by 3600 of a float below 360000 stays below 100: its floor is
    at most 99. *)
Lemma hours_le_99 neg m e :
  0 <= m < 2 ^ 53 -> -1074 <= e <= 971 -> neg = false \/ m = 0 ->
  units m e < 360000 * unit_den ->
  exists q hours,
    float_div (FFin neg m e) (float_of_Z 3600) = Ok q /\
    float_floor q = Some hours /\ 0 <= hours <= 99.
Proof.
  intros Hm He Hs Hlt. pose proof unit_den_pos as HU.
  assert (H3600 : 0 < 3600 < 2 ^ 53) by (split; [lia | reflexivity]).
  destruct Hs as [-> | ->].
  - (* one step of 2^-34 below 360000 *)
    assert (Hgap : units m e <= (360000 * 2 ^ 34 - 1) * 2 ^ 1040).
    { unfold units in *. apply below_gap; try lia.
      replace (360000 * 2 ^ 34 * 2 ^ 1040) with (360000 * unit_den); [exact Hlt|].
      unfold unit_den. change 1074 with (34 + 1040).
      rewrite Z.pow_add_r by lia. ring. }
    rewrite float_3600. unfold float_div.
    change (7916483719987200 =? 0) with false. cbn [xorb]. rewrite units_3600.
    (* the float just below 100 *)
    destruct (round_b64_le_units false (units m e) (3600 * unit_den)
                (100 * 2 ^ 46 - 1) 1028)
      as (m2 & e2 & Heq & Hm2 & He2 & Hu2);
      [apply units_nonneg; lia | lia | split; [lia | reflexivity] | lia | |].
    { set (P := 2 ^ 1028) in *.
      assert (HP : 0 < P) by (apply Z.pow_pos_nonneg; lia).
      assert (H4096 : 2 ^ 1040 = 4096 * P).
      { unfold P. change 1040 with (12 + 1028). rewrite Z.pow_add_r by lia. reflexivity. }
      rewrite H4096 in Hgap.
      assert (Hu : units m e <= 3600 * ((100 * 2 ^ 46 - 1) * P)).
      { change (2 ^ 34) with 17179869184 in Hgap.
        change (2 ^ 46) with 70368744177664. lia. }
      replace ((100 * 2 ^ 46 - 1) * P * (3600 * unit_den))
        with (3600 * ((100 * 2 ^ 46 - 1) * P) * unit_den) by ring.
      apply Z.mul_le_mono_nonneg_r; lia. }
    rewrite Heq. exists (FFin false m2 e2), (units m2 e2 / unit_den).
    split; [reflexivity|]. split; [reflexivity|]. split.
    + apply Z.div_pos; [apply units_nonneg|]; lia.
    + assert (units m2 e2 < 100 * unit_den).
      { assert (HP : 0 < 2 ^ 1028) by (apply Z.pow_pos_nonneg; lia).
        assert (HUd : unit_den = 2 ^ 46 * 2 ^ 1028).
        { unfold unit_den. change 1074 with (46 + 1028).
          now rewrite Z.pow_add_r by lia. }
        rewrite HUd. change (2 ^ 46) with 70368744177664 in *. lia. }
      assert (units m2 e2 / unit_den < 100) by (apply Z.div_lt_upper_bound; lia).
      lia.
  - rewrite float_3600.
    destruct (float_div_const_le _ _ 3600 units_3600 H3600 neg 0 e 0)
      as (q & n & H1 & H2 & H3 & H4);
      [lia | lia | now right | lia | unfold units; lia |].
    exists q, n. repeat split; try assumption; lia.
Qed.

(** Rounding to nearest reaches [K], with [K - 1] odd, exactly from the
    half below [K] on (the tie goes up, to the even neighbour). *)
Lemma rne_ge_iff a d K :
  0 <= a -> 0 < d -> Z.odd (K - 1) = true ->
  (K <= rne a d <-> (2 * K - 1) * d <= 2 * a).
Proof.
  intros Ha Hd Hodd. unfold rne.
  pose proof (Z.div_mod a d) as Hdm.
  pose proof (Z.mod_pos_bound a d Hd) as Hm.
  set (q := a / d) in *. set (r := a mod d) in *.
  assert (Ha' : a = d * q + r) by lia. clearbody q r.
  destruct (Z.ltb_spec (2 * r) d) as [H1|H1].
  - split; intros H; nia.
  - destruct (Z.ltb_spec d (2 * r)) as [H2|H2].
    + split; intros H; nia.
    + assert (Hr : 2 * r = d) by lia.
      destruct (Z.even q) eqn:Hev.
      * assert (Hq : q <> K - 1).
        { intros ->. rewrite <- Z.negb_odd, Hodd in Hev. discriminate. }
        split; intros H; nia.
      * split; intros H; nia.
Qed.

Lemma dec_value_two_digits s :
  fixed_width 2 s 60 -> s = "60".
Proof.
  intros (Hd & Hv & Hl).
  destruct s as [|a [|b [|c s]]]; try discriminate Hl.
  cbn [all_digits] in Hd. apply andb_prop in Hd as [Ha Hb].
  apply andb_prop in Hb as [Hb _].
  unfold is_digit in Ha, Hb.
  apply andb_prop in Ha as [Ha1 Ha2]. apply andb_prop in Hb as [Hb1 Hb2].
  apply Z.leb_le in Ha1, Ha2, Hb1, Hb2.
  unfold dec_value in Hv. cbn [dec_value_acc] in Hv.
  assert (Za : Z.of_nat (nat_of_ascii a) = 54) by lia.
  assert (Zb : Z.of_nat (nat_of_ascii b) = 48) by lia.
  assert (Ea : a = "6"%char).
  { rewrite <- (ascii_nat_embedding a). replace (nat_of_ascii a) with 54%nat by lia.
    reflexivity. }
  assert (Eb : b = "0"%char).
  { rewrite <- (ascii_nat_embedding b). replace (nat_of_ascii b) with 48%nat by lia.
    reflexivity. }
  now subst.
Qed.

Lemma seconds_value_inv x :
  seconds_value x ->
  exists neg m e, x = FFin neg m e /\ 0 <= m < 2 ^ 53 /\ -1074 <= e <= 971 /\
                  (neg = false \/ m = 0).
Proof.
  intros (Hv & Hf & Hn). destruct x as [| |neg m e]; try discriminate.
  exists neg, m, e. cbn [valid_float] in Hv. destruct Hv as [Hm He].
  repeat split; try lia.
  cbn [nonneg_float] in Hn. apply orb_true_iff in Hn as [Hn|Hn].
  - left. now destruct neg.
  - right. now apply Z.eqb_eq.
Qed.

(** X1. For a finite non-negative input the minutes field of [format_time]
    is at most 59 and the seconds field at most 60; when the seconds field
    reads 60 the thousandths read 000. *)
Theorem format_time_field_ranges x :
  seconds_value x ->
  exists HH MM SS mmm,
    format_time x = Ok (HH ++ ":" ++ MM ++ ":" ++ SS ++ "," ++ mmm) /\
    all_digits HH = true /\ (2 <= String.length HH)%nat /\
    all_digits MM = true /\ String.length MM = 2%nat /\ 0 <= dec_value MM <= 59 /\
    all_digits SS = true /\ String.length SS = 2%nat /\ 0 <= dec_value SS <= 60 /\
    all_digits mmm = true /\ String.length mmm = 3%nat /\
    0 <= dec_value mmm <= 999 /\
    (dec_value SS = 60 -> dec_value mmm = 0).
Proof.
  intros Hx. pose proof unit_den_pos as HU.
  destruct (seconds_value_inv x Hx) as (neg & m & e & -> & Hm & He & Hs).
  destruct Hx as (Hv & Hf & Hn).
  destruct (format_time_fields _ Hv Hf Hn)
    as (q & r & q' & s & hours & minutes & ms & HH & MM & SS & mmm &
        Hq & Hqf & Hr & Hru & Hq' & Hqf' & Hsec & Hsu & Hms & Hfmt & Hft &
        HHH & HMM & HSS & Hmmm).
  destruct (minutes_le_59 neg m e Hm He Hs) as (r0 & q0 & min0 & Hr0 & Hq0 & Hf0 & Hmin).
  assert (r0 = r) by congruence. subst r0.
  assert (q0 = q') by congruence. subst q0.
  assert (min0 = minutes) by congruence. subst min0.
  assert (Hmsb : 0 <= ms <= 60000).
  { destruct s as [| |[|] ms' es]; try discriminate Hms.
    cbn [float_millis] in Hms. injection Hms as <-.
    cbn [float_units] in Hsu.
    pose proof (Z.mod_pos_bound (units m e) (60 * unit_den)).
    split; [apply rne_nonneg; lia | apply rne_le; lia]. }
  exists HH, MM, SS, mmm.
  destruct HHH as (A1 & A2 & A3). destruct HMM as (B1 & B2 & B3).
  destruct HSS as (C1 & C2 & C3). destruct Hmmm as (D1 & D2 & D3).
  pose proof (Z.mod_pos_bound ms 1000).
  assert (0 <= ms / 1000 <= 60).
  { split; [apply Z.div_pos; lia | apply Z.div_le_upper_bound; lia]. }
  rewrite B2, C2, D2.
  repeat split; try assumption; try lia.
  intros H60. pose proof (Z.div_mod ms 1000). lia.
Qed.

(** X1, at [seconds = 3599.9996]. *)
Lemma format_time_field_ranges_witness :
  exists HH MM SS mmm,
    format_time (float_of_decimal 35999996 10000)
    = Ok (HH ++ ":" ++ MM ++ ":" ++ SS ++ "," ++ mmm) /\
    String.length MM = 2%nat /\ 0 <= dec_value MM <= 59.
Proof.
  destruct (format_time_field_ranges (float_of_decimal 35999996 10000))
    as (HH & MM & SS & mmm & H & _ & _ & _ & Hl & Hv & _).
  - vm_compute. repeat split; discriminate.
  - exists HH, MM, SS, mmm. repeat split; try assumption; lia.
Defined.

(** X2. The seconds field of [format_time] reads [60] exactly when the
    remainder of the input by 60 is at least 59.9995. *)
Theorem seconds_field_sixty_iff x :
  seconds_value x ->
  exists HH MM SS mmm,
    format_time x = Ok (HH ++ ":" ++ MM ++ ":" ++ SS ++ "," ++ mmm) /\
    all_digits HH = true /\ all_digits MM = true /\ String.length MM = 2%nat /\
    String.length SS = 2%nat /\ String.length mmm = 3%nat /\
    (SS = "60" <->
     119999 * unit_den <= 2000 * (float_units x mod (60 * unit_den))).
Proof.
  intros Hx. pose proof unit_den_pos as HU.
  destruct Hx as (Hv & Hf & Hn).
  destruct (format_time_fields _ Hv Hf Hn)
    as (q & r & q' & s & hours & minutes & ms & HH & MM & SS & mmm &
        Hq & Hqf & Hr & Hru & Hq' & Hqf' & Hsec & Hsu & Hms & Hfmt & Hft &
        HHH & HMM & HSS & Hmmm).
  exists HH, MM, SS, mmm.
  destruct HHH as (A1 & A2 & A3). destruct HMM as (B1 & B2 & B3).
  destruct Hmmm as (D1 & D2 & D3).
  split; [exact Hft|]. split; [exact A1|]. split; [exact B1|]. split; [exact B3|].
  split; [apply HSS|]. split; [exact D3|].
  destruct s as [| |[|] ms' es]; try discriminate Hms.
  cbn [float_millis] in Hms. injection Hms as <-.
  cbn [float_units] in Hsu. rewrite <- Hsu.
  set (u := units ms' es) in *.
  assert (Hu : 0 <= u < 60 * unit_den).
  { rewrite Hsu. apply Z.mod_pos_bound. lia. }
  assert (Hle : rne (u * 1000) unit_den <= 60000) by (apply rne_le; lia).
  assert (Hge : 0 <= rne (u * 1000) unit_den) by (apply rne_nonneg; lia).
  pose proof (rne_ge_iff (u * 1000) unit_den 60000) as Hiff.
  assert (Hiff' : 60000 <= rne (u * 1000) unit_den <->
                  119999 * unit_den <= 2000 * u).
  { rewrite Hiff; [lia | lia | lia | reflexivity]. }
  rewrite <- Hiff'. split.
  - intros ->. destruct HSS as (_ & C2 & _).
    change (dec_value "60") with 60 in C2.
    pose proof (Z.div_mod (rne (u * 1000) unit_den) 1000).
    pose proof (Z.mod_pos_bound (rne (u * 1000) unit_den) 1000). lia.
  - intros H. apply dec_value_two_digits.
    replace 60 with (rne (u * 1000) unit_den / 1000); [exact HSS|].
    replace (rne (u * 1000) unit_den) with 60000 by lia. reflexivity.
Qed.

(** X2, at [seconds = 119.9999]. *)
Lemma seconds_field_sixty_iff_witness :
  exists HH MM mmm,
    format_time (float_of_decimal 1199999 10000)
    = Ok (HH ++ ":" ++ MM ++ ":" ++ "60" ++ "," ++ mmm).
Proof.
  destruct (seconds_field_sixty_iff (float_of_decimal 1199999 10000))
    as (HH & MM & SS & mmm & H & _ & _ & _ & _ & _ & Hiff).
  - vm_compute. repeat split; discriminate.
  - exists HH, MM, mmm. rewrite H. do 4 f_equal.
    assert (E : SS = "60"); [|now rewrite E].
    apply Hiff. vm_compute. discriminate.
Defined.

(** X3. Below 100 hours the text [format_time] returns has exactly twelve
    characters. *)
Theorem format_time_twelve_chars x :
  seconds_value x -> float_units x < 360000 * unit_den ->
  exists s, format_time x = Ok s /\ String.length s = 12%nat.
Proof.
  intros Hx Hlt.
  destruct (seconds_value_inv x Hx) as (neg & m & e & -> & Hm & He & Hs).
  destruct Hx as (Hv & Hf & Hn).
  destruct (format_time_fields _ Hv Hf Hn)
    as (q & r & q' & s & hours & minutes & ms & HH & MM & SS & mmm &
        Hq & Hqf & Hr & Hru & Hq' & Hqf' & Hsec & Hsu & Hms & Hfmt & Hft &
        HHH & HMM & HSS & Hmmm).
  destruct (hours_le_99 neg m e Hm He Hs Hlt) as (q0 & h0 & Hq0 & Hf0 & Hh).
  assert (q0 = q) by congruence. subst q0.
  assert (h0 = hours) by congruence. subst h0.
  exists (HH ++ ":" ++ MM ++ ":" ++ SS ++ "," ++ mmm). split; [exact Hft|].
  destruct HHH as (_ & _ & A3). destruct HMM as (_ & _ & B3).
  destruct HSS as (_ & _ & C3). destruct Hmmm as (_ & _ & D3).
  pose proof (str_nonneg_length_lt100 hours) as Hl.
  rewrite !length_app. cbn [String.length]. rewrite A3, B3, C3, D3.
  assert (String.length (str_nonneg hours) <= 2)%nat by (apply Hl; lia). lia.
Qed.

(** X3, at [seconds = 359999.999]. *)
Lemma format_time_twelve_chars_witness :
  exists s, format_time (float_of_decimal 359999999 1000) = Ok s /\
            String.length s = 12%nat.
Proof.
  apply format_time_twelve_chars.
  - vm_compute. repeat split; discriminate.
  - vm_compute. reflexivity.
Defined.

(** ** The handlers *)

(** X4. A request without a usable URL is answered 400 and the retrieval
    library is not consulted: a missing or empty [video_url] gives
    [No video URL provided]; a URL of fewer than 20 characters, or one in
    which neither [youtube.com] nor [youtu.be] occurs, gives
    [Invalid YouTube URL]; in both cases the answer is the same for every
    behaviour of the library. *)
Theorem get_transcript_bad_request api format :
  get_transcript api None format = json_error [("error", "No video URL provided")] 400 /\
  get_transcript api (Some EmptyString) format
    = json_error [("error", "No video URL provided")] 400 /\
  (forall url, url <> EmptyString ->
     (String.length url < 20)%nat \/
     (occursb "youtube.com" url = false /\ occursb "youtu.be" url = false) ->
     get_transcript api (Some url) format
       = json_error [("error", "Invalid YouTube URL")] 400) /\
  (forall url api', extract_video_id url = None ->
     get_transcript api (Some url) format = get_transcript api' (Some url) format).
Proof.
  split; [reflexivity|]. split; [reflexivity|]. split.
  - intros url Hne Hbad.
    assert (Hx : extract_video_id url = None).
    { destruct (extract_video_id url) as [id|] eqn:H; [|reflexivity]. exfalso.
      apply extract_video_id_sound in H
        as (pre & a & host & b & rest & -> & Hh & Hl & _).
      destruct Hbad as [Hlen | [H1 H2]].
      - rewrite !length_app in Hlen. cbn [String.length] in Hlen.
        destruct Hh as [-> | ->]; cbn [String.length] in Hlen; lia.
      - assert (Ho : occursb host (pre ++ a ++ host ++ "/" ++ b ++ id ++ rest) = true).
        { rewrite <- (app_assoc_s pre a). apply occursb_app. }
        destruct Hh as [-> | ->]; congruence. }
    unfold get_transcript. destruct url; [congruence|]. now rewrite Hx.
  - intros url api' Hx. unfold get_transcript.
    destruct url; [reflexivity|]. now rewrite Hx.
Qed.

(** X4, on [not a url]. *)
Lemma get_transcript_bad_request_witness :
  status (get_transcript (fun _ => NoTranscriptFound) (Some "not a url") None) = 400.
Proof.
  destruct (get_transcript_bad_request (fun _ => NoTranscriptFound) None)
    as (_ & _ & H & _).
  rewrite H; [reflexivity | discriminate | left; cbn; lia].
Defined.

(** X5. The status of [/api/transcript] is one of 200, 400, 403, 404, 500,
    and it is 200 exactly when the URL yields an id, the retrieval returns a
    transcript and the formatter returns a text; that text is the body. *)
Theorem get_transcript_status api video_url format :
  let r := get_transcript api video_url format in
  In (status r) [200; 400; 403; 404; 500] /\
  (status r = 200 <->
   exists url id transcript out,
     video_url = Some url /\ extract_video_id url = Some id /\
     api id = Fetched transcript /\
     format_transcript transcript
       (Some (match format with Some f => f | None => "json" end)) = Ok out /\
     body r = Text out).
Proof.
  cbn zeta. unfold get_transcript.
  destruct video_url as [[|c url]|].
  - split; [cbn; auto|]. split; [discriminate|].
    intros (u & id & t & out & [= <-] & H & _). discriminate H.
  - set (u := String c url).
    destruct (extract_video_id u) as [[|c' id]|] eqn:Hx.
    + apply extract_video_id_nonempty in Hx as [Hx _]. congruence.
    + set (i := String c' id) in *.
      destruct (api i) as [t| | | |msg] eqn:Ha.
      * destruct (format_transcript t _) as [out|e] eqn:Hf.
        -- assert (Hs : forall (b : bool) (x y : response),
                     status x = 200 -> status y = 200 ->
                     status (if b then x else y) = 200) by (intros []; auto).
           split.
           ++ destruct (_ =? "txt")%string; [cbn; auto|].
              destruct (_ =? "srt")%string; cbn; auto.
           ++ split.
              ** intros _. exists u, i, t, out. rewrite Hf.
                 repeat split; try assumption.
                 destruct (_ =? "txt")%string; [reflexivity|].
                 destruct (_ =? "srt")%string; reflexivity.
              ** intros _.
                 destruct (_ =? "txt")%string; [reflexivity|].
                 destruct (_ =? "srt")%string; reflexivity.
        -- split; [cbn; auto 10|]. split; [discriminate|].
           intros (u' & id' & t' & out & [= <-] & H1 & H2 & H3 & _).
           rewrite Hx in H1. injection H1 as <-. rewrite Ha in H2.
           injection H2 as <-. rewrite Hf in H3. discriminate.
      * split; [cbn; auto 10|]. split; [discriminate|].
        intros (u' & id' & t' & out & [= <-] & H1 & H2 & _).
        rewrite Hx in H1. injection H1 as <-. rewrite Ha in H2. discriminate.
      * split; [cbn; auto 10|]. split; [discriminate|].
        intros (u' & id' & t' & out & [= <-] & H1 & H2 & _).
        rewrite Hx in H1. injection H1 as <-. rewrite Ha in H2. discriminate.
      * split; [cbn; auto 10|]. split; [discriminate|].
        intros (u' & id' & t' & out & [= <-] & H1 & H2 & _).
        rewrite Hx in H1. injection H1 as <-. rewrite Ha in H2. discriminate.
      * split; [cbn; auto 10|]. split; [discriminate|].
        intros (u' & id' & t' & out & [= <-] & H1 & H2 & _).
        rewrite Hx in H1. injection H1 as <-. rewrite Ha in H2. discriminate.
    + split; [cbn; auto|]. split; [discriminate|].
      intros (u' & id' & t' & out & [= <-] & H1 & _). congruence.
  - split; [cbn; auto|]. split; [discriminate|].
    intros (u & id & t & out & H & _). discriminate H.
Qed.

(** X5, on a short link, the sample transcript and the [txt] format. *)
Lemma get_transcript_status_witness :
  status (get_transcript (fun _ => Fetched sample_transcript)
            (Some "https://youtu.be/dQw4w9WgXcQ") (Some "txt")) = 200.
Proof.
  destruct (get_transcript_status (fun _ => Fetched sample_transcript)
              (Some "https://youtu.be/dQw4w9WgXcQ") (Some "txt")) as [_ [_ H]].
  apply H.
  exists "https://youtu.be/dQw4w9WgXcQ", "dQw4w9WgXcQ", sample_transcript,
    ("Hello" ++ nl ++ "world").
  repeat split; vm_compute; reflexivity.
Defined.

Lemma format_transcript_raise_srt t format_type e :
  format_transcript t (Some format_type) = Raise e -> format_type = "srt".
Proof.
  unfold format_transcript.
  destruct (String.eqb_spec format_type "txt"); [discriminate|].
  destruct (String.eqb_spec format_type "srt"); [auto|].
  destruct (String.eqb_spec format_type "json"); discriminate.
Qed.

(** X6. A failure that is none of the three retrieval kinds is answered 500
    with its message as [details]; so is a fetched transcript on which the
    formatter raises, which only happens with the [srt] format. *)
Theorem get_transcript_unexpected api url format id :
  extract_video_id url = Some id ->
  (forall message, api id = OtherException message ->
     get_transcript api (Some url) format =
     json_error [("error", "An unexpected error occurred"); ("details", message)] 500) /\
  (forall transcript e,
     api id = Fetched transcript ->
     format_transcript transcript
       (Some (match format with Some f => f | None => "json" end)) = Raise e ->
     format = Some "srt" /\
     get_transcript api (Some url) format =
     json_error [("error", "An unexpected error occurred");
                 ("details", exn_message e)] 500).
Proof.
  intros H. destruct (extract_video_id_nonempty url id H) as [Hid Hurl].
  unfold get_transcript.
  destruct url as [|c url]; [congruence|]. rewrite H.
  destruct id as [|c' id]; [congruence|].
  split.
  - intros message ->. reflexivity.
  - intros t e -> Hf. rewrite Hf. split; [|reflexivity].
    apply format_transcript_raise_srt in Hf.
    destruct format as [f|]; [now subst | discriminate Hf].
Qed.

(** X6, on a transcript whose end time overflows. *)
Lemma get_transcript_unexpected_witness :
  status (get_transcript (fun _ => Fetched late_transcript)
            (Some "https://youtu.be/dQw4w9WgXcQ") (Some "srt")) = 500.
Proof.
  destruct (get_transcript_unexpected (fun _ => Fetched late_transcript)
              "https://youtu.be/dQw4w9WgXcQ" (Some "srt") "dQw4w9WgXcQ")
    as [_ H]; [vm_compute; reflexivity|].
  destruct (H late_transcript OverflowError) as [_ E];
    [reflexivity | vm_compute; reflexivity |].
  rewrite E. reflexivity.
Defined.

(** X7. A fetched transcript is delivered with status 200 whenever the
    format is not [srt] or all its times are seconds values with a finite
    sum: as [text/plain] for [txt] and [srt], as [application/json]
    otherwise; without a [format] parameter the body is the indented JSON
    rendering. *)
Theorem get_transcript_delivers api url format id transcript :
  extract_video_id url = Some id -> api id = Fetched transcript ->
  format <> Some "srt" \/ Forall timed transcript ->
  exists out,
    format_transcript transcript
      (Some (match format with Some f => f | None => "json" end)) = Ok out /\
    get_transcript api (Some url) format =
    {| status := 200;
       mimetype := if format_is format "txt" || format_is format "srt"
                   then "text/plain" else "application/json";
       body := Text out |} /\
    (format = None -> out = json_dumps (Some 2%nat) None transcript).
Proof.
  intros H Ha Hok. destruct (extract_video_id_nonempty url id H) as [Hid Hurl].
  set (ft := match format with Some f => f | None => "json" end).
  assert (Hout : exists out, format_transcript transcript (Some ft) = Ok out).
  { unfold format_transcript.
    destruct (String.eqb_spec ft "txt"); [eexists; reflexivity|].
    destruct (String.eqb_spec ft "srt") as [Hsrt|].
    - rewrite srt_loop_blocks. destruct Hok as [Hn|Ht].
      + exfalso. apply Hn. unfold ft in Hsrt.
        destruct format; [now subst | discriminate].
      + destruct (srt_blocks_ok transcript Ht 1) as [bs Hbs]. rewrite Hbs.
        eexists. reflexivity.
    - destruct (String.eqb_spec ft "json"); eexists; reflexivity. }
  destruct Hout as [out Hout]. exists out. split; [exact Hout|]. split.
  - unfold get_transcript.
    destruct url as [|c url]; [congruence|]. rewrite H.
    destruct id as [|c' id]; [congruence|]. rewrite Ha. fold ft. rewrite Hout.
    destruct format as [f|]; unfold ft, format_is; [|reflexivity].
    destruct (f =? "txt")%string; [reflexivity|].
    destruct (f =? "srt")%string; reflexivity.
  - intros ->. unfold ft in Hout. cbn in Hout. now injection Hout as <-.
Qed.

(** X7, on a short link without a [format] parameter. *)
Lemma get_transcript_delivers_witness :
  mimetype (get_transcript (fun _ => Fetched late_transcript)
              (Some "https://youtu.be/dQw4w9WgXcQ") None) = "application/json".
Proof.
  destruct (get_transcript_delivers (fun _ => Fetched late_transcript)
              "https://youtu.be/dQw4w9WgXcQ" None "dQw4w9WgXcQ" late_transcript)
    as (out & _ & E & _).
  - vm_compute. reflexivity.
  - reflexivity.
  - left. discriminate.
  - rewrite E. reflexivity.
Defined.

(** X8. [/api/check-transcript] answers 200, 400 or 500, never 403 or 404,
    and it answers 400 for exactly the requests [/api/transcript] answers
    400: both validate the URL in the same way. *)
Theorem check_transcript_status lister api video_url format :
  In (reply_status (check_transcript lister video_url)) [200; 400; 500] /\
  (reply_status (check_transcript lister video_url) = 400 <->
   status (get_transcript api video_url format) = 400).
Proof.
  unfold check_transcript, get_transcript.
  destruct video_url as [[|c url]|]; try (split; [cbn; auto | split; reflexivity]).
  destruct (extract_video_id (String c url)) as [[|c' id]|];
    try (split; [cbn; auto | split; reflexivity]).
  split.
  - destruct (lister (String c' id)); cbn; auto.
  - split.
    + destruct (lister (String c' id)); discriminate.
    + destruct (api (String c' id)); try discriminate.
      destruct (format_transcript _ _); [|discriminate].
      destruct (_ =? "txt")%string; [discriminate|].
      destruct (_ =? "srt")%string; discriminate.
Qed.

(** X8, on [not a url]. *)
Lemma check_transcript_status_witness :
  reply_status (check_transcript (fun _ => Listed) (Some "not a url")) = 400.
Proof.
  destruct (check_transcript_status (fun _ => Listed) (fun _ => NoTranscriptFound)
              (Some "not a url") None) as [_ [_ H]].
  apply H. vm_compute. reflexivity.
Defined.

(** X9. [/api/check-transcript] answers the three retrieval failures alike,
    with status 200 and [available] false, whereas [/api/transcript] tells
    disabled transcripts (403) from the two other kinds (404). *)
Theorem check_transcript_unavailable lister url id :
  extract_video_id url = Some id ->
  In (lister id) [ListNoTranscriptFound; ListTranscriptsDisabled; ListVideoUnavailable] ->
  check_transcript lister (Some url) =
    {| reply_status := 200;
       reply_body := [("available", FBool false);
                      ("message", FText "Transcript is not available for this video")] |} /\
  forall format,
    status (get_transcript (fun _ => TranscriptsDisabled) (Some url) format)
    <> status (get_transcript (fun _ => VideoUnavailable) (Some url) format).
Proof.
  intros H Hl. destruct (extract_video_id_nonempty url id H) as [Hid Hurl].
  unfold check_transcript, get_transcript.
  destruct url as [|c url]; [congruence|]. rewrite H.
  destruct id as [|c' id]; [congruence|].
  split.
  - cbn [In] in Hl. destruct Hl as [<- | [<- | [<- | []]]]; reflexivity.
  - intros format. discriminate.
Qed.

(** X9, on a short link. *)
Lemma check_transcript_unavailable_witness :
  reply_status (check_transcript (fun _ => ListTranscriptsDisabled)
                  (Some "https://youtu.be/dQw4w9WgXcQ")) = 200.
Proof.
  destruct (check_transcript_unavailable (fun _ => ListTranscriptsDisabled)
              "https://youtu.be/dQw4w9WgXcQ" "dQw4w9WgXcQ") as [E _].
  - vm_compute. reflexivity.
  - cbn [In]. auto.
  - rewrite E. reflexivity.
Defined.

(** X10. [/api/test-transcript/<video_id>] calls its function exactly for
    the ids the route passes: at least one character and no slash. For
    those it always answers 200, reports [success] exactly when the
    retrieval returned, and then shows the first entries of the transcript
    in order, five of them or all when there are fewer; otherwise it gives
    the text of the exception. Nothing else about the id is checked. *)
Theorem test_transcript_preview api str_e video_id :
  (route_video_id video_id = false -> test_transcript api str_e video_id = None) /\
  (route_video_id video_id = true ->
   exists r,
     test_transcript api str_e video_id = Some r /\
     reply_status r = 200 /\
     (forall transcript, api video_id = Fetched transcript ->
        exists shown rest,
          reply_body r = [("success", FBool true); ("transcript", FEntries shown)] /\
          transcript = (shown ++ rest)%list /\
          List.length shown = Nat.min 5 (List.length transcript)) /\
     ((forall transcript, api video_id <> Fetched transcript) ->
        reply_body r = [("success", FBool false);
                        ("error", FText (str_e (api video_id)))])).
Proof.
  unfold test_transcript. split; intros Hr; rewrite Hr; [reflexivity|].
  destruct (api video_id) as [t| | | |msg] eqn:Ha;
    eexists; (split; [reflexivity|]); (split; [reflexivity|]); split.
  all: try (intros t' [=]).
  all: try (intros _; reflexivity).
  - subst t'. exists (firstn 5 t), (skipn 5 t).
    split; [reflexivity|]. split; [symmetry; apply firstn_skipn|].
    apply length_firstn.
  - intros H. exfalso. apply (H t). reflexivity.
Qed.

(** X10, on a transcript of two entries. *)
Lemma test_transcript_preview_witness :
  exists r shown,
    test_transcript (fun _ => Fetched sample_transcript)
      (fun _ => EmptyString) "dQw4w9WgXcQ" = Some r /\
    reply_status r = 200 /\
    reply_body r = [("success", FBool true); ("transcript", FEntries shown)] /\
    List.length shown = 2%nat.
Proof.
  destruct (test_transcript_preview (fun _ => Fetched sample_transcript)
              (fun _ => EmptyString) "dQw4w9WgXcQ") as (_ & H).
  destruct (H eq_refl) as (r & Hr & Hs & Hf & _).
  destruct (Hf sample_transcript eq_refl) as (shown & rest & E & _ & L).
  exists r, shown. repeat split; assumption.
Defined.

(** ** The JSON renderings *)

Lemma printable_app a b : printable (a ++ b) = printable a && printable b.
Proof.
  induction a as [|c a IH]; cbn [append printable]; [reflexivity|].
  now rewrite IH, andb_assoc.
Qed.

Lemma printable_digits s : all_digits s = true -> printable s = true.
Proof.
  induction s as [|c s IH]; cbn [all_digits printable]; [reflexivity|].
  intros H. apply andb_prop in H as [Hc Hs]. rewrite (IH Hs), andb_true_r.
  unfold is_digit in Hc. apply andb_prop in Hc as [H1 H2].
  apply Z.leb_le in H1, H2. apply andb_true_intro; split; apply Z.leb_le; lia.
Qed.

Lemma is_digit_digit_char_le d : d <= 9 -> is_digit (digit_char d) = true.
Proof.
  intros H. destruct d as [|p|p]; [reflexivity | apply is_digit_digit_char; lia |].
  reflexivity.
Qed.

Lemma all_digits_dec_digits fuel : forall n, all_digits (dec_digits fuel n) = true.
Proof.
  induction fuel as [|f IH]; intros n; cbn [dec_digits].
  - cbn [all_digits]. rewrite is_digit_digit_char_le; [reflexivity|].
    pose proof (Z.mod_pos_bound n 10). lia.
  - destruct (Z.ltb_spec n 10).
    + cbn [all_digits]. rewrite is_digit_digit_char_le; [reflexivity | lia].
    + rewrite all_digits_app, IH. cbn [all_digits].
      rewrite is_digit_digit_char_le; [reflexivity|].
      pose proof (Z.mod_pos_bound n 10). lia.
Qed.

Lemma printable_str_nonneg n : printable (str_nonneg n) = true.
Proof. apply printable_digits, all_digits_dec_digits. Qed.

Lemma printable_zeros n : printable (repeat_string "0" n) = true.
Proof. apply printable_digits, all_digits_zeros. Qed.

Lemma printable_substring s : forall n m,
  printable s = true -> printable (substring n m s) = true.
Proof.
  induction s as [|c s IH]; intros n m H.
  - destruct n, m; reflexivity.
  - cbn [printable] in H. apply andb_prop in H as [Hc Hs].
    destruct n as [|n]; cbn [substring].
    + destruct m as [|m]; [reflexivity|].
      cbn [printable]. rewrite Hc. apply IH. exact Hs.
    + apply IH. exact Hs.
Qed.

Lemma printable_float_repr x : printable (float_repr x) = true.
Proof.
  destruct x as [| [|] |neg m e]; try reflexivity.
  unfold float_repr. rewrite printable_app.
  apply andb_true_intro. split; [destruct neg; reflexivity|].
  destruct (units m e =? 0); [reflexivity|].
  unfold repr_units.
  destruct (shortest_digits _ _ _ _ _ _ _) as [d decpt].
  set (ds := str_nonneg (strip_zeros 17 d)).
  assert (Hds : printable ds = true) by apply printable_str_nonneg.
  destruct (_ && _).
  - destruct (decpt <=? 0).
    + rewrite !printable_app, printable_zeros, Hds. reflexivity.
    + destruct (_ <=? decpt).
      * rewrite !printable_app, printable_zeros, Hds. reflexivity.
      * rewrite !printable_app, !printable_substring by exact Hds. reflexivity.
  - rewrite !printable_app, printable_substring by exact Hds.
    assert (Hz : printable (zero_pad 2 false (str_nonneg (Z.abs (decpt - 1)))) = true).
    { unfold zero_pad. now rewrite printable_app, printable_zeros, printable_str_nonneg. }
    rewrite Hz.
    destruct (1 <? _); destruct (decpt - 1 <? 0);
      rewrite ?printable_app, ?printable_substring by exact Hds; reflexivity.
Qed.

Lemma printable_json_escape_char c : printable (json_escape_char c) = true.
Proof.
  destruct c as [[] [] [] [] [] [] [] []]; reflexivity.
Qed.

(** Whatever the text, its JSON string is printable ASCII. *)
Lemma printable_json_string s : printable (json_string s) = true.
Proof.
  unfold json_string. change (String dquote ?x) with (String dquote EmptyString ++ x).
  rewrite !printable_app.
  assert (H : printable (json_escape s) = true).
  { induction s as [|c s IH]; cbn [json_escape]; [reflexivity|].
    now rewrite printable_app, printable_json_escape_char, IH. }
  rewrite H. reflexivity.
Qed.

Lemma printable_join sep l :
  printable sep = true -> Forall (fun x => printable x = true) l ->
  printable (join sep l) = true.
Proof.
  intros Hsep H. induction H as [|x l Hx Hl IH]; [reflexivity|].
  destruct l as [|y l]; [exact Hx|].
  change (join sep (x :: y :: l)) with (x ++ sep ++ join sep (y :: l)).
  now rewrite !printable_app, Hx, Hsep, IH.
Qed.

Lemma printable_entry_line item : printable (entry_line item) = true.
Proof.
  unfold entry_line.
  rewrite !printable_app, !printable_json_string, !printable_float_repr. reflexivity.
Qed.

Lemma printable_count c s :
  printable s = true ->
  (Z.of_nat (nat_of_ascii c) < 32 \/ 126 < Z.of_nat (nat_of_ascii c)) ->
  count_char c s = 0%nat.
Proof.
  intros H Hc. induction s as [|a s IH]; [reflexivity|].
  cbn [printable] in H. apply andb_prop in H as [Ha Hs].
  apply andb_prop in Ha as [H1 H2]. apply Z.leb_le in H1, H2.
  cbn [count_char]. rewrite (IH Hs).
  destruct (Ascii.eqb_spec a c) as [->|]; [lia | reflexivity].
Qed.

(** X11. With a format type other than [txt], [srt] and [json] the
    rendering is one line of printable ASCII, whatever the texts: line
    breaks, control characters and characters above 126 in a text are
    escaped. *)
Theorem fallback_single_line t format_type :
  ~ recognized format_type ->
  exists out,
    format_transcript t (Some format_type) = Ok out /\
    printable out = true /\ count_char (ascii_of_nat 10) out = 0%nat.
Proof.
  intros Hft. exists (json_dumps None None t).
  assert (Hp : printable (json_dumps None None t) = true).
  { rewrite json_dumps_compact. destruct t as [|item t]; [reflexivity|].
    rewrite !printable_app, printable_join; [reflexivity | reflexivity |].
    apply Forall_map. apply Forall_forall. intros x _. apply printable_entry_line. }
  split; [|split; [exact Hp|]].
  - unfold format_transcript, recognized in *.
    destruct (String.eqb_spec format_type "txt"); [tauto|].
    destruct (String.eqb_spec format_type "srt"); [tauto|].
    destruct (String.eqb_spec format_type "json"); [tauto|].
    reflexivity.
  - apply printable_count; [exact Hp | left; cbn; lia].
Qed.

(** X11, with the format type [xml]. *)
Lemma fallback_single_line_witness :
  exists out,
    format_transcript sample_transcript (Some "xml") = Ok out /\
    count_char (ascii_of_nat 10) out = 0%nat.
Proof.
  destruct (fallback_single_line sample_transcript "xml") as (out & H & _ & C).
  - unfold recognized. intros [H|[H|H]]; discriminate H.
  - exists out. split; assumption.
Defined.

Lemma count_char_app c a b :
  count_char c (a ++ b) = (count_char c a + count_char c b)%nat.
Proof.
  induction a as [|x a IH]; cbn [append count_char]; [reflexivity|].
  rewrite IH. lia.
Qed.

Lemma json_entry_block item :
  json_encode (Some 2%nat) (",", ": ") 1 (json_of_entry item) = entry_block item.
Proof.
  unfold json_of_entry, entry_block.
  cbn [json_encode map join fst snd].
  change (newline_indent (Some 2%nat) 2) with (nl ++ "    ").
  change (newline_indent (Some 2%nat) 1) with (nl ++ "  ").
  repeat (rewrite !app_assoc_s || cbn [append]). reflexivity.
Qed.

Lemma json_dumps_pretty t :
  json_dumps (Some 2%nat) None t =
  match t with
  | [] => "[]"
  | _ => "[" ++ nl ++ "  " ++ join ("," ++ nl ++ "  ") (map entry_block t) ++ nl ++ "]"
  end.
Proof.
  unfold json_dumps. cbn [default_separators].
  destruct t as [|item t]; [reflexivity|].
  cbn [map json_encode fst snd].
  change (newline_indent (Some 2%nat) 1) with (nl ++ "  ").
  change (newline_indent (Some 2%nat) 0) with nl.
  rewrite map_map, json_entry_block.
  rewrite (map_ext _ _ json_entry_block).
  repeat (rewrite !app_assoc_s || cbn [append]). reflexivity.
Qed.

Lemma newline_not_printable s :
  printable s = true -> count_char (ascii_of_nat 10) s = 0%nat.
Proof.
  intros H. apply printable_count; [exact H | left; cbn; lia].
Qed.

Lemma count_entry_block item :
  count_char (ascii_of_nat 10) (entry_block item) = 4%nat.
Proof.
  unfold entry_block. rewrite !count_char_app.
  rewrite !(newline_not_printable (json_string _)) by apply printable_json_string.
  rewrite !(newline_not_printable (float_repr _)) by apply printable_float_repr.
  reflexivity.
Qed.

Lemma count_join_blocks item t :
  count_char (ascii_of_nat 10)
    (join ("," ++ nl ++ "  ") (map entry_block (item :: t)))
  = (5 * List.length t + 4)%nat.
Proof.
  assert (Hsep : count_char (ascii_of_nat 10) ("," ++ nl ++ "  ") = 1%nat)
    by reflexivity.
  set (sep := "," ++ nl ++ "  ") in *.
  revert item. induction t as [|item' t IH]; intros item.
  - cbn [map join List.length]. rewrite count_entry_block. reflexivity.
  - change (join sep (map entry_block (item :: item' :: t)))
      with (entry_block item ++ sep ++ join sep (map entry_block (item' :: t))).
    rewrite !count_char_app, count_entry_block, IH, Hsep. cbn [List.length]. lia.
Qed.

Lemma count_pretty item t :
  count_char (ascii_of_nat 10)
    ("[" ++ nl ++ "  " ++ join ("," ++ nl ++ "  ") (map entry_block (item :: t)) ++
     nl ++ "]")
  = (5 * List.length (item :: t) + 1)%nat.
Proof.
  rewrite (count_char_app _ "["), (count_char_app _ nl), (count_char_app _ "  "),
    (count_char_app _ (join _ _)), (count_char_app _ nl), count_join_blocks.
  cbn [List.length].
  change (count_char (ascii_of_nat 10) "[") with 0%nat.
  change (count_char (ascii_of_nat 10) nl) with 1%nat.
  change (count_char (ascii_of_nat 10) "  ") with 0%nat.
  change (count_char (ascii_of_nat 10) "]") with 0%nat. lia.
Qed.

(** X12. The [json] format is the indented rendering: an opening bracket,
    the entries as blocks of five lines indented by two and four spaces and
    separated by a comma at the end of a line, a closing bracket. For a
    transcript of [n >= 1] entries it has exactly [5n + 1] line breaks,
    whatever the texts; the empty transcript renders as [[]]. *)
Theorem json_rendering t :
  format_transcript t (Some "json") =
    Ok (match t with
        | [] => "[]"
        | _ => "[" ++ nl ++ "  " ++ join ("," ++ nl ++ "  ") (map entry_block t) ++
               nl ++ "]"
        end) /\
  (forall out, format_transcript t (Some "json") = Ok out -> t <> [] ->
     count_char (ascii_of_nat 10) out = (5 * List.length t + 1)%nat).
Proof.
  assert (H : format_transcript t (Some "json") = Ok (json_dumps (Some 2%nat) None t))
    by reflexivity.
  rewrite H, json_dumps_pretty. split; [reflexivity|].
  intros out Hout Hne. destruct t as [|item t]; [congruence|].
  assert (E : out = "[" ++ nl ++ "  " ++
                    join ("," ++ nl ++ "  ") (map entry_block (item :: t)) ++
                    nl ++ "]") by congruence.
  rewrite E. apply count_pretty.
Qed.

(** X12, on a transcript of two captions. *)
Lemma json_rendering_witness :
  exists out, format_transcript sample_transcript (Some "json") = Ok out /\
              count_char (ascii_of_nat 10) out = 11%nat.
Proof.
  destruct (json_rendering sample_transcript) as [H C].
  eexists. split; [exact H|]. apply (C _ H). discriminate.
Defined.

(** ** Renderings of a transcript in two parts *)

Lemma srt_blocks_app t1 : forall i t2,
  srt_blocks i (t1 ++ t2)%list =
  (b1 <- srt_blocks i t1 ;;
   b2 <- srt_blocks (i + Z.of_nat (List.length t1)) t2 ;;
   Ok (b1 ++ b2)%list).
Proof.
  induction t1 as [|item t1 IH]; intros i t2; cbn [app srt_blocks List.length].
  - cbn [bind]. rewrite Z.add_0_r. destruct (srt_blocks i t2); reflexivity.
  - destruct (srt_block i item) as [b|]; cbn [bind]; [|reflexivity].
    rewrite IH. destruct (srt_blocks (i + 1) t1) as [b1|]; cbn [bind]; [|reflexivity].
    replace (i + 1 + Z.of_nat (List.length t1))
      with (i + Z.of_nat (S (List.length t1))) by lia.
    destruct (srt_blocks _ t2); reflexivity.
Qed.

Lemma concat_all_app l1 l2 :
  concat_all (l1 ++ l2)%list = concat_all l1 ++ concat_all l2.
Proof.
  induction l1 as [|x l1 IH]; cbn [app concat_all]; [reflexivity|].
  now rewrite IH, app_assoc_s.
Qed.

(** X13. The subtitle rendering of a transcript in two parts is the
    rendering of the first part followed by the blocks of the second,
    numbered on from the length of the first: the block of the entry at
    position [k] of the second part (from 0) begins with the decimal numeral
    of [len(first) + k + 1] on its own line. An error in the first part is
    the error of the whole. *)
Theorem srt_rendering_app t1 t2 :
  format_transcript (t1 ++ t2)%list (Some "srt") =
  (s1 <- format_transcript t1 (Some "srt") ;;
   b2 <- srt_blocks (1 + Z.of_nat (List.length t1)) t2 ;;
   Ok (s1 ++ concat_all b2)) /\
  (forall b2, srt_blocks (1 + Z.of_nat (List.length t1)) t2 = Ok b2 ->
     List.length b2 = List.length t2 /\
     forall k item, nth_error t2 k = Some item ->
       exists idx s e,
         numeral idx (Z.of_nat (List.length t1) + Z.of_nat k + 1) /\
         format_time (start item) = Ok s /\
         format_time (float_add (start item) (duration item)) = Ok e /\
         nth_error b2 k =
           Some (idx ++ nl ++ s ++ " --> " ++ e ++ nl ++ text item ++ nl ++ nl)).
Proof.
  split.
  - assert (H : forall t, format_transcript t (Some "srt") =
                          (blocks <- srt_blocks 1 t ;; Ok (concat_all blocks))).
    { intros t. unfold format_transcript. cbn [String.eqb Ascii.eqb Bool.eqb].
      apply srt_loop_blocks. }
    rewrite !H, srt_blocks_app.
    destruct (srt_blocks 1 t1) as [b1|]; cbn [bind]; [|reflexivity].
    destruct (srt_blocks _ t2) as [b2|]; cbn [bind]; [|reflexivity].
    now rewrite concat_all_app.
  - intros b2 Hb.
    destruct (srt_blocks_nth t2 _ b2 Hb) as [Hlen Hnth].
    split; [exact Hlen|]. intros k item Hk.
    destruct (Hnth k item Hk) as (s & e & Hs & He & Hblk).
    exists (str_int (1 + Z.of_nat (List.length t1) + Z.of_nat k)), s, e.
    split.
    + replace (Z.of_nat (List.length t1) + Z.of_nat k + 1)
        with (1 + Z.of_nat (List.length t1) + Z.of_nat k) by ring.
      apply str_int_numeral. lia.
    + repeat split; assumption.
Qed.

(** X13, on a transcript of two captions split in the middle: the block of
    the second caption carries the numeral of 2. *)
Lemma srt_rendering_app_witness :
  exists b2 idx rest,
    srt_blocks 2 [ {| text := "world"; start := float_of_decimal 15 10;
                      duration := float_of_decimal 225 100 |} ] = Ok b2 /\
    nth_error b2 0 = Some (idx ++ nl ++ rest) /\ numeral idx 2.
Proof.
  destruct (srt_blocks_ok _ (Forall_inv_tail sample_transcript_timed) 2) as [b2 Hb].
  destruct (srt_rendering_app
              [ {| text := "Hello"; start := float_of_Z 0;
                   duration := float_of_decimal 15 10 |} ]
              [ {| text := "world"; start := float_of_decimal 15 10;
                   duration := float_of_decimal 225 100 |} ]) as [_ H].
  destruct (H b2 Hb) as [_ Hnth].
  destruct (Hnth 0%nat _ eq_refl) as (idx & s & e & Hidx & _ & _ & Hblk).
  exists b2, idx, (s ++ " --> " ++ e ++ nl ++ "world" ++ nl ++ nl).
  split; [exact Hb|]. split; [exact Hblk|exact Hidx].
Defined.

Lemma join_app sep l1 l2 :
  l1 <> [] -> l2 <> [] ->
  join sep (l1 ++ l2)%list = join sep l1 ++ sep ++ join sep l2.
Proof.
  intros H1 H2. induction l1 as [|x l1 IH]; [congruence|].
  destruct l1 as [|y l1].
  - destruct l2; [congruence | reflexivity].
  - change (join sep ((x :: y :: l1) ++ l2)%list)
      with (x ++ sep ++ join sep ((y :: l1) ++ l2)%list).
    rewrite IH by discriminate.
    change (join sep (x :: y :: l1)) with (x ++ sep ++ join sep (y :: l1)).
    now rewrite !app_assoc_s.
Qed.

(** X14. The plain-text rendering of a transcript in two non-empty parts is
    the two renderings with one newline between them; an empty part adds
    nothing, not even a newline. *)
Theorem txt_rendering_app t1 t2 :
  (t1 <> [] -> t2 <> [] ->
   format_transcript (t1 ++ t2)%list (Some "txt") =
   (s1 <- format_transcript t1 (Some "txt") ;;
    s2 <- format_transcript t2 (Some "txt") ;;
    Ok (s1 ++ nl ++ s2))) /\
  format_transcript ([] ++ t2)%list (Some "txt") = format_transcript t2 (Some "txt") /\
  format_transcript (t1 ++ [])%list (Some "txt") = format_transcript t1 (Some "txt").
Proof.
  split; [|split].
  - intros H1 H2. unfold format_transcript. cbn [String.eqb Ascii.eqb Bool.eqb bind].
    rewrite map_app, join_app; [reflexivity | |].
    + destruct t1; [congruence | discriminate].
    + destruct t2; [congruence | discriminate].
  - reflexivity.
  - now rewrite app_nil_r.
Qed.

(** X14, on the sample transcript taken twice. *)
Lemma txt_rendering_app_witness :
  format_transcript (sample_transcript ++ sample_transcript)%list (Some "txt")
  = Ok (("Hello" ++ nl ++ "world") ++ nl ++ ("Hello" ++ nl ++ "world")).
Proof.
  destruct (txt_rendering_app sample_transcript sample_transcript) as [H _].
  rewrite H; [reflexivity | discriminate | discriminate].
Defined.

(** ** [extract_video_id]: where the identifier comes from *)

(** X15. The identifier [extract_video_id] returns is a piece of the input
    that comes after an occurrence of [youtube.com/] or [youtu.be/]: the
    input is never changed or completed. *)
Theorem extract_video_id_piece url id :
  extract_video_id url = Some id ->
  exists before after,
    url = before ++ id ++ after /\
    (occursb "youtube.com/" before = true \/ occursb "youtu.be/" before = true).
Proof.
  intros H.
  apply extract_video_id_sound in H as (pre & a & host & b & rest & -> & Hh & _).
  exists (pre ++ a ++ host ++ "/" ++ b), rest. split.
  - now rewrite !app_assoc_s.
  - destruct Hh as [-> | ->]; [left | right].
    + rewrite <- (app_assoc_s pre a).
      change ("youtube.com" ++ "/" ++ b) with ("youtube.com/" ++ b).
      apply occursb_app.
    + rewrite <- (app_assoc_s pre a).
      change ("youtu.be" ++ "/" ++ b) with ("youtu.be/" ++ b).
      apply occursb_app.
Qed.

(** X15, on a watch link. *)
Lemma extract_video_id_piece_witness :
  exists before after,
    "https://www.youtube.com/watch?v=dQw4w9WgXcQ&t=1" = before ++ "dQw4w9WgXcQ" ++ after.
Proof.
  destruct (extract_video_id_piece "https://www.youtube.com/watch?v=dQw4w9WgXcQ&t=1"
              "dQw4w9WgXcQ") as (before & after & E & _).
  - vm_compute. reflexivity.
  - exists before, after. exact E.
Defined.

(** ** [format_time]: when it raises *)

Lemma units_pos m e : 0 < m -> -1074 <= e -> 0 < units m e.
Proof.
  intros Hm He. unfold units. apply Z.mul_pos_pos; [lia|].
  apply Z.pow_pos_nonneg; lia.
Qed.

(** [x % B] of a finite float of either sign lies in [0, B]: a remainder
    below zero is moved up by [B]. *)
Lemma float_mod_range mc ec B neg m e :
  units mc ec = B * unit_den -> 0 < B < 2 ^ 53 ->
  0 <= m < 2 ^ 53 -> -1074 <= e <= 971 ->
  exists m' e',
    float_mod (FFin neg m e) (FFin false mc ec) = Ok (FFin false m' e') /\
    0 <= m' /\ -1074 <= e' /\ units m' e' <= B * unit_den.
Proof.
  intros Hc HB Hm He. pose proof unit_den_pos as HU.
  assert (HBU : 0 < B * unit_den) by (apply Z.mul_pos_pos; lia).
  pose proof (Z.mod_pos_bound (units m e) (B * unit_den) HBU) as Hb.
  destruct neg.
  2:{ destruct (float_mod_const mc ec B Hc HB false m e Hm He (or_introl eq_refl))
        as (m' & e' & Heq & Hm' & He' & Hu).
      exists m', e'. repeat split; try assumption. lia. }
  unfold float_mod, is_zero. rewrite (const_nonzero mc ec B Hc HB).
  unfold c_fmod. rewrite Hc.
  destruct (units_mod_repr m e B Hm He HB) as (k & t & Hk & Ht & Hr).
  rewrite Hr in *.
  destruct (round_b64_exact true k t Hk Ht) as (m' & e' & Heq & Hm' & He' & Hu).
  rewrite Heq.
  destruct m' as [|p|p]; [| |lia].
  - exists 0, (-1074). repeat split; try lia. unfold units. lia.
  - assert (Hpos : 0 < k * 2 ^ t).
    { rewrite <- Hu. apply units_pos; lia. }
    cbn [float_ltz sign_bit andb negb Bool.eqb].
    change (Z.pos p =? 0) with false. cbn [negb andb Bool.eqb].
    unfold float_add. rewrite Hc, Hu.
    destruct (Z.eqb_spec (- (k * 2 ^ t) + B * unit_den) 0); [lia|].
    destruct (Z.ltb_spec (- (k * 2 ^ t) + B * unit_den) 0); [lia|].
    rewrite Z.abs_eq by lia.
    destruct (round_b64_le false (- (k * 2 ^ t) + B * unit_den) unit_den B)
      as (m2 & e2 & Heq2 & Hm2 & He2 & Hu2); try lia.
    rewrite Heq2. exists m2, e2. repeat split; assumption.
Qed.

(** A finite float of either sign divided by an integer constant of at
    least 2 is finite, so [int] takes it. *)
Lemma float_div_defined mc ec B neg m e :
  units mc ec = B * unit_den -> 2 <= B < 2 ^ 53 ->
  0 <= m -> -1074 <= e -> units m e < 2 ^ 53 * 2 ^ 2045 ->
  exists q n,
    float_div (FFin neg m e) (FFin false mc ec) = Ok q /\ py_int q = Ok n.
Proof.
  intros Hc HB Hm He Hlt. pose proof unit_den_pos as HU.
  unfold float_div. rewrite (const_nonzero mc ec B Hc) by lia. rewrite Hc.
  destruct (round_b64_finite (xorb neg false) (units m e) (B * unit_den) 2097)
    as (m' & e' & Heq & _ & _).
  - apply units_nonneg; lia.
  - apply Z.mul_pos_pos; lia.
  - lia.
  - apply Z.le_lt_trans with (units m e * unit_den * 1); [lia|].
    replace (B * unit_den * 2 ^ 2097) with (B * 2 ^ 2097 * unit_den) by ring.
    rewrite Z.mul_1_r. apply Z.mul_lt_mono_pos_r; [exact HU|].
    apply Z.lt_le_trans with (1 := Hlt).
    change (2 ^ 53 * 2 ^ 2045) with (2 * 2 ^ 2097).
    apply Z.mul_le_mono_nonneg_r; [apply Z.pow_nonneg|]; lia.
  - rewrite Heq. eexists. eexists. split; reflexivity.
Qed.

(** [format_time] returns on every finite float, also below zero. *)
Lemma format_time_finite neg m e :
  0 <= m < 2 ^ 53 -> -1074 <= e <= 971 ->
  exists s, format_time (FFin neg m e) = Ok s.
Proof.
  intros Hm He. pose proof unit_den_pos as HU.
  unfold format_time. rewrite float_3600, float_60.
  destruct (float_div_defined _ _ 3600 neg m e units_3600) as (q & h & Hq & Hh);
    try lia.
  { apply units_lt; assumption. }
  rewrite Hq. cbn [bind]. rewrite Hh. cbn [bind].
  destruct (float_mod_range _ _ 3600 neg m e units_3600) as (mr & er & Hr & Hmr & Her & Hur);
    try lia.
  rewrite Hr. cbn [bind].
  destruct (float_div_defined _ _ 60 false mr er units_60) as (q' & mi & Hq' & Hmi);
    try lia.
  { apply Z.le_lt_trans with (1 := Hur).
    apply Z.lt_le_trans with (2 ^ 53 * unit_den).
    - apply Z.mul_lt_mono_pos_r; lia.
    - apply Z.mul_le_mono_nonneg_l; [lia|].
      unfold unit_den. apply Z.pow_le_mono_r; lia. }
  rewrite Hq'. cbn [bind]. rewrite Hmi. cbn [bind].
  destruct (float_mod_range _ _ 60 neg m e units_60) as (ms & es & Hs & _);
    try lia.
  rewrite Hs. cbn [bind]. eexists. reflexivity.
Qed.

Lemma format_time_nan : format_time FNan = Raise ValueError.
Proof. unfold format_time. rewrite float_3600. reflexivity. Qed.

Lemma format_time_inf neg : format_time (FInf neg) = Raise OverflowError.
Proof. unfold format_time. rewrite float_3600. reflexivity. Qed.

Lemma format_time_ok_finite x s : format_time x = Ok s -> is_finite x = true.
Proof.
  destruct x as [|neg|neg m e]; [rewrite format_time_nan|rewrite format_time_inf|];
    [discriminate|discriminate|reflexivity].
Qed.

(** X16. [format_time] raises exactly on the floats that are not finite,
    [ValueError] on a NaN and [OverflowError] on an infinity (from [int]);
    on every finite float, also one below zero, it returns a text. *)
Theorem format_time_defined x :
  valid_float x ->
  ((exists s, format_time x = Ok s) <-> is_finite x = true) /\
  (x = FNan -> format_time x = Raise ValueError) /\
  (forall neg, x = FInf neg -> format_time x = Raise OverflowError).
Proof.
  intros Hv. split; [split|split].
  - intros [s Hs]. exact (format_time_ok_finite x s Hs).
  - destruct x as [|neg|neg m e]; try discriminate. intros _.
    destruct Hv as [Hm He]. apply format_time_finite; assumption.
  - intros ->. apply format_time_nan.
  - intros neg ->. apply format_time_inf.
Qed.

Lemma format_time_defined_witness :
  (exists s, format_time (FFin true 3 (-1)) = Ok s) <->
  is_finite (FFin true 3 (-1)) = true.
Proof.
  apply (format_time_defined (FFin true 3 (-1))).
  cbn [valid_float]. split; [split; [lia|reflexivity]|lia].
Defined.

(** ** The subtitle rendering: when it raises *)

Lemma float_add_valid a b :
  valid_float a -> valid_float b -> valid_float (float_add a b).
Proof.
  destruct a as [|s1|s1 m1 e1], b as [|s2|s2 m2 e2]; try exact (fun _ _ => I).
  - intros _ _. cbn [float_add]. destruct (Bool.eqb s1 s2); exact I.
  - intros [Hm1 He1] [Hm2 He2]. cbn [float_add].
    set (s := (if s1 then - units m1 e1 else units m1 e1) +
              (if s2 then - units m2 e2 else units m2 e2)).
    destruct (s =? 0).
    + cbn [valid_float]. split; [split|]; lia.
    + apply round_b64_valid; [apply Z.abs_nonneg|apply unit_den_pos].
Qed.

Lemma float_add_finite_l a b :
  is_finite (float_add a b) = true -> is_finite a = true.
Proof.
  destruct a as [|s1|s1 m1 e1], b as [|s2|s2 m2 e2]; cbn [float_add is_finite];
    try discriminate; try reflexivity.
  destruct (Bool.eqb s1 s2); discriminate.
Qed.

Lemma float_div_ok x s m e :
  (m =? 0) = false -> exists q, float_div x (FFin s m e) = Ok q.
Proof.
  intros Hm. destruct x as [|a|a m1 e1]; cbn [float_div is_zero]; rewrite Hm;
    eexists; reflexivity.
Qed.

Lemma float_mod_ok x y : is_zero y = false -> exists r, float_mod x y = Ok r.
Proof.
  intros Hy. unfold float_mod. rewrite Hy.
  destruct (c_fmod x y) as [|a|a [|p|p] e1]; try (eexists; reflexivity);
    destruct (negb _); eexists; reflexivity.
Qed.

Lemma py_int_raise x e : py_int x = Raise e -> e = ValueError \/ e = OverflowError.
Proof.
  destruct x; cbn [py_int]; intros [= <-]; auto.
Qed.

(** [format_time] never raises [ZeroDivisionError]: the divisors are the
    constants 3600 and 60. *)
Lemma format_time_raise x e :
  format_time x = Raise e -> e = ValueError \/ e = OverflowError.
Proof.
  unfold format_time. rewrite float_3600, float_60.
  destruct (float_div_ok x false 7916483719987200 (-41) eq_refl) as [q ->].
  cbn [bind].
  destruct (py_int q) as [h|e1] eqn:Hq; cbn [bind].
  2:{ intros [= <-]. exact (py_int_raise q e1 Hq). }
  destruct (float_mod_ok x (FFin false 7916483719987200 (-41)) eq_refl) as [r ->].
  cbn [bind].
  destruct (float_div_ok r false 8444249301319680 (-47) eq_refl) as [q' ->].
  cbn [bind].
  destruct (py_int q') as [mi|e1] eqn:Hq'; cbn [bind].
  2:{ intros [= <-]. exact (py_int_raise q' e1 Hq'). }
  destruct (float_mod_ok x (FFin false 8444249301319680 (-47)) eq_refl) as [r' ->].
  cbn [bind]. discriminate.
Qed.

Lemma srt_loop_defined t :
  Forall float_times t -> forall i acc,
  (exists out, srt_loop t i acc = Ok out) <-> Forall finite_end t.
Proof.
  induction 1 as [|item rest [Hs Hd] _ IH]; intros i acc; cbn [srt_loop].
  - split; [constructor|]. intros _. eexists. reflexivity.
  - split.
    + intros [out Hout].
      destruct (format_time (start item)) as [s1|] eqn:H1; [|discriminate].
      destruct (format_time (float_add (start item) (duration item))) as [s2|] eqn:H2;
        [|discriminate].
      cbn [bind] in Hout. constructor.
      * exact (format_time_ok_finite _ _ H2).
      * apply (IH (i + 1) (acc ++ str_int i ++ nl ++ s1 ++ " --> " ++ s2 ++ nl ++
                           text item ++ nl ++ nl)).
        exists out. exact Hout.
    + intros Hall. inversion Hall as [|? ? Hf Hrest]; subst.
      pose proof (float_add_valid _ _ Hs Hd) as Hv.
      unfold finite_end in Hf.
      pose proof (float_add_finite_l _ _ Hf) as Hfs.
      destruct (start item) as [|?|n1 m1 e1] eqn:Es; try discriminate.
      destruct (float_add (FFin n1 m1 e1) (duration item)) as [|?|n2 m2 e2] eqn:Ea;
        try discriminate.
      destruct Hs as [Hm1 He1]. destruct Hv as [Hm2 He2].
      destruct (format_time_finite n1 m1 e1 Hm1 He1) as [s1 ->].
      destruct (format_time_finite n2 m2 e2 Hm2 He2) as [s2 ->].
      cbn [bind]. apply IH. exact Hrest.
Qed.

Lemma srt_loop_raise t : forall i acc e,
  srt_loop t i acc = Raise e -> e = ValueError \/ e = OverflowError.
Proof.
  induction t as [|item rest IH]; intros i acc e; cbn [srt_loop]; [discriminate|].
  destruct (format_time (start item)) as [s1|e1] eqn:H1; cbn [bind].
  2:{ intros [= <-]. exact (format_time_raise _ _ H1). }
  destruct (format_time (float_add (start item) (duration item))) as [s2|e2] eqn:H2;
    cbn [bind].
  2:{ intros [= <-]. exact (format_time_raise _ _ H2). }
  apply IH.
Qed.

(** X17. On a transcript whose times are floats, the [srt] rendering
    returns a text exactly when the end time [start + duration] of every
    entry is finite; the sign of the times does not matter. When it raises,
    the exception is a [ValueError] or an [OverflowError]. *)
Theorem srt_rendering_defined t :
  Forall float_times t ->
  ((exists out, format_transcript t (Some "srt") = Ok out) <-> Forall finite_end t) /\
  (forall e, format_transcript t (Some "srt") = Raise e ->
     e = ValueError \/ e = OverflowError).
Proof.
  intros Hv.
  change (format_transcript t (Some "srt")) with (srt_loop t 1 EmptyString).
  split.
  - apply srt_loop_defined. exact Hv.
  - intros e. apply srt_loop_raise.
Qed.

Lemma sample_transcript_floats : Forall float_times sample_transcript.
Proof.
  apply Forall_cons; [|apply Forall_cons; [|apply Forall_nil]];
    vm_compute; repeat split; discriminate.
Qed.

Lemma srt_rendering_defined_witness :
  (exists out, format_transcript sample_transcript (Some "srt") = Ok out) <->
  Forall finite_end sample_transcript.
Proof.
  apply (srt_rendering_defined sample_transcript sample_transcript_floats).
Defined.

(** ** [extract_video_id]: which strings are accepted *)

(** The matcher finds a match whenever the relation has one. *)
Lemma match_re_complete r w c c' :
  matches r w c c' ->
  forall A rest (k : string -> option string -> option A),
    k rest c' <> None -> match_re r (w ++ rest) c k <> None.
Proof.
  induction 1 as [ch cap|ch cap Hsp|r1 r2 w1 w2 c0 c1 c2 _ IH1 _ IH2
                 |r1 r2 w c c' _ IH|r1 r2 w c c' _ IH|r w c c' _ IH|r c|r c
                 |r n w1 w2 c0 c1 c2 _ IH1 _ IH2|r w c c' _ IH|c];
    intros A rest k Hk.
  - cbn [append match_re]. now rewrite Ascii.eqb_refl.
  - cbn [append match_re]. now rewrite Hsp.
  - rewrite app_assoc_s. cbn [match_re]. apply IH1. apply (IH2 A rest k Hk).
  - cbn [match_re]. specialize (IH A rest k Hk).
    destruct (match_re r1 (w ++ rest) c k); [discriminate|contradiction].
  - cbn [match_re]. destruct (match_re r1 (w ++ rest) c k); [discriminate|].
    apply (IH A rest k Hk).
  - cbn [match_re]. specialize (IH A rest k Hk).
    destruct (match_re r (w ++ rest) c k); [discriminate|contradiction].
  - cbn [match_re append]. destruct (match_re r rest c k); [discriminate|exact Hk].
  - exact Hk.
  - rewrite app_assoc_s.
    change (match_re (Rep (S n) r) (w1 ++ w2 ++ rest) c0 k)
      with (match_re r (w1 ++ w2 ++ rest) c0
              (fun s' cap' => match_re (Rep n r) s' cap' k)).
    apply IH1. apply (IH2 A rest k Hk).
  - cbn [match_re]. apply IH. rewrite take_app. exact Hk.
  - exact Hk.
Qed.

Lemma re_search_complete r u : forall pre,
  re_match r u <> None -> re_search r (pre ++ u) <> None.
Proof.
  intros pre Hu. induction pre as [|ch pre IH]; cbn [append].
  - destruct u; cbn [re_search]; destruct (re_match r _); congruence.
  - cbn [re_search]. destruct (re_match r (String ch (pre ++ u))); [discriminate|].
    exact IH.
Qed.

Lemma matches_lit_word w : forall c, matches (lit w) w c c.
Proof.
  induction w as [|ch w IH]; intros c; cbn [lit].
  - apply M_eps.
  - apply (M_cat (Chr ch) (lit w) (String ch EmptyString) w c c c);
      [apply M_chr|apply IH].
Qed.

Lemma matches_run t : forall c,
  no_space t = true -> matches (Rep (String.length t) NotSpace) t c c.
Proof.
  induction t as [|ch t IH]; intros c Hn; cbn [String.length].
  - apply M_rep_0.
  - cbn [no_space] in Hn. apply andb_true_iff in Hn as [Hc Ht].
    apply (M_rep_S NotSpace (String.length t) (String ch EmptyString) t c c c).
    + apply M_notspace. now destruct (is_space ch).
    + apply IH. exact Ht.
Qed.

Lemma matches_skip r1 r2 w c c' :
  matches r2 w c c' -> matches (Cat (Opt r1) r2) w c c'.
Proof.
  intros H. apply (M_cat (Opt r1) r2 EmptyString w c c c'); [apply M_opt_none|exact H].
Qed.

(** A host, a slash and eleven characters that are not whitespace match the
    pattern, with every optional part left out. *)
Lemma matches_host_token host tok :
  host = "youtube.com" \/ host = "youtu.be" ->
  String.length tok = 11%nat -> no_space tok = true ->
  matches pattern (host ++ "/" ++ tok) None (Some tok).
Proof.
  intros Hh Hl Hn. unfold pattern. cbn [seq].
  do 2 apply matches_skip.
  apply (M_cat _ _ host ("/" ++ tok) None None (Some tok)).
  { destruct Hh as [-> | ->]; [apply M_alt_l|apply M_alt_r]; apply matches_lit_word. }
  apply (M_cat _ _ "/" tok None None (Some tok)); [apply M_chr|].
  do 8 apply matches_skip.
  rewrite <- (app_nil_r_s tok) at 1.
  apply (M_cat _ _ tok EmptyString None (Some tok) (Some tok)); [|apply M_eps].
  apply (M_group _ _ _ None). rewrite <- Hl. apply matches_run. exact Hn.
Qed.

Lemma no_space_app a b : no_space (a ++ b) = no_space a && no_space b.
Proof.
  induction a as [|ch a IH]; cbn [append no_space]; [reflexivity|].
  now rewrite IH, andb_assoc.
Qed.

(** Optional literal words without whitespace match words without
    whitespace. *)
Lemma matches_opt_lits ws :
  Forall (fun w => no_space w = true) ws ->
  forall b c c', matches (seq (map (fun w => Opt (lit w)) ws)) b c c' ->
                 no_space b = true.
Proof.
  induction 1 as [|w ws Hw _ IH]; intros b c c' M; cbn [map seq] in M.
  - inversion M; subst. reflexivity.
  - inversion M as [| |r1 r2 w1 w2 c0 c1 c2 M1 M2| | | | | | | |]; subst.
    rewrite no_space_app, (IH _ _ _ M2), andb_true_r.
    inversion M1 as [| | | | |r u c3 c4 M3| | | | |]; subst; [|reflexivity].
    apply matches_lit in M3. now subst.
Qed.

Lemma length_take n : forall s, (n <= String.length s)%nat -> String.length (take n s) = n.
Proof.
  induction n as [|n IH]; intros [|ch s] Hl; cbn [take String.length] in *;
    try reflexivity; try lia.
  rewrite IH; [reflexivity|lia].
Qed.

Lemma take_drop n : forall s, take n s ++ drop n s = s.
Proof.
  induction n as [|n IH]; intros [|ch s]; cbn [take drop append]; try reflexivity.
  now rewrite IH.
Qed.

Lemma no_space_take n : forall s, no_space s = true -> no_space (take n s) = true.
Proof.
  induction n as [|n IH]; intros [|ch s] Hn; cbn [take no_space] in *; try reflexivity.
  apply andb_true_iff in Hn as [Hc Hs]. now rewrite Hc, IH.
Qed.

(** In a match of the pattern the host and the slash are followed by at
    least eleven characters that are not whitespace. *)
Lemma matches_pattern_run w cap :
  matches pattern w None cap ->
  exists a host u,
    w = a ++ host ++ "/" ++ u /\
    (host = "youtube.com" \/ host = "youtu.be") /\
    (11 <= String.length u)%nat /\ no_space u = true.
Proof.
  rewrite pattern_parts. intros H.
  apply matches_seq_app in H as (a & w1 & c1 & -> & Ma & H).
  apply matches_seq_app in H as (wh & w2 & c2 & -> & Mh & H).
  apply matches_seq_app in H as (b & w3 & c3 & -> & Mb & H).
  cbn [seq] in Mh, H.
  inversion Mh as [| |r1 r2 h x c0 c4 c5 M1 M2| | | | | | | |]; subst.
  inversion M2 as [| |r1 r2 sl y c0 c6 c7 M3 M4| | | | | | | |]; subst.
  inversion M3; subst. inversion M4; subst.
  inversion H as [| |r1 r2 t z c0 c8 c9 M5 M6| | | | | | | |]; subst.
  inversion M6; subst.
  inversion M5; subst.
  match goal with
  | M : matches (Rep 11 NotSpace) _ _ _ |- _ =>
      destruct (matches_rep_notspace _ _ _ _ M) as (Hl & Hn & _)
  end.
  assert (Hb : no_space b = true).
  { apply (matches_opt_lits
             ["watch?v="; "embed/"; "v/"; "shorts/"; "live/"; "embed/"; "shorts/"; "v="])
      with (c := c2) (c' := c3); [|exact Mb].
    repeat constructor. }
  exists a, h, (b ++ t). rewrite !app_nil_r_s. cbn [append].
  repeat split.
  - now rewrite !app_assoc_s.
  - inversion M1; subst;
      match goal with
      | M : matches _ h _ _ |- _ =>
          first [ apply (matches_lit "youtube.com") in M
                | apply (matches_lit "youtu.be") in M ]; subst; auto
      end.
  - rewrite length_app. lia.
  - now rewrite no_space_app, Hb, Hn.
Qed.

(** A string that yields an identifier holds a video link. *)
Lemma extract_some_link url id :
  extract_video_id url = Some id -> has_video_link url.
Proof.
  unfold extract_video_id, has_video_link. intros H.
  destruct (re_search pattern url) as [m|] eqn:Hs; [|discriminate].
  apply re_search_sound in Hs as (pre & w & rest & cap & -> & M & _).
  apply matches_pattern_run in M as (a & host & u & -> & Hh & Hl & Hn).
  exists (pre ++ a), host, (take 11 u), (drop 11 u ++ rest).
  repeat split.
  - rewrite <- (take_drop 11 u) at 1. now rewrite !app_assoc_s.
  - exact Hh.
  - apply length_take. exact Hl.
  - apply no_space_take. exact Hn.
Qed.

(** A string that holds a video link yields an identifier: the search
    reaches the link, or stops at a match before it. *)
Lemma link_extract_some url :
  has_video_link url -> exists id, extract_video_id url = Some id.
Proof.
  unfold extract_video_id, has_video_link.
  intros (pre & host & tok & rest & -> & Hh & Hl & Hn).
  pose proof (matches_host_token host tok Hh Hl Hn) as M.
  assert (Hm : re_match pattern (host ++ "/" ++ tok ++ rest) <> None).
  { unfold re_match.
    replace (host ++ "/" ++ tok ++ rest) with ((host ++ "/" ++ tok) ++ rest)
      by now rewrite !app_assoc_s.
    apply (match_re_complete _ _ _ _ M). discriminate. }
  apply (re_search_complete _ _ pre) in Hm.
  destruct (re_search pattern (pre ++ host ++ "/" ++ tok ++ rest)) as [m|] eqn:Hs;
    [|contradiction].
  apply re_search_sound in Hs as (pre' & w & rest' & cap & _ & M' & ->).
  apply matches_pattern in M' as (a & h & b & t & _ & _ & _ & _ & ->).
  exists t. reflexivity.
Qed.

(** X18. [extract_video_id] returns an identifier exactly for the strings
    in which [youtube.com/] or [youtu.be/] is followed at once by eleven
    characters that are not whitespace; the identifier returned need not be
    those eleven characters. *)
Theorem extract_video_id_accepts url :
  (exists id, extract_video_id url = Some id) <-> has_video_link url.
Proof.
  split.
  - intros [id H]. exact (extract_some_link url id H).
  - apply link_extract_some.
Qed.

(** X18, on a short link: the link is found from the identifier returned. *)
Lemma extract_video_id_accepts_witness : has_video_link "https://youtu.be/dQw4w9WgXcQ".
Proof.
  apply (proj1 (extract_video_id_accepts "https://youtu.be/dQw4w9WgXcQ")).
  exists "dQw4w9WgXcQ". vm_compute. reflexivity.
Defined.

Lemma no_link_rejected (video_url : option string) :
  (forall url, video_url = Some url -> extract_video_id url = None) <->
  ~ (exists url, video_url = Some url /\ has_video_link url).
Proof.
  split.
  - intros H (url & E & L). apply link_extract_some in L as [id Hid].
    rewrite (H url E) in Hid. discriminate.
  - intros H url E. destruct (extract_video_id url) as [id|] eqn:Hx; [|reflexivity].
    exfalso. apply H. exists url. split; [exact E|].
    exact (extract_some_link url id Hx).
Qed.

(** X19. [/api/transcript] and [/api/check-transcript] answer 400 exactly
    when the [video_url] parameter is missing or holds no video link:
    nowhere [youtube.com/] or [youtu.be/] followed at once by eleven
    characters that are not whitespace. What the retrieval library would do
    and the [format] parameter play no part. *)
Theorem bad_request_iff api lister video_url format :
  (status (get_transcript api video_url format) = 400 <->
   ~ (exists url, video_url = Some url /\ has_video_link url)) /\
  (reply_status (check_transcript lister video_url) = 400 <->
   ~ (exists url, video_url = Some url /\ has_video_link url)).
Proof.
  rewrite <- no_link_rejected.
  unfold get_transcript, check_transcript.
  destruct video_url as [[|c url]|].
  - split; (split; [|reflexivity]); intros _ u [= <-]; reflexivity.
  - destruct (extract_video_id (String c url)) as [[|c' id]|] eqn:Hx.
    + apply extract_video_id_nonempty in Hx as [Hx _]. congruence.
    + split; split.
      * destruct (api (String c' id)); try discriminate.
        destruct (format_transcript _ _); [|discriminate].
        destruct (_ =? "txt")%string; [discriminate|].
        destruct (_ =? "srt")%string; discriminate.
      * intros H. specialize (H _ eq_refl). congruence.
      * destruct (lister (String c' id)); discriminate.
      * intros H. specialize (H _ eq_refl). congruence.
    + split; (split; [|reflexivity]); intros _ u [= <-]; exact Hx.
  - split; (split; [|reflexivity]); intros _ u; discriminate.
Qed.

(** X19, on a bare identifier: it is answered 400, so there is no link in
    it. *)
Lemma bad_request_iff_witness :
  status (get_transcript (fun _ => VideoUnavailable) (Some "dQw4w9WgXcQ") None) = 400 /\
  (status (get_transcript (fun _ => VideoUnavailable) (Some "dQw4w9WgXcQ") None) = 400 <->
   ~ (exists url, Some "dQw4w9WgXcQ" = Some url /\ has_video_link url)).
Proof.
  split; [vm_compute; reflexivity|].
  exact (proj1 (bad_request_iff (fun _ => VideoUnavailable) (fun _ => Listed)
                  (Some "dQw4w9WgXcQ") None)).
Defined.
